(** * dm-zoned tools: the zoned device abstraction layer of [dmz_dev.c]

    A shallow embedding of [src/dmz_dev.c]: the address translators, the
    zone topology builder [dmz_get_dev_zones], and the safety checks made
    when a backend block device is opened.

    C data is modelled as the code has it.  [__u64] and [unsigned int]
    values are integers of [Z] with their wrap-around written out
    ([u64], [u32]); a C string is a [string]; the array [dev->bdev] is a
    list whose length is [dev->nr_bdev]; the array [dev->zones] is a list
    updated by index.  What the kernel, libblkid and the file system answer
    is an explicit environment that the functions read.  Of the output only
    the lines written to [stderr] are kept; what [DMZ_VVERBOSE] prints to
    [stdout] changes no result and is left out. *)

From Stdlib Require Import Ascii.
From stdpp Require Import numbers list strings.

Local Open Scope Z_scope.

(** ** Machine integers *)

Definition u64 (x : Z) : Z := x mod 2 ^ 64.
Definition u32 (x : Z) : Z := x mod 2 ^ 32.

(** [(__u64)-1] *)
Definition U64_MAX : Z := 2 ^ 64 - 1.

(** ** Constants of [dmz.h]

    The header [dmz.h] is not among the sources.  The constants the code
    takes from it are parameters of the development: the general theorems
    hold for all their values, and the concrete scenarios are run at the
    values of [std_h] below.  [HAVE_BLK_ZONE_REP_V2] is the configure-time
    switch that selects one of the two definitions of [dmz_zone_capacity].
    The fields [zone_nr_sectors] are taken to be 64 bits wide, so that the
    product [nr_zones * dev->zone_nr_sectors] is a 64-bit one. *)

Class dmz_h : Type := {
  DMZ_BLOCK_SECTORS_SHIFT : Z;   (* dmz_blk2sect(b) is b << this *)
  DMZ_BLOCK_SECTORS_MASK : Z;    (* sectors per block, minus one *)
  DMZ_OVERWRITE : Z;             (* flag bit of --force *)
  DMZ_OP_FORMAT : Z;             (* enum dmz_op value of the format operation *)
  BLK_ZONE_TYPE_UNKNOWN : Z;
  BLK_ZONE_COND_NOT_WP : Z;
  HAVE_BLK_ZONE_REP_V2 : bool
}.

(** A choice of values for the scenarios: 4096-byte blocks of eight
    512-byte sectors, on a build with zone capacity support. *)
Definition std_h : dmz_h := {|
  DMZ_BLOCK_SECTORS_SHIFT := 3;
  DMZ_BLOCK_SECTORS_MASK := 7;
  DMZ_OVERWRITE := 8;
  DMZ_OP_FORMAT := 2;
  BLK_ZONE_TYPE_UNKNOWN := 0;
  BLK_ZONE_COND_NOT_WP := 0;
  HAVE_BLK_ZONE_REP_V2 := true
|}.

(** The same header on a build without zone capacity support. *)
Definition std_h_v1 : dmz_h := {|
  DMZ_BLOCK_SECTORS_SHIFT := 3;
  DMZ_BLOCK_SECTORS_MASK := 7;
  DMZ_OVERWRITE := 8;
  DMZ_OP_FORMAT := 2;
  BLK_ZONE_TYPE_UNKNOWN := 0;
  BLK_ZONE_COND_NOT_WP := 0;
  HAVE_BLK_ZONE_REP_V2 := false
|}.

(** ** Data model *)

(** [bdev->type] *)
Inductive dmz_type : Type :=
  | DMZ_TYPE_REGULAR
  | DMZ_TYPE_ZONED_HA
  | DMZ_TYPE_ZONED_HM.

Definition is_regular (t : dmz_type) : bool :=
  match t with DMZ_TYPE_REGULAR => true | _ => false end.

(** [struct dmz_block_dev]: the fields the code of [dmz_dev.c] reads. *)
Record dmz_block_dev : Type := {
  path : string;
  name : string;
  btype : dmz_type;
  capacity : Z;          (* __u64, 512-byte sectors *)
  block_offset : Z;      (* __u64, first composite block of the device *)
  nr_zones : Z;          (* unsigned int *)
  bdev_zone_nr_sectors : Z;   (* zone_nr_sectors; zone_nr_blocks, which
                                 no function here reads, is left out *)
  fd : Z                 (* int, -1 when closed *)
}.

(** [struct blk_zone] of the kernel's zone report. *)
Record blk_zone : Type := {
  zstart : Z;            (* __u64 start *)
  zlen : Z;              (* __u64 len *)
  zwp : Z;               (* __u64 wp *)
  ztype : Z;             (* __u8 *)
  zcond : Z;             (* __u8 *)
  znon_seq : Z;          (* __u8 *)
  zreset : Z;            (* __u8 *)
  zcapacity : Z          (* __u64 capacity; reserved bytes before version 2 *)
}.

(** An entry of the zone array as [calloc] leaves it. *)
Definition zero_zone : blk_zone :=
  {| zstart := 0; zlen := 0; zwp := 0; ztype := 0; zcond := 0;
     znon_seq := 0; zreset := 0; zcapacity := 0 |}.

(** [struct dmz_dev]: the composite device as [dmz_get_dev_zones] finds it.
    [dev->nr_bdev] is the length of [bdev]. *)
Record dmz_dev : Type := {
  bdev : list dmz_block_dev;
  dev_capacity : Z;      (* __u64 capacity, sectors *)
  zone_nr_sectors : Z    (* uniform zone size, sectors *)
}.

Definition dmz_zone_sector (z : blk_zone) : Z := zstart z.
Definition dmz_zone_length (z : blk_zone) : Z := zlen z.

Section Translator.
Context {h : dmz_h}.

Definition dmz_blk2sect (b : Z) : Z := u64 (Z.shiftl b DMZ_BLOCK_SECTORS_SHIFT).

(** The result of a translation: the backend found, as its index in
    [dev->bdev] together with the descriptor it points to, [None] for the
    [NULL] pointer; and the value stored through the result pointer. *)
Definition located : Type := (option (nat * dmz_block_dev) * Z)%type.

(** The loop [for (i = nr_bdev - 1; i >= 0; i--)] visits the backends from
    the last to the first: [scan_blocks] runs over the reversed array, the
    index of the head being the length of what is left. *)
Fixpoint scan_blocks (rev_bdev : list dmz_block_dev) (block : Z) : located :=
  match rev_bdev with
  | [] => (None, U64_MAX)
  | b :: rest =>
      if block_offset b <=? block
      then (Some (length rest, b), u64 (block - block_offset b))
      else scan_blocks rest block
  end.

Definition dmz_block_to_bdev (dev : dmz_dev) (block : Z) : located :=
  scan_blocks (reverse (bdev dev)) block.

Fixpoint scan_sectors (rev_bdev : list dmz_block_dev) (sector : Z) : located :=
  match rev_bdev with
  | [] => (None, U64_MAX)
  | b :: rest =>
      let sector_offset := dmz_blk2sect (block_offset b) in
      if sector_offset <=? sector
      then (Some (length rest, b), u64 (sector - sector_offset))
      else scan_sectors rest sector
  end.

Definition dmz_sector_to_bdev (dev : dmz_dev) (sector : Z) : located :=
  scan_sectors (reverse (bdev dev)) sector.

End Translator.

(** ** The zone topology builder *)

(** The lines [dmz_get_dev_zones] writes to [stderr], one constructor per
    [fprintf]. *)
Inductive diag : Type :=
  | E_NO_MEMORY            (* "Not enough memory" *)
  | E_REPORT_ZONES         (* "Get zone information failed" *)
  | E_ZONE_SIZE            (* "Invalid zone %u size" *)
  | E_ZONE_CAPACITY        (* "Unsupported device with zone capacity smaller
                              than zone size" *)
  | E_ZONE_START           (* "Invalid zone %u start %llu" *)
  | E_NR_ZONES             (* "Invalid number of zones (expected %u, got %u)" *)
  | E_LAST_SECTOR.         (* "Invalid zones (last sector reported is ...)" *)

(** What the builder asks of its environment.  [blkreportzone i d s] is the
    answer to the [i]-th [BLKREPORTZONE] ioctl of the run, counted from 0 and
    issued on backend [d] with [rep->sector = s]: the value [ioctl] returns
    and the [rep->nr_zones] records the kernel left in the report buffer. *)
Record kernel : Type := {
  calloc_ok : bool;
  malloc_ok : bool;
  blkreportzone : nat -> nat -> Z -> Z * list blk_zone
}.

(** The variables of [dmz_get_dev_zones] that change while it runs:
    [dev->zones], [nr_zones], [sector], [ret], and the number of report
    ioctls issued so far. *)
Record build : Type := {
  zones : list blk_zone;
  done_zones : Z;        (* unsigned int nr_zones *)
  sector : Z;            (* __u64 sector *)
  ret : Z;               (* int ret *)
  ioctls : nat
}.

(** How a call ends: it returns [ret], having printed at most one
    diagnostic; it dereferences [NULL] or writes outside [dev->zones]; or the
    model's fuel is exhausted before the [while] loop ends. *)
Inductive outcome : Type :=
  | Returned (r : Z) (msg : option diag) (st : build)
  | Trap
  | OutOfFuel.

(** One pass through the body of the [while] loop. *)
Inductive step : Type :=
  | Next (st : build)                       (* back to the loop test *)
  | Leave (st : build)                      (* loop test false, or break *)
  | Abort (r : Z) (msg : diag) (st : build) (* goto out *)
  | Crash.

Section Builder.
Context {h : dmz_h}.

Definition dmz_zone_capacity (blkz : blk_zone) : Z :=
  if HAVE_BLK_ZONE_REP_V2
  then (if zcapacity blkz =? 0 then dmz_zone_length blkz else zcapacity blkz)
  else dmz_zone_length blkz.

(** [dev->nr_zones], summed over the backends in [unsigned int]. *)
Definition dev_nr_zones (dev : dmz_dev) : Z :=
  fold_left (fun acc b => u32 (acc + nr_zones b)) (bdev dev) 0.

(** The body of [for (i = 0; i < rep->nr_zones; i++)] for one record. *)
Definition report_zone (dev : dmz_dev) (b : dmz_block_dev) (sector_offset : Z)
    (st : build) (blkz : blk_zone) : diag * build + build :=
  if negb (dmz_zone_length blkz =? zone_nr_sectors dev) &&
     negb (u64 (dmz_zone_sector blkz + dmz_zone_length blkz) =? capacity b)
  then inl (E_ZONE_SIZE, st)
  else if dmz_zone_capacity blkz <? dmz_zone_length blkz
  then inl (E_ZONE_CAPACITY, st)
  else if dev_nr_zones dev <=? done_zones st
  then inl (E_ZONE_START, st)
  else
    let blkz' :=
      {| zstart := u64 (zstart blkz + sector_offset);
         zlen := zlen blkz;
         zwp := u64 (zwp blkz + sector_offset);
         ztype := ztype blkz; zcond := zcond blkz;
         znon_seq := znon_seq blkz; zreset := zreset blkz;
         zcapacity := zcapacity blkz |} in
    (* done_zones < dev->nr_zones, the allocated length of dev->zones *)
    inr {| zones := <[Z.to_nat (done_zones st) := blkz']> (zones st);
           done_zones := u32 (done_zones st + 1);
           sector := u64 (dmz_zone_sector blkz' + dmz_zone_length blkz');
           ret := ret st;
           ioctls := ioctls st |}.

(** The [for] loop over the records of one report. *)
Fixpoint report_zones (dev : dmz_dev) (b : dmz_block_dev) (sector_offset : Z)
    (reply : list blk_zone) (st : build) : diag * build + build :=
  match reply with
  | [] => inr st
  | blkz :: more =>
      match report_zone dev b sector_offset st blkz with
      | inl e => inl e
      | inr st' => report_zones dev b sector_offset more st'
      end
  end.

(** The branch [bdev->type == DMZ_TYPE_REGULAR]: one emulated zone. *)
Definition emulate_zone (dev : dmz_dev) (b : dmz_block_dev) (st : build) : step :=
  let start := sector st in
  let zone_len :=
    if capacity b <? u64 (start + zone_nr_sectors dev)
    then u64 (capacity b - start)
    else zone_nr_sectors dev in
  match zones st !! Z.to_nat (done_zones st) with
  | None => Crash                            (* write past the zone array *)
  | Some old =>
      let blkz :=
        {| zstart := start; zlen := zone_len; zwp := U64_MAX;
           ztype := BLK_ZONE_TYPE_UNKNOWN; zcond := BLK_ZONE_COND_NOT_WP;
           znon_seq := znon_seq old; zreset := zreset old;
           zcapacity := zcapacity old |} in
      Next {| zones := <[Z.to_nat (done_zones st) := blkz]> (zones st);
              done_zones := u32 (done_zones st + 1);
              sector := u64 (sector st + zone_nr_sectors dev);
              ret := ret st;
              ioctls := ioctls st |}
  end.

(** [ret = ioctl(bdev->fd, BLKREPORTZONE, rep)] has returned [r]. *)
Definition ioctl_done (st : build) (r : Z) : build :=
  {| zones := zones st; done_zones := done_zones st;
     sector := sector st; ret := r; ioctls := S (ioctls st) |}.

(** The branch of a zoned backend: one report ioctl and its records. *)
Definition query_zones (k : kernel) (dev : dmz_dev) (d : nat)
    (b : dmz_block_dev) (bdev_sector : Z) (st : build) : step :=
  let sector_offset := dmz_blk2sect (block_offset b) in
  let '(r, reply) := blkreportzone k (ioctls st) d bdev_sector in
  let st1 := ioctl_done st r in
  if negb (r =? 0) then Abort r E_REPORT_ZONES st1
  else match reply with
       | [] => Leave st1                     (* if (!rep->nr_zones) break; *)
       | _ =>
           match report_zones dev b sector_offset reply st1 with
           | inl (e, st2) => Abort (-1) e st2
           | inr st2 => Next st2
           end
       end.

Definition loop_body (k : kernel) (dev : dmz_dev) (st : build) : step :=
  if sector st <? dev_capacity dev then
    match dmz_sector_to_bdev dev (sector st) with
    | (None, _) => Crash                     (* bdev->type with bdev == NULL *)
    | (Some (d, b), bdev_sector) =>
        if is_regular (btype b)
        then emulate_zone dev b st
        else query_zones k dev d b bdev_sector st
    end
  else Leave st.

(** The checks made once the loop is left. *)
Definition final_checks (dev : dmz_dev) (st : build) : outcome :=
  if negb (dev_nr_zones dev =? done_zones st)
  then Returned (-1) (Some E_NR_ZONES) st
  else if negb (sector st =? u64 (done_zones st * zone_nr_sectors dev))
  then Returned (-1) (Some E_LAST_SECTOR) st
  else Returned (ret st) None st.

(** The [while] loop followed by the final checks, from any state. *)
Fixpoint build_from (k : kernel) (dev : dmz_dev) (fuel : nat) (st : build)
    : outcome :=
  match fuel with
  | O => OutOfFuel
  | S fuel' =>
      match loop_body k dev st with
      | Next st' => build_from k dev fuel' st'
      | Leave st' => final_checks dev st'
      | Abort r e st' => Returned r (Some e) st'
      | Crash => Trap
      end
  end.

(** The state after the allocations: a zeroed zone array of
    [dev->nr_zones] entries, [sector = 0], [nr_zones = 0], [ret = -1]. *)
Definition initial (dev : dmz_dev) : build :=
  {| zones := replicate (Z.to_nat (dev_nr_zones dev)) zero_zone;
     done_zones := 0; sector := 0; ret := -1; ioctls := O |}.

Definition dmz_get_dev_zones (k : kernel) (dev : dmz_dev) (fuel : nat)
    : outcome :=
  if negb (calloc_ok k) then
    Returned (-1) (Some E_NO_MEMORY)
      {| zones := []; done_zones := 0; sector := 0; ret := -1; ioctls := O |}
  else if negb (malloc_ok k) then
    Returned (-1) (Some E_NO_MEMORY) (initial dev)
  else build_from k dev fuel (initial dev).

(** The state reached after [n] full passes of the loop body, if the loop
    is still running then. *)
Fixpoint after (k : kernel) (dev : dmz_dev) (n : nat) (st : build)
    : option build :=
  match n with
  | O => Some st
  | S n' =>
      match loop_body k dev st with
      | Next st' => after k dev n' st'
      | _ => None
      end
  end.

(** The pass of the loop that follows [n] full passes finds the cursor on
    the zoned backend [b], of index [d], and its report ioctl succeeds with
    the records [reply]. *)
Definition receives_report (k : kernel) (dev : dmz_dev) (n : nat)
    (st : build) (d : nat) (b : dmz_block_dev) (reply : list blk_zone)
    : Prop :=
  calloc_ok k = true /\ malloc_ok k = true /\
  after k dev n (initial dev) = Some st /\
  sector st < dev_capacity dev /\
  exists bdev_sector,
    dmz_sector_to_bdev dev (sector st) = (Some (d, b), bdev_sector) /\
    is_regular (btype b) = false /\
    blkreportzone k (ioctls st) d bdev_sector = (0, reply).

(** The zone table handed back by a call that returned. *)
Definition zone_table (o : outcome) : option (list blk_zone) :=
  match o with
  | Returned _ _ st => Some (zones st)
  | _ => None
  end.

(** The size test of the builder: the length is the uniform zone size, or
    the zone ends where the backend ends (in 64-bit arithmetic). *)
Definition size_ok (dev : dmz_dev) (b : dmz_block_dev) (z : blk_zone) : Prop :=
  zlen z = zone_nr_sectors dev \/ u64 (zstart z + zlen z) = capacity b.

Definition capacity_ok (z : blk_zone) : Prop := zlen z <= dmz_zone_capacity z.

(** What holds of the zone array all along a run: it keeps its allocated
    length, the entries from [nr_zones] on are still as [calloc] left them,
    and no entry has a capacity below its length. *)
Definition table_inv (dev : dmz_dev) (st : build) : Prop :=
  0 <= done_zones st /\
  length (zones st) = Z.to_nat (dev_nr_zones dev) /\
  (forall (i : nat) z, zones st !! i = Some z ->
     (Z.to_nat (done_zones st) <= i)%nat -> z = zero_zone) /\
  Forall capacity_ok (zones st).

Definition step_inv (dev : dmz_dev) (s : step) : Prop :=
  match s with
  | Next st | Leave st | Abort _ _ st => table_inv dev st
  | Crash => True
  end.

(** The regular branch taken [n] times in a row, the cursor being inside
    the composite each time. *)
Fixpoint emulate_n (dev : dmz_dev) (b : dmz_block_dev) (n : nat) (st : build)
    : option build :=
  match n with
  | O => Some st
  | S n' =>
      if (0 <=? sector st) && (sector st <? dev_capacity dev) then
        match emulate_zone dev b st with
        | Next st' => emulate_n dev b n' st'
        | _ => None
        end
      else None
  end.

(** A zone as the regular branch writes it into a zeroed entry. *)
Definition emulated_zone (start len : Z) : blk_zone :=
  {| zstart := start; zlen := len; zwp := U64_MAX;
     ztype := BLK_ZONE_TYPE_UNKNOWN; zcond := BLK_ZONE_COND_NOT_WP;
     znon_seq := 0; zreset := 0; zcapacity := 0 |}.

End Builder.

(** ** The safety checks of [dmz_open_bdev] and [dmz_get_bdev_holder] *)

(** A line of [/proc/mounts] as [getmntent] returns it. *)
Record mntent : Type := {
  mnt_fsname : string;
  mnt_dir : string
}.

(** What the calls of libblkid return for one device. *)
Record blkid : Type := {
  new_probe : bool;            (* blkid_new_probe_from_filename is not NULL *)
  enable_superblocks : Z;
  enable_partitions : Z;
  do_fullprobe : Z;            (* 1: nothing found, 0: found, negative: error *)
  lookup_TYPE : Z;             (* blkid_probe_lookup_value(pr, "TYPE") *)
  lookup_PTTYPE : Z            (* blkid_probe_lookup_value(pr, "PTTYPE") *)
}.

(** How [fopen] on the sysfs attribute [partition] ends. *)
Inductive fopen_result : Type :=
  | FOPEN_OK
  | FOPEN_ENOENT
  | FOPEN_ERROR.

(** The system the tool runs on, as the checks observe it. *)
Record host : Type := {
  stat_is_blk : string -> option bool;       (* None: stat fails *)
  blkid_of : string -> blkid;
  proc_mounts : option (list mntent);        (* None: setmntent fails *)
  scandir : string -> option (list string);  (* None: negative result;
                                                the names in alphasort order *)
  open_rdwr : string -> Z;                   (* the descriptor, or negative *)
  fopen_partition : string -> fopen_result;
  read_zoned : string -> option (option string);     (* fopen, then fscanf *)
  blkgetsize64 : Z -> option Z;                      (* by descriptor; bytes *)
  read_chunk_sectors : string -> option (option Z)   (* fopen, fscanf, atol *)
}.

(** The lines the checks write to [stderr]. *)
Inductive msg : Type :=
  | M_STAT_FAILED
  | M_NOT_BLOCK_DEVICE
  | M_EXISTING_FILESYSTEM
  | M_PARTITION_TABLE
  | M_SOMETHING
  | M_USE_FORCE
  | M_PROBE_FAILED
  | M_MOUNTED
  | M_SCANDIR_FAILED
  | M_IN_USE
  | M_OPEN_FAILED
  | M_NAME_TOO_LONG
  | M_SYSFS_OPEN_FAILED
  | M_INVALID_FORMAT
  | M_GET_CAPACITY_FAILED
  | M_INVALID_ZONE_SIZE
  | M_INVALID_NR_ZONES.

Definition PATH_MAX : Z := 4096.

(** *** [basename] of [libgen.h]

    [dmz_dev.c] includes [libgen.h], so [basename] is the POSIX function,
    which works in the buffer of its caller: it cuts the slashes at the end
    of the path by writing a NUL over the first of them, and returns a
    pointer to the last component.  The cases below are those of the GNU C
    library. *)

(** [strrchr(filename, '/') + 1]: what follows the last slash of the
    string, [None] when the string has no slash. *)
Fixpoint after_last_slash (s : string) : option string :=
  match s with
  | EmptyString => None
  | String c rest =>
      match after_last_slash rest with
      | Some t => Some t
      | None => if Ascii.eqb c "/"%char then Some rest else None
      end
  end.

(** The string without the slashes at its end. *)
Fixpoint strip_slashes (s : string) : string :=
  match s with
  | EmptyString => EmptyString
  | String c rest =>
      match strip_slashes rest with
      | EmptyString =>
          if Ascii.eqb c "/"%char then EmptyString else String c EmptyString
      | rest' => String c rest'
      end
  end.

(** The content of the buffer after the call, and the string returned.
    An empty path gives the static string [.]; a path that does not end in
    a slash is left as it is; a path made of slashes only is left as it is
    and the string returned is [/]; any other path loses the slashes at its
    end. *)
Definition basename (filename : string) : string * string :=
  if String.eqb filename "" then (filename, ".")
  else
    match after_last_slash filename with
    | None => (filename, filename)
    | Some EmptyString =>
        let stripped := strip_slashes filename in
        if String.eqb stripped "" then (filename, "/")
        else (stripped,
              match after_last_slash stripped with
              | Some component => component
              | None => stripped
              end)
    | Some component => (filename, component)
    end.

Section Guard.
Context {h : dmz_h}.
Variable sys : host.

(** The [while ((mnt = getmntent(file)) != NULL)] loop: the entry it stops
    at, [None] at the end of the table. *)
Fixpoint find_mount (p : string) (table : list mntent) : option mntent :=
  match table with
  | [] => None
  | mnt :: more =>
      if String.eqb p (mnt_fsname mnt) then Some mnt else find_mount p more
  end.

Definition dmz_bdev_mounted (b : dmz_block_dev) : Z :=
  match proc_mounts sys with
  | None => 0
  | Some table =>
      match find_mount (path b) table with
      | Some _ => 1
      | None => 0
      end
  end.

(** [while (n--)] over the name list, from its last entry to its first.
    [holder] is [None] for a [NULL] buffer. *)
Fixpoint scan_holders (rev_names : list string) (holder : option string)
    (r : Z) : Z * option string :=
  match rev_names with
  | [] => (r, holder)
  | d_name :: more =>
      if negb (String.eqb d_name "..") && negb (String.eqb d_name ".")
      then scan_holders more
             (match holder with Some _ => Some d_name | None => None end) 1
      else scan_holders more holder r
  end.

(** [snprintf] into [char path[128]] keeps at most 127 characters. *)
Definition holders_path (b : dmz_block_dev) : string :=
  String.substring 0 127 ("/sys/class/block/" +:+ name b +:+ "/holders").

Definition dmz_bdev_busy (b : dmz_block_dev) (holder : option string)
    : Z * option string * list msg :=
  match scandir sys (holders_path b) with
  | None => (-1, holder, [M_SCANDIR_FAILED])
  | Some names =>
      let '(r, holder') := scan_holders (reverse names) holder 0 in
      (r, holder', [])
  end.

Definition dmz_bdev_is_partition (b : dmz_block_dev) : Z * list msg :=
  let str := "/sys/class/block/" +:+ name b +:+ "/partition" in
  if PATH_MAX <=? Z.of_nat (String.length str) then (-1, [M_NAME_TOO_LONG])
  else match fopen_partition sys str with
       | FOPEN_OK => (1, [])
       | FOPEN_ENOENT => (0, [])
       | FOPEN_ERROR => (-1, [])
       end.

Definition with_type (b : dmz_block_dev) (t : dmz_type) : dmz_block_dev :=
  {| path := path b; name := name b; btype := t; capacity := capacity b;
     block_offset := block_offset b; nr_zones := nr_zones b;
     bdev_zone_nr_sectors := bdev_zone_nr_sectors b; fd := fd b |}.

Definition dmz_get_bdev_model (b : dmz_block_dev)
    : Z * dmz_block_dev * list msg :=
  let '(res, m) := dmz_bdev_is_partition b in
  if res <? 0 then (res, b, m)
  else if negb (res =? 0) then (0, with_type b DMZ_TYPE_REGULAR, m)
  else
    let str := "/sys/block/" +:+ name b +:+ "/queue/zoned" in
    if PATH_MAX <=? Z.of_nat (String.length str)
    then (-1, b, m ++ [M_NAME_TOO_LONG])
    else match read_zoned sys str with
         | None => (-1, b, m ++ [M_SYSFS_OPEN_FAILED])
         | Some None => (-1, b, m ++ [M_INVALID_FORMAT])
         | Some (Some model) =>
             if String.eqb model "host-aware"
             then (0, with_type b DMZ_TYPE_ZONED_HA, m)
             else if String.eqb model "host-managed"
             then (0, with_type b DMZ_TYPE_ZONED_HM, m)
             else (0, with_type b DMZ_TYPE_REGULAR, m)
         end.

Definition dmz_get_bdev_capacity (b : dmz_block_dev)
    : Z * dmz_block_dev * list msg :=
  match blkgetsize64 sys (fd b) with
  | None => (-1, b, [M_GET_CAPACITY_FAILED])
  | Some bytes =>
      let cap := Z.shiftr (u64 bytes) 9 in
      let b1 := {| path := path b; name := name b; btype := btype b;
                   capacity := cap; block_offset := block_offset b;
                   nr_zones := nr_zones b;
                   bdev_zone_nr_sectors := bdev_zone_nr_sectors b;
                   fd := fd b |} in
      if is_regular (btype b) then (0, b1, [])
      else
        let str := String.substring 0 127
                     ("/sys/block/" +:+ name b +:+ "/queue/chunk_sectors") in
        match read_chunk_sectors sys str with
        | None => (-1, b1, [M_SYSFS_OPEN_FAILED])
        | Some None => (-1, b1, [M_INVALID_FORMAT])
        | Some (Some chunk) =>
            let zs := u64 chunk in
            let b2 := {| path := path b; name := name b; btype := btype b;
                         capacity := cap; block_offset := block_offset b;
                         nr_zones := nr_zones b;
                         bdev_zone_nr_sectors := zs; fd := fd b |} in
            if (zs =? 0) || negb (Z.land zs DMZ_BLOCK_SECTORS_MASK =? 0)
            then (-1, b2, [M_INVALID_ZONE_SIZE])
            else
              let n := u32 (cap / zs) in
              let n := if negb (cap mod zs =? 0) then u32 (n + 1) else n in
              let b3 := {| path := path b; name := name b; btype := btype b;
                           capacity := cap; block_offset := block_offset b;
                           nr_zones := n;
                           bdev_zone_nr_sectors := zs; fd := fd b |} in
              if n =? 0 then (-1, b3, [M_INVALID_NR_ZONES]) else (0, b3, [])
        end
  end.

Definition dmz_get_bdev_info (b : dmz_block_dev)
    : Z * dmz_block_dev * list msg :=
  let '(r1, b1, m1) := dmz_get_bdev_model b in
  if r1 <? 0 then (-1, b1, m1)
  else
    let '(r2, b2, m2) := dmz_get_bdev_capacity b1 in
    if r2 <? 0 then (-1, b2, m1 ++ m2) else (0, b2, m1 ++ m2).

(** Returns -1 on error, 0 if something is detected on the disk and 1 if
    the disk appears to be unused. *)
Definition dmz_check_overwrite (b : dmz_block_dev) : Z * list msg :=
  let pr := blkid_of sys (path b) in
  let '(r, found) :=
    if negb (new_probe pr) then (-1, [])
    else if enable_superblocks pr <? 0 then (enable_superblocks pr, [])
    else if enable_partitions pr <? 0 then (enable_partitions pr, [])
    else if (do_fullprobe pr <? 0) || (do_fullprobe pr =? 1)
    then (do_fullprobe pr, [])
    else if lookup_TYPE pr =? 0 then (0, [M_EXISTING_FILESYSTEM])
    else if lookup_PTTYPE pr =? 0 then (0, [M_PARTITION_TABLE])
    else (0, [M_SOMETHING]) in
  if r =? 0 then (r, found ++ [M_USE_FORCE])
  else if r <? 0 then (r, found ++ [M_PROBE_FAILED])
  else (r, found).

Definition with_name_fd (b : dmz_block_dev) (n : string) (f : Z)
    : dmz_block_dev :=
  {| path := path b; name := n; btype := btype b; capacity := capacity b;
     block_offset := block_offset b; nr_zones := nr_zones b;
     bdev_zone_nr_sectors := bdev_zone_nr_sectors b; fd := f |}.

Definition dmz_close_bdev (b : dmz_block_dev) : dmz_block_dev :=
  if 0 <=? fd b then with_name_fd b (name b) (-1) else b.

(** [bdev->name = basename(bdev->path)]: the name points into the buffer of
    the path, which [basename] may have cut. *)
Definition named (b : dmz_block_dev) : dmz_block_dev :=
  {| path := fst (basename (path b)); name := snd (basename (path b));
     btype := btype b; capacity := capacity b;
     block_offset := block_offset b; nr_zones := nr_zones b;
     bdev_zone_nr_sectors := bdev_zone_nr_sectors b; fd := fd b |}.

Definition dmz_open_bdev (b : dmz_block_dev) (op flags : Z)
    : Z * dmz_block_dev * list msg :=
  let b := named b in
  match stat_is_blk sys (path b) with
  | None => (-1, b, [M_STAT_FAILED])
  | Some false => (-1, b, [M_NOT_BLOCK_DEVICE])
  | Some true =>
      (* when the content check is skipped, r stands for a check passed *)
      let '(r, m) :=
        if (op =? DMZ_OP_FORMAT) && (Z.land flags DMZ_OVERWRITE =? 0)
        then dmz_check_overwrite b
        else (1, []) in
      if r <=? 0 then (-1, b, m)
      else if negb (dmz_bdev_mounted b =? 0) then (-1, b, m ++ [M_MOUNTED])
      else
        let '(busy, _, m') := dmz_bdev_busy b None in
        if negb (busy =? 0) then (-1, b, m ++ m' ++ [M_IN_USE])
        else
          let f := open_rdwr sys (path b) in
          let b := with_name_fd b (name b) f in
          if f <? 0 then (-1, b, m ++ [M_OPEN_FAILED])
          else
            let '(ri, b', mi) := dmz_get_bdev_info b in
            if ri <? 0 then (-1, dmz_close_bdev b', m ++ mi)
            else (0, b', m ++ mi)
  end.

(** [holder] is the content of the caller's buffer on entry; the result
    carries its content on return. *)
Definition dmz_get_bdev_holder (b : dmz_block_dev) (holder : string)
    : Z * string * list msg :=
  let b := named b in
  match stat_is_blk sys (path b) with
  | None => (-1, holder, [M_STAT_FAILED])
  | Some false => (-1, holder, [M_NOT_BLOCK_DEVICE])
  | Some true =>
      if negb (dmz_bdev_mounted b =? 0) then (-1, holder, [M_MOUNTED])
      else
        let '(busy, holder', m) := dmz_bdev_busy b (Some holder) in
        let held := match holder' with Some s => s | None => holder end in
        if busy =? 0 then (0, "", m) else (0, held, m)
  end.

(** The first entry of a holders directory that is neither [.] nor [..]. *)
Fixpoint first_holder (names : list string) : option string :=
  match names with
  | [] => None
  | d_name :: more =>
      if negb (String.eqb d_name "..") && negb (String.eqb d_name ".")
      then Some d_name
      else first_holder more
  end.

(** The descriptor once the device is open. *)
Definition opened (b : dmz_block_dev) : dmz_block_dev :=
  with_name_fd (named b) (name (named b)) (open_rdwr sys (path (named b))).

(** The device path stands in the mount table. *)
Definition listed_in_mounts (b : dmz_block_dev) : Prop :=
  exists table mnt,
    proc_mounts sys = Some table /\ In mnt table /\ mnt_fsname mnt = path b.

End Guard.

(** libblkid finds a file system or a partition table on the device. *)
Definition detects_content (pr : blkid) : Prop :=
  new_probe pr = true /\ 0 <= enable_superblocks pr /\
  0 <= enable_partitions pr /\ do_fullprobe pr = 0 /\
  (lookup_TYPE pr = 0 \/ lookup_PTTYPE pr = 0).

Definition content_kind (pr : blkid) : msg :=
  if lookup_TYPE pr =? 0 then M_EXISTING_FILESYSTEM else M_PARTITION_TABLE.

(** The probe cannot be set up or run. *)
Definition probe_fails (pr : blkid) : Prop :=
  new_probe pr = false \/ enable_superblocks pr < 0 \/
  enable_partitions pr < 0 \/ do_fullprobe pr < 0.

(** The same system with another answer of [setmntent] and [getmntent]. *)
Definition with_mounts (sys : host) (m : option (list mntent)) : host :=
  {| stat_is_blk := stat_is_blk sys;
     blkid_of := blkid_of sys; proc_mounts := m; scandir := scandir sys;
     open_rdwr := open_rdwr sys; fopen_partition := fopen_partition sys;
     read_zoned := read_zoned sys; blkgetsize64 := blkgetsize64 sys;
     read_chunk_sectors := read_chunk_sectors sys |}.

(** ** Scenarios *)

(** A composite of one backend of 8000 sectors, that is 1000 blocks. *)
Definition one_regular (cap : Z) (n : Z) : dmz_block_dev :=
  {| path := "/dev/sdb"; name := "sdb"; btype := DMZ_TYPE_REGULAR;
     capacity := cap; block_offset := 0; nr_zones := n;
     bdev_zone_nr_sectors := 0; fd := 3 |}.

Definition small_dev : dmz_dev :=
  {| bdev := [one_regular 8000 1]; dev_capacity := 8000;
     zone_nr_sectors := 8000 |}.

(** Backends on the SCSI disks [sdb] (regular) and [sdc] (host-managed). *)
Definition regular_bdev (cap off n : Z) : dmz_block_dev :=
  {| path := "/dev/sdb"; name := "sdb"; btype := DMZ_TYPE_REGULAR;
     capacity := cap; block_offset := off; nr_zones := n;
     bdev_zone_nr_sectors := 0; fd := 3 |}.

Definition zoned_bdev (cap off n : Z) : dmz_block_dev :=
  {| path := "/dev/sdc"; name := "sdc"; btype := DMZ_TYPE_ZONED_HM;
     capacity := cap; block_offset := off; nr_zones := n;
     bdev_zone_nr_sectors := 65536; fd := 4 |}.

(** An empty sequential-write-required zone as the kernel reports it, in
    backend-local sectors. *)
Definition seq_zone (start len cap : Z) : blk_zone :=
  {| zstart := start; zlen := len; zwp := start; ztype := 2; zcond := 1;
     znon_seq := 0; zreset := 0; zcapacity := cap |}.

(** A kernel whose zoned device holds the zones [zs], all but the last of
    [size] sectors: a report that starts at sector [s] begins with the zone
    that contains [s]. *)
Definition reporting (size : Z) (zs : list blk_zone) : kernel :=
  {| calloc_ok := true; malloc_ok := true;
     blkreportzone := fun _ _ s => (0, drop (Z.to_nat (s / size)) zs) |}.

(** A kernel that is never asked for a report. *)
Definition silent : kernel :=
  {| calloc_ok := true; malloc_ok := true;
     blkreportzone := fun _ _ _ => (-1, []) |}.

(** One regular backend of 1,000,000 sectors, zones of 65,536 sectors. *)
Definition regular_only : dmz_dev :=
  {| bdev := [regular_bdev 1000000 0 16]; dev_capacity := 1000000;
     zone_nr_sectors := 65536 |}.

(** A zoned backend of one zone followed by a regular backend of [n] zones,
    which starts at block 8192, that is at sector 65536. *)
Definition zoned_then_regular (n : Z) : dmz_dev :=
  {| bdev := [zoned_bdev 65536 0 1; regular_bdev (n * 65536) 8192 n];
     dev_capacity := (n + 1) * 65536;
     zone_nr_sectors := 65536 |}.

(** A zoned backend of one zone followed by a regular backend of 100,000
    sectors, which is one zone and a part of a second. *)
Definition zoned_then_short_regular : dmz_dev :=
  {| bdev := [zoned_bdev 65536 0 1; regular_bdev 100000 8192 2];
     dev_capacity := 165536;
     zone_nr_sectors := 65536 |}.

(** One zoned backend of [n] zones and [cap] sectors. *)
Definition zoned_only (cap n : Z) : dmz_dev :=
  {| bdev := [zoned_bdev cap 0 n]; dev_capacity := cap;
     zone_nr_sectors := 65536 |}.

(** The zone array expected of [regular_only]: fifteen full zones and a
    last one of 1,000,000 - 15 * 65,536 = 16,960 sectors. *)
Definition regular_only_table {h : dmz_h} : list blk_zone :=
  map (fun i => emulated_zone (Z.of_nat i * 65536) 65536) (seq 0 15)
  ++ [emulated_zone 983040 16960].

Definition regular_only_final {h : dmz_h} : build :=
  {| zones := regular_only_table; done_zones := 16; sector := 1048576;
     ret := -1; ioctls := O |}.

(** Records of reports: a zone that declares half of its length as
    capacity, one that declares twice its length, and a zone of 4096
    sectors in the middle of a backend. *)
Definition shrunk_zone : blk_zone := seq_zone 0 65536 32768.
Definition oversized_zone : blk_zone := seq_zone 0 65536 131072.
Definition odd_zone : blk_zone := seq_zone 65536 4096 4096.
Definition full_zone (i : Z) : blk_zone := seq_zone (i * 65536) 65536 65536.

(** The state once the report ioctl of a one-backend composite of two
    zones has returned, and once its first record was accepted. *)
Definition first_accepted : build :=
  {| zones := [full_zone 0; zero_zone]; done_zones := 1; sector := 65536;
     ret := 0; ioctls := 1 |}.

Definition none_accepted : build :=
  {| zones := [zero_zone; zero_zone]; done_zones := 0; sector := 0;
     ret := 0; ioctls := 1 |}.

(** A backend of 100,000 sectors whose second and last zone is short. *)
Definition short_last_zone : blk_zone := seq_zone 65536 34464 34464.

Definition short_last_final : build :=
  {| zones := [full_zone 0; short_last_zone]; done_zones := 2;
     sector := 100000; ret := 0; ioctls := 1 |}.

(** A system whose disk [/dev/sdb] is a block device, with the mount
    table, the probe results and the holders given. *)
Definition demo_host (mounts : option (list mntent)) (pr : blkid)
    (holders : list string) : host :=
  {| stat_is_blk := fun _ => Some true;
     blkid_of := fun _ => pr;
     proc_mounts := mounts;
     scandir := fun _ => Some ("." :: ".." :: holders);
     open_rdwr := fun _ => 3;
     fopen_partition := fun _ => FOPEN_ENOENT;
     read_zoned := fun _ => Some (Some "none");
     blkgetsize64 := fun _ => Some 512000000;
     read_chunk_sectors := fun _ => None |}.

Definition ext4_probe : blkid :=
  {| new_probe := true; enable_superblocks := 0; enable_partitions := 0;
     do_fullprobe := 0; lookup_TYPE := 0; lookup_PTTYPE := -1 |}.

Definition blank_probe : blkid :=
  {| new_probe := true; enable_superblocks := 0; enable_partitions := 0;
     do_fullprobe := 1; lookup_TYPE := -1; lookup_PTTYPE := -1 |}.

Definition sdb_on_mnt : mntent := {| mnt_fsname := "/dev/sdb"; mnt_dir := "/mnt" |}.
Definition root_fs : mntent := {| mnt_fsname := "/dev/sda1"; mnt_dir := "/" |}.

(** The descriptor of [/dev/sdb] before it is opened. *)
Definition sdb : dmz_block_dev :=
  {| path := "/dev/sdb"; name := ""; btype := DMZ_TYPE_REGULAR;
     capacity := 0; block_offset := 0; nr_zones := 0;
     bdev_zone_nr_sectors := 0; fd := -1 |}.

(** The same disk given with a slash at the end of its path. *)
Definition sdb_slash : dmz_block_dev :=
  {| path := "/dev/sdb/"; name := ""; btype := DMZ_TYPE_REGULAR;
     capacity := 0; block_offset := 0; nr_zones := 0;
     bdev_zone_nr_sectors := 0; fd := -1 |}.

(** libblkid cannot open the device. *)
Definition no_probe : blkid :=
  {| new_probe := false; enable_superblocks := -1; enable_partitions := -1;
     do_fullprobe := -1; lookup_TYPE := -1; lookup_PTTYPE := -1 |}.

(** A system that knows the disk under the one string [/dev/sdb]: with any
    other string [stat], libblkid and [open] fail, and the only holders
    directory is the one of [sdb]. *)
Definition sdb_only_host (mounts : option (list mntent)) (pr : blkid)
    (holders : list string) : host :=
  {| stat_is_blk := fun p => if String.eqb p "/dev/sdb" then Some true else None;
     blkid_of := fun p => if String.eqb p "/dev/sdb" then pr else no_probe;
     proc_mounts := mounts;
     scandir := fun p =>
       if String.eqb p "/sys/class/block/sdb/holders"
       then Some ("." :: ".." :: holders) else None;
     open_rdwr := fun p => if String.eqb p "/dev/sdb" then 3 else -1;
     fopen_partition := fun _ => FOPEN_ENOENT;
     read_zoned := fun _ => Some (Some "none");
     blkgetsize64 := fun _ => Some 512000000;
     read_chunk_sectors := fun _ => None |}.

(** The descriptor of that disk once [dmz_open_bdev] has filled it in:
    512,000,000 bytes are 1,000,000 sectors. *)
Definition sdb_opened : dmz_block_dev :=
  {| path := "/dev/sdb"; name := "sdb"; btype := DMZ_TYPE_REGULAR;
     capacity := 1000000; block_offset := 0; nr_zones := 0;
     bdev_zone_nr_sectors := 0; fd := 3 |}.

(** ** Layout of a composite *)

(** The backends lie one after the other from address [start] on: each
    begins, at [key b], where the one before it ends, [size b] further. *)
Fixpoint contiguous (key size : dmz_block_dev -> Z) (start : Z)
    (l : list dmz_block_dev) : Prop :=
  match l with
  | [] => True
  | b :: more => key b = start /\ contiguous key size (start + size b) more
  end.

Definition total_of (size : dmz_block_dev -> Z) (l : list dmz_block_dev) : Z :=
  foldr (fun b acc => size b + acc) 0 l.

Section Layout.
Context {h : dmz_h}.

(** The first sector of a backend in the composite. *)
Definition sector_offset_of (b : dmz_block_dev) : Z :=
  dmz_blk2sect (block_offset b).

(** The composite in sectors: offsets follow from the capacities. *)
Definition laid_out (dev : dmz_dev) : Prop :=
  contiguous sector_offset_of capacity 0 (bdev dev).

(** The composite in blocks, for backends of [nb b] blocks each. *)
Definition laid_out_blocks (nb : dmz_block_dev -> Z) (dev : dmz_dev) : Prop :=
  contiguous block_offset nb 0 (bdev dev).

End Layout.

(** ** More on the runs of the builder *)

Section BuilderRuns.
Context {h : dmz_h}.

(** The pass of the loop that follows [n] full passes finds the cursor on
    the zoned backend [b], of index [d]; its report ioctl returns [r] and
    leaves the records [reply]. *)
Definition asks_report (k : kernel) (dev : dmz_dev) (n : nat)
    (st : build) (d : nat) (b : dmz_block_dev) (r : Z)
    (reply : list blk_zone) : Prop :=
  calloc_ok k = true /\ malloc_ok k = true /\
  after k dev n (initial dev) = Some st /\
  sector st < dev_capacity dev /\
  exists bdev_sector,
    dmz_sector_to_bdev dev (sector st) = (Some (d, b), bdev_sector) /\
    is_regular (btype b) = false /\
    blkreportzone k (ioctls st) d bdev_sector = (r, reply).

(** A record as it is stored in the zone array: start and write pointer
    moved from the sectors of the backend to the sectors of the composite. *)
Definition rebased (sector_offset : Z) (z : blk_zone) : blk_zone :=
  {| zstart := u64 (zstart z + sector_offset);
     zlen := zlen z;
     zwp := u64 (zwp z + sector_offset);
     ztype := ztype z; zcond := zcond z;
     znon_seq := znon_seq z; zreset := zreset z;
     zcapacity := zcapacity z |}.

(** The end of the last record of a report, in composite sectors; the
    cursor when the report is empty. *)
Definition cursor_after (sector_offset : Z) (reply : list blk_zone)
    (cursor : Z) : Z :=
  match last reply with
  | Some z => u64 (zstart (rebased sector_offset z) + zlen z)
  | None => cursor
  end.

(** Zone [i] of a regular backend of [c] sectors cut into zones of [zs]
    sectors: a full zone, or what is left of the backend. *)
Definition regular_zone (zs c : Z) (i : nat) : blk_zone :=
  emulated_zone (Z.of_nat i * zs) (Z.min zs (c - Z.of_nat i * zs)).

(** The variables of the builder once [i] zones of such a backend were
    emulated into an array of [n] entries. *)
Definition regular_state (zs c : Z) (n i : nat) : build :=
  {| zones := map (regular_zone zs c) (seq 0 i)
              ++ replicate (n - i) zero_zone;
     done_zones := Z.of_nat i; sector := Z.of_nat i * zs;
     ret := -1; ioctls := O |}.

End BuilderRuns.

(** ** Metadata blocks: [dmz_read_block], [dmz_write_block], [dmz_sync_dev] *)

(** The content of the open devices: the byte at each position of each
    file descriptor. *)
Definition disk : Type := Z -> Z -> Z.

(** The bytes [pread] delivers, and the content [pwrite] leaves. *)
Definition read_bytes (D : disk) (f off : Z) (n : nat) : list Z :=
  map (fun i => D f (off + Z.of_nat i)) (seq 0 n).

Definition write_bytes (D : disk) (f off : Z) (data : list Z) : disk :=
  fun f' p =>
    if (f' =? f) && (off <=? p) && (p <? off + Z.of_nat (length data))
    then nth (Z.to_nat (p - off)) data 0
    else D f' p.

(** What the system calls return: the byte counts of [pread] and [pwrite]
    by descriptor and position, and the result of the [i]-th [fsync] of a
    call of [dmz_sync_dev]. *)
Record posix_io : Type := {
  pread_count : Z -> Z -> Z;
  pwrite_count : Z -> Z -> Z;
  fsync_result : nat -> Z -> Z
}.

Inductive io_msg : Type :=
  | M_READ_BLOCK_FAILED
  | M_WRITE_BLOCK_FAILED
  | M_FSYNC_FAILED.

(** A 64-bit value read as the signed [off_t]. *)
Definition s64 (x : Z) : Z := if x <? 2 ^ 63 then x else x - 2 ^ 64.

Section BlockIO.
Context {h : dmz_h}.
(** [DMZ_BLOCK_SHIFT] and [DMZ_BLOCK_SIZE] of [dmz.h]. *)
Variables (DMZ_BLOCK_SHIFT DMZ_BLOCK_SIZE : Z).
Variable io : posix_io.

(** The byte position of a local block: [block << DMZ_BLOCK_SHIFT]. *)
Definition block_position (local_block : Z) : Z :=
  s64 (u64 (Z.shiftl local_block DMZ_BLOCK_SHIFT)).

(** The number of bytes a call that returned [c] has moved. *)
Definition moved (c : Z) : nat := Z.to_nat (Z.min c DMZ_BLOCK_SIZE).

(** [None] stands for the access to [bdev->fd] through a null pointer.
    The result carries the buffer as the call leaves it. *)
Definition dmz_read_block (D : disk) (dev : dmz_dev) (block : Z)
    (buf : list Z) : option (Z * list Z * list io_msg) :=
  match dmz_block_to_bdev dev block with
  | (None, _) => None
  | (Some (_, b), read_block) =>
      let pos := block_position read_block in
      let c := pread_count io (fd b) pos in
      let buf' := read_bytes D (fd b) pos (moved c) ++ drop (moved c) buf in
      if negb (c =? DMZ_BLOCK_SIZE)
      then Some (-1, buf', [M_READ_BLOCK_FAILED])
      else Some (0, buf', [])
  end.

(** The result carries the content of the devices after the call. *)
Definition dmz_write_block (D : disk) (dev : dmz_dev) (block : Z)
    (buf : list Z) : option (Z * disk * list io_msg) :=
  match dmz_block_to_bdev dev block with
  | (None, _) => None
  | (Some (_, b), write_block) =>
      let pos := block_position write_block in
      let c := pwrite_count io (fd b) pos in
      let D' := write_bytes D (fd b) pos (take (moved c) buf) in
      if negb (c =? DMZ_BLOCK_SIZE)
      then Some (-1, D', [M_WRITE_BLOCK_FAILED])
      else Some (0, D', [])
  end.

(** The loop of [dmz_sync_dev] from backend [i] on: the value returned and
    the descriptors [fsync] was called on, in order. *)
Fixpoint sync_from (i : nat) (l : list dmz_block_dev) : Z * list Z :=
  match l with
  | [] => (0, [])
  | b :: more =>
      if fsync_result io i (fd b) <? 0 then (-1, [fd b])
      else let '(r, called) := sync_from (S i) more in (r, fd b :: called)
  end.

Definition dmz_sync_dev (dev : dmz_dev) : Z * list Z :=
  sync_from 0 (bdev dev).

End BlockIO.

(** ** More on the safety checks *)

(** The same system with other answers of libblkid. *)
Definition with_blkid (sys : host) (f : string -> blkid) : host :=
  {| stat_is_blk := stat_is_blk sys;
     blkid_of := f; proc_mounts := proc_mounts sys; scandir := scandir sys;
     open_rdwr := open_rdwr sys; fopen_partition := fopen_partition sys;
     read_zoned := read_zoned sys; blkgetsize64 := blkgetsize64 sys;
     read_chunk_sectors := read_chunk_sectors sys |}.

(** The sysfs attribute that exists for partitions only. *)
Definition partition_attribute (b : dmz_block_dev) : string :=
  "/sys/class/block/" +:+ name b +:+ "/partition".

(** The sysfs attribute that holds the zoned model of a disk. *)
Definition zoned_attribute (b : dmz_block_dev) : string :=
  "/sys/block/" +:+ name b +:+ "/queue/zoned".

(** ** More scenarios *)

(** A zoned backend of two zones whose kernel reports both in one report. *)
Definition two_zones : list blk_zone := [full_zone 0; full_zone 1].

(** The state after the first record of a report to a composite that
    expects one zone only. *)
Definition one_of_one : build :=
  {| zones := [full_zone 0]; done_zones := 1; sector := 65536;
     ret := 0; ioctls := 1 |}.

(** One regular backend of 1,000,000 sectors declared with 15 zones, one
    less than its capacity needs. *)
Definition regular_undercounted : dmz_dev :=
  {| bdev := [regular_bdev 1000000 0 15]; dev_capacity := 1000000;
     zone_nr_sectors := 65536 |}.

(** Devices that are all zeros, system calls that move whole blocks of
    4096 bytes, and an [fsync] that fails on descriptor 3. *)
Definition blank_disk : disk := fun _ _ => 0.

Definition whole_blocks : posix_io :=
  {| pread_count := fun _ _ => 4096; pwrite_count := fun _ _ => 4096;
     fsync_result := fun _ f => if f =? 3 then -1 else 0 |}.

Definition sevens : list Z := replicate 4096 7.

(** A system whose disk [/dev/sdc] is a host-managed disk of 131,072
    sectors in zones of 65,536 sectors. *)
Definition zoned_host : host :=
  {| stat_is_blk := fun _ => Some true;
     blkid_of := fun _ => blank_probe;
     proc_mounts := Some [root_fs];
     scandir := fun _ => Some ["."; ".."];
     open_rdwr := fun _ => 4;
     fopen_partition := fun _ => FOPEN_ENOENT;
     read_zoned := fun _ => Some (Some "host-managed");
     blkgetsize64 := fun _ => Some 67108864;
     read_chunk_sectors := fun _ => Some (Some 65536) |}.

(** The descriptor of [/dev/sdc] once it is named and opened. *)
Definition sdc : dmz_block_dev :=
  {| path := "/dev/sdc"; name := "sdc"; btype := DMZ_TYPE_REGULAR;
     capacity := 0; block_offset := 0; nr_zones := 0;
     bdev_zone_nr_sectors := 0; fd := 4 |}.

Definition sdc_probed : dmz_block_dev :=
  {| path := "/dev/sdc"; name := "sdc"; btype := DMZ_TYPE_ZONED_HM;
     capacity := 131072; block_offset := 0; nr_zones := 2;
     bdev_zone_nr_sectors := 65536; fd := 4 |}.

(** The variables of the builder once the report [two_zones] of a backend
    of two zones was taken over. *)
Definition two_zones_final : build :=
  {| zones := two_zones; done_zones := 2; sector := 131072;
     ret := 0; ioctls := 1 |}.

(** * Properties *)

(** ** The address translators *)

Section TranslatorFacts.
Context {h : dmz_h}.

(** What a downward scan finds, for any key the offsets are compared by:
    the first entry of the reversed array whose offset is at most the
    address, everything before it lying above the address. *)
Lemma scan_blocks_none l a :
  fst (scan_blocks l a) = None <-> Forall (fun b => a < block_offset b) l.
Proof.
  induction l as [|b l IH]; simpl.
  - split; auto.
  - destruct (Z.leb_spec (block_offset b) a) as [Hle|Hgt]; simpl.
    + split; [discriminate|]. intros Hall. inversion Hall; subst. lia.
    + rewrite IH. split.
      * intros Hall. constructor; assumption.
      * intros Hall. inversion Hall; assumption.
Qed.

Lemma scan_blocks_none_value l a :
  fst (scan_blocks l a) = None -> snd (scan_blocks l a) = U64_MAX.
Proof.
  induction l as [|b l IH]; simpl; [reflexivity|].
  destruct (block_offset b <=? a); simpl; [discriminate|exact IH].
Qed.

Lemma scan_blocks_some l a i b r :
  scan_blocks l a = (Some (i, b), r) ->
  exists above below,
    l = above ++ b :: below /\ i = length below /\
    Forall (fun b' => a < block_offset b') above /\
    block_offset b <= a /\ r = u64 (a - block_offset b).
Proof.
  induction l as [|b0 l IH]; simpl; [discriminate|].
  destruct (Z.leb_spec (block_offset b0) a) as [Hle|Hgt].
  - intros [= <- <- <-]. exists [], l. repeat split; auto.
  - intros Hs. destruct (IH Hs) as (above & below & -> & Hi & Hall & Hb & Hr).
    exists (b0 :: above), below. repeat split; auto.
Qed.

Lemma scan_sectors_none l a :
  fst (scan_sectors l a) = None <->
  Forall (fun b => a < dmz_blk2sect (block_offset b)) l.
Proof.
  induction l as [|b l IH]; simpl.
  - split; auto.
  - destruct (Z.leb_spec (dmz_blk2sect (block_offset b)) a) as [Hle|Hgt]; simpl.
    + split; [discriminate|]. intros Hall. inversion Hall; subst. lia.
    + rewrite IH. split.
      * intros Hall. constructor; assumption.
      * intros Hall. inversion Hall; assumption.
Qed.

Lemma scan_sectors_none_value l a :
  fst (scan_sectors l a) = None -> snd (scan_sectors l a) = U64_MAX.
Proof.
  induction l as [|b l IH]; simpl; [reflexivity|].
  destruct (dmz_blk2sect (block_offset b) <=? a); simpl; [discriminate|exact IH].
Qed.

Lemma scan_sectors_some l a i b r :
  scan_sectors l a = (Some (i, b), r) ->
  exists above below,
    l = above ++ b :: below /\ i = length below /\
    Forall (fun b' => a < dmz_blk2sect (block_offset b')) above /\
    dmz_blk2sect (block_offset b) <= a /\
    r = u64 (a - dmz_blk2sect (block_offset b)).
Proof.
  induction l as [|b0 l IH]; simpl; [discriminate|].
  destruct (Z.leb_spec (dmz_blk2sect (block_offset b0)) a) as [Hle|Hgt].
  - intros [= <- <- <-]. exists [], l. repeat split; auto.
  - intros Hs. destruct (IH Hs) as (above & below & -> & Hi & Hall & Hb & Hr).
    exists (b0 :: above), below. repeat split; auto.
Qed.

(** Reading a decomposition of the reversed array back in array order. *)
Lemma reverse_split {A} (l above below : list A) (b : A) :
  reverse l = above ++ b :: below ->
  l = reverse below ++ b :: reverse above /\
  length below = length (reverse below).
Proof.
  intros Hr. split; [|now rewrite length_reverse].
  rewrite <- (reverse_involutive l), Hr.
  rewrite reverse_app, reverse_cons, <- app_assoc. reflexivity.
Qed.

(** C1 (amended). The translators return the no-owner sentinel (no backend,
    all-ones local address) exactly when every backend starts above the
    address, whatever the capacity of the composite is.  Otherwise the
    address is resolved: to the backend of highest index whose offset is at
    most the address, with the address minus that offset as local address. *)
Theorem translator_sentinel_iff_no_offset_below (dev : dmz_dev) (a : Z) :
  (fst (dmz_block_to_bdev dev a) = None <->
     Forall (fun b => a < block_offset b) (bdev dev)) /\
  (fst (dmz_sector_to_bdev dev a) = None <->
     Forall (fun b => a < dmz_blk2sect (block_offset b)) (bdev dev)) /\
  (fst (dmz_block_to_bdev dev a) = None ->
     snd (dmz_block_to_bdev dev a) = U64_MAX) /\
  (fst (dmz_sector_to_bdev dev a) = None ->
     snd (dmz_sector_to_bdev dev a) = U64_MAX) /\
  (forall i b r, dmz_block_to_bdev dev a = (Some (i, b), r) ->
     exists before after,
       bdev dev = before ++ b :: after /\ i = length before /\
       block_offset b <= a /\ r = u64 (a - block_offset b) /\
       Forall (fun b' => a < block_offset b') after) /\
  (forall i b r, dmz_sector_to_bdev dev a = (Some (i, b), r) ->
     exists before after,
       bdev dev = before ++ b :: after /\ i = length before /\
       dmz_blk2sect (block_offset b) <= a /\
       r = u64 (a - dmz_blk2sect (block_offset b)) /\
       Forall (fun b' => a < dmz_blk2sect (block_offset b')) after).
Proof.
  unfold dmz_block_to_bdev, dmz_sector_to_bdev.
  repeat split.
  - intros Hn. apply scan_blocks_none in Hn.
    rewrite <- (reverse_involutive (bdev dev)). now apply Forall_reverse.
  - intros Hall. apply scan_blocks_none. now apply Forall_reverse.
  - intros Hn. apply scan_sectors_none in Hn.
    rewrite <- (reverse_involutive (bdev dev)). now apply Forall_reverse.
  - intros Hall. apply scan_sectors_none. now apply Forall_reverse.
  - apply scan_blocks_none_value.
  - apply scan_sectors_none_value.
  - intros i b r Hs.
    destruct (scan_blocks_some _ _ _ _ _ Hs)
      as (above & below & Hrev & Hi & Hall & Hb & Hr).
    destruct (reverse_split _ _ _ _ Hrev) as [Hl Hlen].
    exists (reverse below), (reverse above).
    repeat split; auto; try congruence. now apply Forall_reverse.
  - intros i b r Hs.
    destruct (scan_sectors_some _ _ _ _ _ Hs)
      as (above & below & Hrev & Hi & Hall & Hb & Hr).
    destruct (reverse_split _ _ _ _ Hrev) as [Hl Hlen].
    exists (reverse below), (reverse above).
    repeat split; auto; try congruence. now apply Forall_reverse.
Qed.

End TranslatorFacts.

(** C1 (as stated) fails: block 1000 and sector 8000 lie at the capacity of
    [small_dev], and both are resolved to its backend. *)
Lemma translator_resolves_beyond_capacity :
  dev_capacity small_dev <= 8000 /\
  dmz_blk2sect (h := std_h) 1000 = dev_capacity small_dev /\
  dmz_sector_to_bdev (h := std_h) small_dev 8000
    = (Some (0%nat, one_regular 8000 1), 8000) /\
  dmz_block_to_bdev small_dev 1000
    = (Some (0%nat, one_regular 8000 1), 1000).
Proof. vm_compute. repeat split; discriminate. Qed.

(** ** The zone topology builder *)

Section BuilderFacts.
Context {h : dmz_h}.

(** *** Running the loop *)

Lemma build_from_after k dev n m st st' :
  after k dev n st = Some st' ->
  build_from k dev (n + m) st = build_from k dev m st'.
Proof.
  revert st. induction n as [|n IH]; intros st; simpl.
  - now intros [= ->].
  - destruct (loop_body k dev st); try discriminate. apply IH.
Qed.

Lemma build_from_leave k dev n m st st1 st' :
  after k dev n st = Some st1 ->
  loop_body k dev st1 = Leave st' ->
  build_from k dev (n + S m) st = final_checks dev st'.
Proof.
  intros Ha Hl. rewrite (build_from_after _ _ _ _ _ _ Ha). simpl. now rewrite Hl.
Qed.

Lemma build_from_abort k dev n m st st1 r e st' :
  after k dev n st = Some st1 ->
  loop_body k dev st1 = Abort r e st' ->
  build_from k dev (n + S m) st = Returned r (Some e) st'.
Proof.
  intros Ha Hl. rewrite (build_from_after _ _ _ _ _ _ Ha). simpl. now rewrite Hl.
Qed.

Lemma more_fuel (n fuel : nat) : (n < fuel)%nat -> exists m, fuel = (n + S m)%nat.
Proof. intros Hlt. exists (fuel - S n)%nat. lia. Qed.

(** A result that is not [OutOfFuel] does not depend on the fuel left. *)
Lemma build_from_fuel_mono k dev fuel fuel' st :
  (fuel <= fuel')%nat ->
  build_from k dev fuel st <> OutOfFuel ->
  build_from k dev fuel' st = build_from k dev fuel st.
Proof.
  revert fuel' st. induction fuel as [|fuel IH]; intros fuel' st Hle Hne.
  - now contradict Hne.
  - destruct fuel' as [|fuel']; [lia|]. simpl in *.
    destruct (loop_body k dev st); auto. apply IH; [lia|assumption].
Qed.

Lemma dmz_get_dev_zones_fuel_mono k dev fuel fuel' :
  (fuel <= fuel')%nat ->
  dmz_get_dev_zones k dev fuel <> OutOfFuel ->
  dmz_get_dev_zones k dev fuel' = dmz_get_dev_zones k dev fuel.
Proof.
  unfold dmz_get_dev_zones. intros Hle.
  destruct (negb (calloc_ok k)); [reflexivity|].
  destruct (negb (malloc_ok k)); [reflexivity|].
  now apply build_from_fuel_mono.
Qed.

(** *** One report *)

Lemma report_zone_accepts dev b off st z st' :
  report_zone dev b off st z = inr st' ->
  size_ok dev b z /\ capacity_ok z /\ done_zones st < dev_nr_zones dev.
Proof.
  unfold report_zone, size_ok, capacity_ok, dmz_zone_length, dmz_zone_sector.
  destruct (Z.eqb_spec (zlen z) (zone_nr_sectors dev)) as [He|He];
  destruct (Z.eqb_spec (u64 (zstart z + zlen z)) (capacity b)) as [Hc|Hc];
  simpl; try discriminate;
  destruct (Z.ltb_spec (dmz_zone_capacity z) (zlen z)); try discriminate;
  destruct (Z.leb_spec (dev_nr_zones dev) (done_zones st)); try discriminate;
  intros _; repeat split; auto; lia.
Qed.

Lemma report_zone_bad_size dev b off st z :
  ~ size_ok dev b z -> report_zone dev b off st z = inl (E_ZONE_SIZE, st).
Proof.
  unfold report_zone, size_ok, dmz_zone_length, dmz_zone_sector. intros Hn.
  destruct (Z.eqb_spec (zlen z) (zone_nr_sectors dev)) as [He|He]; [tauto|].
  destruct (Z.eqb_spec (u64 (zstart z + zlen z)) (capacity b)) as [Hc|Hc];
    [tauto|]. reflexivity.
Qed.

Lemma report_zone_bad_capacity dev b off st z :
  size_ok dev b z -> ~ capacity_ok z ->
  report_zone dev b off st z = inl (E_ZONE_CAPACITY, st).
Proof.
  unfold report_zone, size_ok, capacity_ok, dmz_zone_length, dmz_zone_sector.
  intros Hs Hn.
  destruct (Z.eqb_spec (zlen z) (zone_nr_sectors dev)) as [He|He];
  destruct (Z.eqb_spec (u64 (zstart z + zlen z)) (capacity b)) as [Hc|Hc];
  simpl; try (exfalso; tauto);
  destruct (Z.ltb_spec (dmz_zone_capacity z) (zlen z)); try reflexivity; lia.
Qed.

(** A record that fails the size test or the capacity test stops the
    [for] loop with an error, wherever it stands in the report. *)
Lemma report_zones_rejects dev b off reply st z :
  In z reply -> ~ (size_ok dev b z /\ capacity_ok z) ->
  exists e st', report_zones dev b off reply st = inl (e, st').
Proof.
  revert st. induction reply as [|z0 reply IH]; intros st Hin Hbad; [easy|].
  simpl. destruct (report_zone dev b off st z0) as [[e st']|st'] eqn:Hz.
  - eauto.
  - destruct Hin as [->|Hin]; [|now apply IH].
    apply report_zone_accepts in Hz. tauto.
Qed.

Lemma report_zones_accepts dev b off reply st st' :
  report_zones dev b off reply st = inr st' ->
  Forall (fun z => size_ok dev b z /\ capacity_ok z) reply.
Proof.
  revert st. induction reply as [|z0 reply IH]; intros st; simpl.
  - constructor.
  - destruct (report_zone dev b off st z0) as [[e st1]|st1] eqn:Hz;
      [discriminate|].
    intros Hr. constructor; [|eauto].
    apply report_zone_accepts in Hz. tauto.
Qed.

Lemma report_zones_app dev b off pre post st st1 :
  report_zones dev b off pre st = inr st1 ->
  report_zones dev b off (pre ++ post) st = report_zones dev b off post st1.
Proof.
  revert st. induction pre as [|z0 pre IH]; intros st; simpl.
  - now intros [= ->].
  - destruct (report_zone dev b off st z0) as [[e st2]|st2]; [discriminate|].
    apply IH.
Qed.

(** *** What a report does to the run *)

Lemma receives_report_body k dev n st d b reply :
  receives_report k dev n st d b reply ->
  reply <> [] ->
  loop_body k dev st =
    match report_zones dev b (dmz_blk2sect (block_offset b)) reply
            (ioctl_done st 0) with
    | inl (e, st2) => Abort (-1) e st2
    | inr st2 => Next st2
    end.
Proof.
  intros (_ & _ & _ & Hlt & s & Hloc & Hreg & Hrep) Hne.
  unfold loop_body. destruct (Z.ltb_spec (sector st) (dev_capacity dev)); [|lia].
  rewrite Hloc, Hreg. unfold query_zones. rewrite Hrep. simpl.
  destruct reply; [congruence|reflexivity].
Qed.

Lemma receives_report_rejected k dev n st d b reply e st2 fuel :
  receives_report k dev n st d b reply ->
  report_zones dev b (dmz_blk2sect (block_offset b)) reply (ioctl_done st 0)
    = inl (e, st2) ->
  (n < fuel)%nat ->
  dmz_get_dev_zones k dev fuel = Returned (-1) (Some e) st2.
Proof.
  intros Hrec Hrz Hfuel.
  assert (Hne : reply <> []) by (intros ->; discriminate).
  pose proof (receives_report_body _ _ _ _ _ _ _ Hrec Hne) as Hbody.
  rewrite Hrz in Hbody.
  destruct Hrec as (Hc & Hm & Ha & _).
  destruct (more_fuel _ _ Hfuel) as [m ->].
  unfold dmz_get_dev_zones. rewrite Hc, Hm. simpl.
  eapply build_from_abort; eauto.
Qed.


Lemma build_from_short k dev n fuel st0 st :
  after k dev n st0 = Some st -> (fuel <= n)%nat ->
  build_from k dev fuel st0 = OutOfFuel.
Proof.
  revert n st0. induction fuel as [|fuel IH]; intros n st0 Ha Hle;
    [reflexivity|].
  destruct n as [|n]; [lia|]. simpl in *.
  destruct (loop_body k dev st0); try discriminate.
  apply (IH n); [assumption|lia].
Qed.

(** A call that returns 0 has found every record of every report it
    received to pass the size test and the capacity test. *)
Lemma accepted_reports_checked k dev fuel m st' n st d b reply :
  dmz_get_dev_zones k dev fuel = Returned 0 m st' ->
  receives_report k dev n st d b reply ->
  Forall (fun z => size_ok dev b z /\ capacity_ok z) reply.
Proof.
  intros Hret Hrec. apply Forall_forall. intros z Hin.
  apply list_elem_of_In in Hin.
  assert (Hdec : (size_ok dev b z /\ capacity_ok z) \/
                 ~ (size_ok dev b z /\ capacity_ok z)).
  { unfold size_ok, capacity_ok.
    destruct (Z.eq_dec (zlen z) (zone_nr_sectors dev));
    destruct (Z.eq_dec (u64 (zstart z + zlen z)) (capacity b));
    destruct (Z_le_gt_dec (zlen z) (dmz_zone_capacity z));
    try (left; split; [tauto|assumption]); right; intros [Hs Hc];
    try tauto; lia. }
  destruct Hdec as [Hok|Hbad]; [exact Hok|exfalso].
  destruct (report_zones_rejects dev b (dmz_blk2sect (block_offset b))
              reply (ioctl_done st 0) z Hin Hbad) as (e & st2 & Hrz).
  destruct (le_lt_dec fuel n) as [Hle|Hlt].
  - destruct Hrec as (Hc & Hm & Ha & _).
    unfold dmz_get_dev_zones in Hret. rewrite Hc, Hm in Hret. simpl in Hret.
    rewrite (build_from_short _ _ _ _ _ _ Ha Hle) in Hret. discriminate.
  - rewrite (receives_report_rejected _ _ _ _ _ _ _ _ _ _ Hrec Hrz Hlt)
      in Hret.
    discriminate.
Qed.

(** *** The zone array along a run *)

Lemma u32_range x : 0 <= u32 x < 2 ^ 32.
Proof. unfold u32. apply Z.mod_pos_bound. lia. Qed.

Lemma fold_u32_range (l : list dmz_block_dev) acc :
  0 <= acc < 2 ^ 32 ->
  0 <= fold_left (fun a b => u32 (a + nr_zones b)) l acc < 2 ^ 32.
Proof.
  revert acc. induction l as [|b l IH]; intros acc Hacc; simpl; [assumption|].
  apply IH, u32_range.
Qed.

Lemma dev_nr_zones_range dev : 0 <= dev_nr_zones dev < 2 ^ 32.
Proof. apply fold_u32_range. lia. Qed.

Lemma zero_zone_capacity_ok : capacity_ok zero_zone.
Proof.
  unfold capacity_ok, dmz_zone_capacity, dmz_zone_length. simpl.
  destruct HAVE_BLK_ZONE_REP_V2; lia.
Qed.

Lemma capacity_ok_undeclared z : zcapacity z = 0 -> capacity_ok z.
Proof.
  unfold capacity_ok, dmz_zone_capacity, dmz_zone_length. intros ->. simpl.
  destruct HAVE_BLK_ZONE_REP_V2; lia.
Qed.

Lemma initial_inv dev : table_inv dev (initial dev).
Proof.
  unfold table_inv, initial. simpl. repeat split.
  - lia.
  - apply length_replicate.
  - intros i z Hz _. apply lookup_replicate in Hz. tauto.
  - apply Forall_replicate, zero_zone_capacity_ok.
Qed.

(** Storing a zone at index [nr_zones] and counting it keeps the invariant;
    the counter does not wrap, the array being shorter than 2^32. *)
Lemma store_inv dev st z :
  table_inv dev st ->
  done_zones st < dev_nr_zones dev ->
  capacity_ok z ->
  forall s r c,
  table_inv dev
    {| zones := <[Z.to_nat (done_zones st) := z]> (zones st);
       done_zones := u32 (done_zones st + 1);
       sector := s; ret := r; ioctls := c |}.
Proof.
  intros (Hpos & Hlen & Hzero & Hcap) Hlt Hz s r c.
  pose proof (dev_nr_zones_range dev) as Hr.
  assert (Hu : u32 (done_zones st + 1) = done_zones st + 1).
  { unfold u32. apply Z.mod_small. lia. }
  unfold table_inv. simpl. rewrite Hu. repeat split.
  - lia.
  - now rewrite length_insert.
  - intros i z' Hl Hi. rewrite list_lookup_insert_ne in Hl by lia.
    apply (Hzero i z' Hl). lia.
  - now apply Forall_insert.
Qed.

Lemma report_zone_inv dev b off st z st' :
  table_inv dev st -> report_zone dev b off st z = inr st' -> table_inv dev st'.
Proof.
  intros Hinv Hz. pose proof (report_zone_accepts _ _ _ _ _ _ Hz) as (_ & Hc & Hlt).
  revert Hz. unfold report_zone.
  destruct (_ && _); [discriminate|].
  destruct (_ <? _); [discriminate|].
  destruct (_ <=? _); [discriminate|].
  intros [= <-]. apply store_inv; auto.
Qed.

Lemma report_zone_error_state dev b off st z e st' :
  report_zone dev b off st z = inl (e, st') -> st' = st.
Proof.
  unfold report_zone.
  destruct (_ && _); [now intros [= _ <-]|].
  destruct (_ <? _); [now intros [= _ <-]|].
  destruct (_ <=? _); [now intros [= _ <-]|discriminate].
Qed.

Lemma report_zones_inv dev b off reply st :
  table_inv dev st ->
  match report_zones dev b off reply st with
  | inl (_, st') => table_inv dev st'
  | inr st' => table_inv dev st'
  end.
Proof.
  revert st. induction reply as [|z reply IH]; intros st Hinv; simpl; auto.
  destruct (report_zone dev b off st z) as [[e st1]|st1] eqn:Hz.
  - now rewrite (report_zone_error_state _ _ _ _ _ _ _ Hz).
  - apply IH. eapply report_zone_inv; eauto.
Qed.

Lemma ioctl_done_inv dev st r : table_inv dev st -> table_inv dev (ioctl_done st r).
Proof. unfold table_inv, ioctl_done. simpl. tauto. Qed.

Lemma emulate_zone_inv dev b st :
  table_inv dev st ->
  match emulate_zone dev b st with
  | Next st' => table_inv dev st'
  | _ => True
  end.
Proof.
  intros Hinv. unfold emulate_zone.
  destruct (zones st !! Z.to_nat (done_zones st)) as [old|] eqn:Hold; [|exact I].
  pose proof Hinv as (Hpos & Hlen & Hzero & _).
  assert (Hz : old = zero_zone) by (apply (Hzero _ _ Hold); lia).
  apply lookup_lt_Some in Hold.
  apply store_inv; auto; [lia|].
  apply capacity_ok_undeclared. now rewrite Hz.
Qed.

Lemma loop_body_inv k dev st :
  table_inv dev st -> step_inv dev (loop_body k dev st).
Proof.
  intros Hinv. unfold loop_body.
  destruct (_ <? _); [|exact Hinv].
  destruct (dmz_sector_to_bdev dev (sector st)) as [[[d b]|] s]; [|exact I].
  destruct (is_regular (btype b)).
  - pose proof (emulate_zone_inv dev b st Hinv) as He.
    unfold emulate_zone in *.
    destruct (zones st !! Z.to_nat (done_zones st)); simpl; auto.
  - unfold query_zones.
    destruct (blkreportzone k (ioctls st) d s) as [r reply].
    destruct (negb (r =? 0)); [now apply ioctl_done_inv|].
    destruct reply as [|z reply]; [now apply ioctl_done_inv|].
    pose proof (report_zones_inv dev b (dmz_blk2sect (block_offset b))
                  (z :: reply) _ (ioctl_done_inv dev st r Hinv)) as Hr.
    destruct (report_zones _ _ _ _ _) as [[e st2]|st2]; exact Hr.
Qed.

Lemma final_checks_state dev st r m st' :
  final_checks dev st = Returned r m st' -> st' = st.
Proof.
  unfold final_checks.
  destruct (negb _); [now intros [= _ _ <-]|].
  destruct (negb _); now intros [= _ _ <-].
Qed.

Lemma build_from_inv k dev fuel st r m st' :
  table_inv dev st ->
  build_from k dev fuel st = Returned r m st' -> table_inv dev st'.
Proof.
  revert st. induction fuel as [|fuel IH]; intros st Hinv; simpl; [discriminate|].
  pose proof (loop_body_inv k dev st Hinv) as Hs.
  destruct (loop_body k dev st) as [st1|st1|r1 e1 st1|]; simpl in Hs.
  - now apply IH.
  - intros Hf. now rewrite (final_checks_state _ _ _ _ _ Hf).
  - now intros [= _ _ <-].
  - discriminate.
Qed.

Lemma empty_table_inv :
  Forall capacity_ok
    (zones {| zones := []; done_zones := 0; sector := 0; ret := -1;
              ioctls := O |}).
Proof. constructor. Qed.

Lemma returned_table_capacity k dev fuel r m st :
  dmz_get_dev_zones k dev fuel = Returned r m st ->
  Forall capacity_ok (zones st).
Proof.
  unfold dmz_get_dev_zones.
  destruct (negb (calloc_ok k)); [intros [= _ _ <-]; apply empty_table_inv|].
  destruct (negb (malloc_ok k)).
  - intros [= _ _ <-]. apply initial_inv.
  - intros Hb. eapply build_from_inv in Hb; [apply Hb|apply initial_inv].
Qed.

(** A call that returns 0 has counted as many zones as the array holds:
    the total of the zone counts of the backends. *)
Lemma accepted_zone_count k dev fuel m st :
  dmz_get_dev_zones k dev fuel = Returned 0 m st ->
  done_zones st = dev_nr_zones dev /\
  length (zones st) = Z.to_nat (dev_nr_zones dev) /\
  sector st = u64 (dev_nr_zones dev * zone_nr_sectors dev).
Proof.
  unfold dmz_get_dev_zones.
  destruct (negb (calloc_ok k)); [discriminate|].
  destruct (negb (malloc_ok k)); [discriminate|].
  generalize (initial_inv dev). generalize (initial dev).
  induction fuel as [|fuel IH]; intros st0 Hinv; simpl; [discriminate|].
  pose proof (loop_body_inv k dev st0 Hinv) as Hs.
  destruct (loop_body k dev st0) as [st1|st1|r1 e1 st1|] eqn:Hb; simpl in Hs.
  - now apply IH.
  - unfold final_checks.
    destruct (Z.eqb_spec (dev_nr_zones dev) (done_zones st1)) as [Hn|Hn];
      simpl; [|discriminate].
    destruct (Z.eqb_spec (sector st1)
                (u64 (done_zones st1 * zone_nr_sectors dev))) as [Hc|Hc];
      simpl; [|discriminate].
    intros [= _ _ <-]. destruct Hs as (_ & Hlen & _). rewrite Hn at 3.
    repeat split; auto.
  - unfold loop_body in Hb.
    destruct (_ <? _); [|discriminate].
    destruct (dmz_sector_to_bdev dev (sector st0)) as [[[d b]|] s]; [|discriminate].
    destruct (is_regular (btype b)).
    + unfold emulate_zone in Hb. destruct (zones st0 !! _); discriminate.
    + unfold query_zones in Hb.
      destruct (blkreportzone k (ioctls st0) d s) as [r reply].
      destruct (Z.eqb_spec r 0) as [->|Hr]; simpl in Hb.
      * destruct reply; [discriminate|].
        destruct (report_zones _ _ _ _ _) as [[e st2]|st2]; [|discriminate].
        injection Hb as <- <- <-. discriminate.
      * injection Hb as <- <- <-. intros [= Hr0 _ _]. congruence.
  - discriminate.
Qed.


(** *** A single regular backend at offset 0 *)

Lemma dmz_blk2sect_0 : dmz_blk2sect 0 = 0.
Proof. unfold dmz_blk2sect. now rewrite Z.shiftl_0_l. Qed.

Lemma loop_body_regular_at_0 k dev b st :
  bdev dev = [b] -> block_offset b = 0 -> is_regular (btype b) = true ->
  0 <= sector st < dev_capacity dev ->
  loop_body k dev st = emulate_zone dev b st.
Proof.
  intros Hb Hoff Hreg Hs. unfold loop_body, dmz_sector_to_bdev.
  destruct (Z.ltb_spec (sector st) (dev_capacity dev)); [|lia].
  rewrite Hb. cbn [reverse rev_append scan_sectors].
  rewrite Hoff, dmz_blk2sect_0.
  destruct (Z.leb_spec 0 (sector st)); [|lia]. now rewrite Hreg.
Qed.

Lemma after_emulate_n k dev b n st st' :
  bdev dev = [b] -> block_offset b = 0 -> is_regular (btype b) = true ->
  emulate_n dev b n st = Some st' -> after k dev n st = Some st'.
Proof.
  intros Hb Hoff Hreg. revert st. induction n as [|n IH]; intros st; simpl; auto.
  destruct (Z.leb_spec 0 (sector st)); simpl; [|discriminate].
  destruct (Z.ltb_spec (sector st) (dev_capacity dev)); simpl; [|discriminate].
  rewrite (loop_body_regular_at_0 k dev b st Hb Hoff Hreg) by lia.
  destruct (emulate_zone dev b st); try discriminate. apply IH.
Qed.

Lemma regular_only_run k fuel :
  calloc_ok k = true -> malloc_ok k = true -> (16 < fuel)%nat ->
  dmz_get_dev_zones k regular_only fuel = Returned (-1) None regular_only_final.
Proof.
  intros Hc Hm Hfuel. destruct (more_fuel _ _ Hfuel) as [m ->].
  unfold dmz_get_dev_zones. rewrite Hc, Hm. simpl negb. cbv iota.
  rewrite (build_from_leave k regular_only 16 m _ regular_only_final
             regular_only_final).
  - reflexivity.
  - apply (after_emulate_n k regular_only (regular_bdev 1000000 0 16));
      [reflexivity | reflexivity | reflexivity | vm_compute; reflexivity].
  - reflexivity.
Qed.


(** *** The checks of the builder *)

Lemma receives_report_first_failure k dev n st d b pre z post e st1 fuel :
  receives_report k dev n st d b (pre ++ z :: post) ->
  report_zones dev b (dmz_blk2sect (block_offset b)) pre (ioctl_done st 0)
    = inr st1 ->
  report_zone dev b (dmz_blk2sect (block_offset b)) st1 z = inl (e, st1) ->
  (n < fuel)%nat ->
  dmz_get_dev_zones k dev fuel = Returned (-1) (Some e) st1.
Proof.
  intros Hrec Hpre Hz Hfuel.
  eapply receives_report_rejected; eauto.
  rewrite (report_zones_app _ _ _ _ _ _ _ Hpre). simpl. now rewrite Hz.
Qed.

Lemma declared_capacity_not_ok z :
  HAVE_BLK_ZONE_REP_V2 = true -> zcapacity z <> 0 -> zcapacity z < zlen z ->
  ~ capacity_ok z.
Proof.
  unfold capacity_ok, dmz_zone_capacity, dmz_zone_length. intros -> Hnz Hlt.
  destruct (Z.eqb_spec (zcapacity z) 0); [contradiction|lia].
Qed.

(** C2 (amended). Every zone of the array of a call that returned has an
    effective capacity ([dmz_zone_capacity]: the capacity field, or the
    length where the field is 0 or the build has no capacity support) that
    is at least its length; and a report ioctl that delivers a record whose
    effective capacity is below its length makes the call return -1 with a
    diagnostic, for every amount of fuel that reaches that ioctl. *)
Theorem returned_zone_capacity_covers_length :
  (forall k dev fuel r m st,
     dmz_get_dev_zones k dev fuel = Returned r m st ->
     Forall (fun z => zlen z <= dmz_zone_capacity z) (zones st)) /\
  (forall k dev n st d b reply z fuel,
     receives_report k dev n st d b reply ->
     In z reply -> dmz_zone_capacity z < zlen z -> (n < fuel)%nat ->
     exists e st',
       dmz_get_dev_zones k dev fuel = Returned (-1) (Some e) st').
Proof.
  split.
  - intros k dev fuel r m st Hret.
    exact (returned_table_capacity _ _ _ _ _ _ Hret).
  - intros k dev n st d b reply z fuel Hrec Hin Hlt Hfuel.
    destruct (report_zones_rejects dev b (dmz_blk2sect (block_offset b))
                reply (ioctl_done st 0) z Hin) as (e & st' & Hrz).
    { unfold capacity_ok. lia. }
    exists e, st'. eapply receives_report_rejected; eauto.
Qed.

(** C3 (amended). Once the loop is left, the builder compares the number
    of zones produced with the total zone count, and the cursor with the
    number of zones produced times the uniform zone size (in 64 bits): a
    mismatch of either makes [dmz_get_dev_zones] return -1, with the
    diagnostic of the check that failed; with both matching it returns the
    value of the last report ioctl. *)
Theorem final_checks_decide k dev n st st' fuel :
  calloc_ok k = true -> malloc_ok k = true ->
  after k dev n (initial dev) = Some st ->
  loop_body k dev st = Leave st' ->
  (n < fuel)%nat ->
  (done_zones st' <> dev_nr_zones dev ->
     dmz_get_dev_zones k dev fuel = Returned (-1) (Some E_NR_ZONES) st') /\
  (done_zones st' = dev_nr_zones dev ->
   sector st' <> u64 (done_zones st' * zone_nr_sectors dev) ->
     dmz_get_dev_zones k dev fuel = Returned (-1) (Some E_LAST_SECTOR) st') /\
  (done_zones st' = dev_nr_zones dev ->
   sector st' = u64 (done_zones st' * zone_nr_sectors dev) ->
     dmz_get_dev_zones k dev fuel = Returned (ret st') None st').
Proof.
  intros Hc Hm Ha Hl Hfuel. destruct (more_fuel _ _ Hfuel) as [m ->].
  unfold dmz_get_dev_zones. rewrite Hc, Hm. simpl negb. cbv iota.
  rewrite (build_from_leave _ _ _ _ _ _ _ Ha Hl). unfold final_checks.
  destruct (Z.eqb_spec (dev_nr_zones dev) (done_zones st')) as [Hn|Hn];
  destruct (Z.eqb_spec (sector st')
              (u64 (done_zones st' * zone_nr_sectors dev))) as [Hs|Hs];
  simpl; repeat split; intros; congruence.
Qed.

(** C5. A record of a report is accepted only if its length is the uniform
    zone size or its backend-local start plus its length (a 64-bit sum) is
    the capacity of its backend: a record satisfying neither makes the call
    return -1, with the diagnostic of the size check when the records before
    it were accepted; a report the loop goes on from has no such record,
    and neither has any report received by a call that returns 0. *)
Theorem zone_size_check k dev n st d b reply fuel :
  receives_report k dev n st d b reply ->
  (n < fuel)%nat ->
  (forall z, In z reply ->
     zlen z <> zone_nr_sectors dev ->
     u64 (zstart z + zlen z) <> capacity b ->
     exists e st',
       dmz_get_dev_zones k dev fuel = Returned (-1) (Some e) st') /\
  (forall pre z post st1, reply = pre ++ z :: post ->
     report_zones dev b (dmz_blk2sect (block_offset b)) pre (ioctl_done st 0)
       = inr st1 ->
     zlen z <> zone_nr_sectors dev ->
     u64 (zstart z + zlen z) <> capacity b ->
     dmz_get_dev_zones k dev fuel = Returned (-1) (Some E_ZONE_SIZE) st1) /\
  (forall st', loop_body k dev st = Next st' ->
     Forall (fun z => zlen z = zone_nr_sectors dev \/
                      u64 (zstart z + zlen z) = capacity b) reply) /\
  (forall m st', dmz_get_dev_zones k dev fuel = Returned 0 m st' ->
     Forall (fun z => zlen z = zone_nr_sectors dev \/
                      u64 (zstart z + zlen z) = capacity b) reply).
Proof.
  intros Hrec Hfuel. repeat split.
  - intros z Hin Hlen Hend.
    destruct (report_zones_rejects dev b (dmz_blk2sect (block_offset b))
                reply (ioctl_done st 0) z Hin) as (e & st' & Hrz).
    { unfold size_ok. tauto. }
    exists e, st'. eapply receives_report_rejected; eauto.
  - intros pre z post st1 -> Hpre Hlen Hend.
    eapply receives_report_first_failure; eauto.
    apply report_zone_bad_size. unfold size_ok. tauto.
  - intros st' Hnext. destruct reply as [|z0 reply]; [constructor|].
    rewrite (receives_report_body _ _ _ _ _ _ _ Hrec) in Hnext by discriminate.
    destruct (report_zones _ _ _ _ _) as [[e st2]|st2] eqn:Hrz;
      [discriminate|].
    apply report_zones_accepts in Hrz.
    eapply Forall_impl; [exact Hrz|]. intros z [Hs _]. exact Hs.
  - intros m st' Hret.
    pose proof (accepted_reports_checked _ _ _ _ _ _ _ _ _ _ Hret Hrec) as Hall.
    eapply Forall_impl; [exact Hall|]. intros z [Hs _]. exact Hs.
Qed.

(** C8 (amended). On a build with zone capacity support
    ([HAVE_BLK_ZONE_REP_V2]), a report record that declares a capacity (a
    capacity field that is not 0) strictly below its length makes the call
    return -1 with a diagnostic, wherever the record stands in the report;
    when the record passes the size check, as a zone of the uniform size
    does whether or not it is the last of its backend, and the records
    before it were accepted, the diagnostic is the one of the unsupported
    device with zone capacity smaller than zone size. *)
Theorem shrunk_capacity_zone_rejected k dev n st d b pre z post fuel :
  HAVE_BLK_ZONE_REP_V2 = true ->
  receives_report k dev n st d b (pre ++ z :: post) ->
  zcapacity z <> 0 -> zcapacity z < zlen z ->
  (n < fuel)%nat ->
  (exists e st',
     dmz_get_dev_zones k dev fuel = Returned (-1) (Some e) st') /\
  (forall st1,
     report_zones dev b (dmz_blk2sect (block_offset b)) pre (ioctl_done st 0)
       = inr st1 ->
     zlen z = zone_nr_sectors dev \/ u64 (zstart z + zlen z) = capacity b ->
     dmz_get_dev_zones k dev fuel
       = Returned (-1) (Some E_ZONE_CAPACITY) st1).
Proof.
  intros Hv2 Hrec Hnz Hlt Hfuel.
  pose proof (declared_capacity_not_ok z Hv2 Hnz Hlt) as Hbad. split.
  - destruct (report_zones_rejects dev b (dmz_blk2sect (block_offset b))
                (pre ++ z :: post) (ioctl_done st 0) z) as (e & st' & Hrz).
    { apply in_or_app. right. now left. }
    { tauto. }
    exists e, st'. eapply receives_report_rejected; eauto.
  - intros st1 Hpre Hsize.
    eapply receives_report_first_failure; eauto.
    apply report_zone_bad_capacity; [exact Hsize|exact Hbad].
Qed.

(** C7 (amended). For the composite of one regular backend of 1,000,000
    sectors with zones of 65,536 sectors, the builder fills the zone array
    with exactly 16 emulated zones: fifteen of 65,536 sectors and a last one
    truncated to 1,000,000 - 15 * 65,536 = 16,960 sectors. *)
Theorem regular_only_zone_table k fuel :
  calloc_ok k = true -> malloc_ok k = true -> (16 < fuel)%nat ->
  zone_table (dmz_get_dev_zones k regular_only fuel) = Some regular_only_table /\
  length regular_only_table = 16%nat /\
  map zlen regular_only_table = replicate 15 65536 ++ [16960] /\
  map zstart regular_only_table
    = map (fun i => Z.of_nat i * 65536) (seq 0 16).
Proof.
  intros Hc Hm Hfuel. rewrite (regular_only_run k fuel Hc Hm Hfuel).
  repeat split.
Qed.

End BuilderFacts.

(** ** The builder on concrete devices *)

Ltac run := vm_compute; reflexivity.

Ltac report_received :=
  unfold receives_report;
  repeat match goal with |- _ /\ _ => split end;
  try run;
  eexists; repeat split; run.

(** C2 (as stated) fails: the kernel reports a zone of 65,536 sectors that
    declares a capacity of 131,072 sectors; the zone violates capacity <=
    length, and the builder returns 0 with the zone in its array. *)
Lemma capacity_above_length_accepted :
  dmz_get_dev_zones (h := std_h) (reporting 65536 [oversized_zone])
      (zoned_only 65536 1) 5%nat
    = Returned 0 None
        {| zones := [oversized_zone]; done_zones := 1; sector := 65536;
           ret := 0; ioctls := 1 |} /\
  ~ (zcapacity oversized_zone <= zlen oversized_zone) /\
  ~ (dmz_zone_capacity (h := std_h) oversized_zone <= zlen oversized_zone).
Proof. repeat split; vm_compute; congruence. Qed.

Lemma returned_zone_capacity_covers_length_witness :
  Forall (fun z => zlen z <= dmz_zone_capacity (h := std_h) z)
    [oversized_zone] /\
  exists e st',
    dmz_get_dev_zones (h := std_h)
      (reporting 65536 [shrunk_zone; full_zone 1]) (zoned_only 131072 2) 5%nat
    = Returned (-1) (Some e) st'.
Proof.
  split.
  - apply (proj1 (returned_zone_capacity_covers_length (h := std_h))
             (reporting 65536 [oversized_zone]) (zoned_only 65536 1) 5%nat 0 None
             {| zones := [oversized_zone]; done_zones := 1; sector := 65536;
                ret := 0; ioctls := 1 |}).
    run.
  - apply (proj2 (returned_zone_capacity_covers_length (h := std_h))
             (reporting 65536 [shrunk_zone; full_zone 1])
             (zoned_only 131072 2) 0%nat
             (initial (zoned_only 131072 2)) 0%nat (zoned_bdev 131072 0 2)
             [shrunk_zone; full_zone 1] shrunk_zone 5%nat).
    + report_received.
    + now left.
    + run.
    + lia.
Defined.

(** C3 (as stated) fails: a zoned backend of one zone followed by a regular
    backend of 100,000 sectors.  Each emulated zone moves the cursor on by a
    full zone size, so the cursor ends at 196,608 = 3 * 65,536 while the last
    zone of the array ends at sector 100,000; both final checks pass and the
    call returns 0. *)
Lemma cursor_differs_from_last_zone_end :
  exists st z,
    dmz_get_dev_zones (h := std_h) (reporting 65536 [full_zone 0])
        zoned_then_short_regular 8%nat = Returned 0 None st /\
    last (zones st) = Some z /\
    done_zones st = dev_nr_zones zoned_then_short_regular /\
    sector st = 196608 /\
    u64 (zstart z + zlen z) = 100000 /\
    sector st <> u64 (zstart z + zlen z) /\
    sector st <> zstart z + zlen z.
Proof.
  eexists. eexists. split; [run|]. split; [run|].
  repeat split; vm_compute; congruence.
Qed.

Lemma final_checks_decide_witness :
  dmz_get_dev_zones (h := std_h)
      (reporting 65536 [full_zone 0; short_last_zone]) (zoned_only 100000 2) 5%nat
    = Returned (-1) (Some E_LAST_SECTOR) short_last_final.
Proof.
  apply (final_checks_decide (h := std_h)
           (reporting 65536 [full_zone 0; short_last_zone])
           (zoned_only 100000 2) 1%nat short_last_final short_last_final 5%nat);
    try run; try lia.
  vm_compute. congruence.
Defined.

(** C4 evaluated at its failing input: a zoned backend of one zone followed
    by a regular backend of two zones that starts at sector 65,536.  The
    call returns 0; the zones have the lengths 65,536, 65,536 and 0, which
    add up to 131,072 sectors and not to the capacity of 196,608. *)
Lemma regular_at_offset_table :
  exists st,
    dmz_get_dev_zones (h := std_h) (reporting 65536 [full_zone 0])
        (zoned_then_regular 2) 8%nat = Returned 0 None st /\
    map zlen (zones st) = [65536; 65536; 0] /\
    length (zones st) = 3%nat /\
    dev_nr_zones (zoned_then_regular 2) = 3 /\
    dev_capacity (zoned_then_regular 2) = 196608 /\
    foldr Z.add 0 (map zlen (zones st)) = 131072.
Proof. eexists. split; [run|]. repeat split. Qed.

Lemma zone_size_check_witness :
  dmz_get_dev_zones (h := std_h) (reporting 65536 [full_zone 0; odd_zone])
      (zoned_only 131072 2) 5%nat
    = Returned (-1) (Some E_ZONE_SIZE) first_accepted.
Proof.
  refine (proj1 (proj2 (zone_size_check (h := std_h)
            (reporting 65536 [full_zone 0; odd_zone]) (zoned_only 131072 2)
            0%nat (initial (zoned_only 131072 2)) 0%nat
            (zoned_bdev 131072 0 2) [full_zone 0; odd_zone] 5%nat _ _))
            [full_zone 0] odd_zone [] first_accepted _ _ _ _).
  - report_received.
  - lia.
  - reflexivity.
  - run.
  - vm_compute. congruence.
  - vm_compute. congruence.
Defined.

Lemma shrunk_capacity_zone_rejected_witness :
  dmz_get_dev_zones (h := std_h) (reporting 65536 [shrunk_zone; full_zone 1])
      (zoned_only 131072 2) 5%nat
    = Returned (-1) (Some E_ZONE_CAPACITY) none_accepted.
Proof.
  refine (proj2 (shrunk_capacity_zone_rejected (h := std_h)
            (reporting 65536 [shrunk_zone; full_zone 1]) (zoned_only 131072 2)
            0%nat (initial (zoned_only 131072 2)) 0%nat
            (zoned_bdev 131072 0 2) [] shrunk_zone [full_zone 1] 5%nat
            _ _ _ _ _) none_accepted _ _).
  - reflexivity.
  - report_received.
  - vm_compute. congruence.
  - run.
  - lia.
  - run.
  - left. reflexivity.
Defined.

(** A capacity field of 0 declares nothing and is read as the length. *)
Lemma undeclared_capacity_accepted :
  dmz_get_dev_zones (h := std_h)
      (reporting 65536 [seq_zone 0 65536 0; seq_zone 65536 65536 0])
      (zoned_only 131072 2) 5%nat
    = Returned 0 None
        {| zones := [seq_zone 0 65536 0; seq_zone 65536 65536 0];
           done_zones := 2; sector := 131072; ret := 0; ioctls := 1 |}.
Proof. run. Qed.

(** C8 (as stated) fails on a build without [HAVE_BLK_ZONE_REP_V2]: there
    [dmz_zone_capacity] is the length and the capacity field is never
    read.  The first of two zones has 65,536 sectors and declares a
    capacity of 32,768; the builder returns 0 with the zone in its
    array. *)
Lemma capacity_field_unread_without_support :
  dmz_get_dev_zones (h := std_h_v1)
      (reporting 65536 [shrunk_zone; full_zone 1]) (zoned_only 131072 2) 5%nat
    = Returned 0 None
        {| zones := [shrunk_zone; full_zone 1];
           done_zones := 2; sector := 131072; ret := 0; ioctls := 1 |}.
Proof. run. Qed.

(** C7 (as stated) fails: the last zone of the array has 16,960 sectors,
    which is 1,000,000 - 15 * 65,536, and not 33,280. *)
Lemma regular_only_last_zone :
  exists st z,
    dmz_get_dev_zones (h := std_h) silent regular_only 20%nat
      = Returned (-1) None st /\
    length (zones st) = 16%nat /\
    last (zones st) = Some z /\
    zlen z = 1000000 - 15 * 65536 /\
    zlen z = 16960 /\
    zlen z <> 33280.
Proof.
  eexists. eexists. split; [run|]. split; [run|]. split; [run|].
  repeat split; vm_compute; congruence.
Qed.

Lemma regular_only_zone_table_witness :
  zone_table (dmz_get_dev_zones (h := std_h) silent regular_only 17%nat)
    = Some (regular_only_table (h := std_h)).
Proof.
  apply (regular_only_zone_table (h := std_h) silent 17%nat);
    [reflexivity | reflexivity | lia].
Defined.

(** ** The safety checks *)

Section GuardFacts.
Context {h : dmz_h}.
Variable sys : host.

Lemma find_mount_some p table :
  (exists mnt, find_mount p table = Some mnt) <->
  (exists mnt, In mnt table /\ mnt_fsname mnt = p).
Proof.
  induction table as [|m table IH]; simpl.
  - split; intros [mnt Hm]; [discriminate|tauto].
  - destruct (String.eqb_spec p (mnt_fsname m)) as [He|Hne].
    + split; intros _; exists m; auto.
    + rewrite IH. split; intros [mnt Hm]; exists mnt.
      * tauto.
      * destruct Hm as [[->|Hin] Hp]; [congruence|tauto].
Qed.

Lemma dmz_bdev_mounted_values b :
  dmz_bdev_mounted sys b = 0 \/ dmz_bdev_mounted sys b = 1.
Proof.
  unfold dmz_bdev_mounted. destruct (proc_mounts sys) as [table|]; auto.
  destruct (find_mount (path b) table); auto.
Qed.

Lemma dmz_bdev_mounted_listed b :
  dmz_bdev_mounted sys b = 1 <-> listed_in_mounts sys b.
Proof.
  unfold dmz_bdev_mounted, listed_in_mounts.
  destruct (proc_mounts sys) as [table|].
  - pose proof (find_mount_some (path b) table) as Hf.
    destruct (find_mount (path b) table) as [m|].
    + split; [|reflexivity]. intros _.
      destruct (proj1 Hf) as [mnt Hm]; [eauto|].
      exists table, mnt. tauto.
    + split; [discriminate|]. intros (t & mnt & [= <-] & Hm).
      destruct (proj2 Hf) as [m' Hm']; [eauto|discriminate].
  - split; [discriminate|]. intros (t & mnt & Hn & _). discriminate.
Qed.

(** *** The holders of a device *)

Lemma scan_holders_app l1 l2 holder r :
  scan_holders (l1 ++ l2) holder r =
  scan_holders l2 (snd (scan_holders l1 holder r))
    (fst (scan_holders l1 holder r)).
Proof.
  revert holder r. induction l1 as [|n l1 IH]; intros holder r; simpl; auto.
  destruct (negb (String.eqb n "..") && negb (String.eqb n ".")); apply IH.
Qed.

Lemma scan_holders_reverse names holder :
  scan_holders (reverse names) (Some holder) 0 =
  match first_holder names with
  | Some n => (1, Some n)
  | None => (0, Some holder)
  end.
Proof.
  induction names as [|n names IH]; [reflexivity|].
  rewrite reverse_cons, scan_holders_app, IH. simpl.
  destruct (negb (String.eqb n "..") && negb (String.eqb n ".")).
  - now destruct (first_holder names).
  - now destruct (first_holder names).
Qed.


(** *** The content probe *)

Lemma check_overwrite_detects b :
  detects_content (blkid_of sys (path b)) ->
  dmz_check_overwrite sys b
    = (0, [content_kind (blkid_of sys (path b)); M_USE_FORCE]).
Proof.
  intros (Hn & Hs & Hp & Hf & Hl). unfold dmz_check_overwrite, content_kind.
  rewrite Hn, Hf. simpl.
  destruct (Z.ltb_spec (enable_superblocks (blkid_of sys (path b))) 0); [lia|].
  destruct (Z.ltb_spec (enable_partitions (blkid_of sys (path b))) 0); [lia|].
  destruct (Z.eqb_spec (lookup_TYPE (blkid_of sys (path b))) 0); [reflexivity|].
  destruct (Z.eqb_spec (lookup_PTTYPE (blkid_of sys (path b))) 0);
    [reflexivity|tauto].
Qed.

Lemma check_overwrite_probe_fails b :
  probe_fails (blkid_of sys (path b)) ->
  exists r, r < 0 /\ dmz_check_overwrite sys b = (r, [M_PROBE_FAILED]).
Proof.
  unfold probe_fails, dmz_check_overwrite. intros Hp.
  destruct (new_probe (blkid_of sys (path b))); simpl;
    [|exists (-1); split; [lia|reflexivity]].
  destruct (Z.ltb_spec (enable_superblocks (blkid_of sys (path b))) 0) as [H1|H1].
  { exists (enable_superblocks (blkid_of sys (path b))). split; [lia|].
    destruct (Z.eqb_spec (enable_superblocks (blkid_of sys (path b))) 0); [lia|].
    destruct (Z.ltb_spec (enable_superblocks (blkid_of sys (path b))) 0);
      [reflexivity|lia]. }
  destruct (Z.ltb_spec (enable_partitions (blkid_of sys (path b))) 0) as [H2|H2].
  { exists (enable_partitions (blkid_of sys (path b))). split; [lia|].
    destruct (Z.eqb_spec (enable_partitions (blkid_of sys (path b))) 0); [lia|].
    destruct (Z.ltb_spec (enable_partitions (blkid_of sys (path b))) 0);
      [reflexivity|lia]. }
  destruct (Z.ltb_spec (do_fullprobe (blkid_of sys (path b))) 0) as [H3|H3].
  { exists (do_fullprobe (blkid_of sys (path b))). split; [lia|]. simpl.
    destruct (Z.eqb_spec (do_fullprobe (blkid_of sys (path b))) 0); [lia|].
    destruct (Z.ltb_spec (do_fullprobe (blkid_of sys (path b))) 0);
      [reflexivity|lia]. }
  exfalso. destruct Hp as [Hp|[Hp|[Hp|Hp]]]; try discriminate; lia.
Qed.

Lemma open_format_blocked b flags r m :
  Z.land flags DMZ_OVERWRITE = 0 ->
  dmz_check_overwrite sys (named b) = (r, m) -> r <= 0 ->
  fst (fst (dmz_open_bdev sys b DMZ_OP_FORMAT flags)) = -1 /\
  (stat_is_blk sys (path (named b)) = Some true ->
   dmz_open_bdev sys b DMZ_OP_FORMAT flags = (-1, named b, m)).
Proof.
  intros Hflag Hchk Hr. unfold dmz_open_bdev.
  destruct (stat_is_blk sys (path (named b))) as [[|]|];
    [|split; [reflexivity|discriminate]..].
  rewrite Z.eqb_refl, Hflag. simpl andb. cbv iota. rewrite Hchk.
  destruct (Z.leb_spec r 0); [|lia]. split; reflexivity.
Qed.

(** C6. The checks of [dmz_open_bdev].  The device is the one that the
    path names once [basename] has cut the slashes at its end, [path
    (named b)]: this is the string that [stat], libblkid, the mount table
    and [open] are asked about.  A format without the overwrite flag is
    refused (-1) when libblkid finds a file system or a partition table on
    the device, with the lines that name what was found and ask for
    --force, and also when the probe itself fails.  With the flag set the
    probe is not consulted: the format is accepted (0) as soon as the
    device is a block device that is neither mounted nor held and can be
    opened and read.  A device listed in the mount table is refused
    whatever the operation and the flags are. *)
Theorem open_guard b flags :
  (Z.land flags DMZ_OVERWRITE = 0 ->
   detects_content (blkid_of sys (path (named b))) ->
     fst (fst (dmz_open_bdev sys b DMZ_OP_FORMAT flags)) = -1 /\
     (stat_is_blk sys (path (named b)) = Some true ->
      dmz_open_bdev sys b DMZ_OP_FORMAT flags
        = (-1, named b,
           [content_kind (blkid_of sys (path (named b))); M_USE_FORCE]))) /\
  (Z.land flags DMZ_OVERWRITE = 0 ->
   probe_fails (blkid_of sys (path (named b))) ->
     fst (fst (dmz_open_bdev sys b DMZ_OP_FORMAT flags)) = -1 /\
     (stat_is_blk sys (path (named b)) = Some true ->
      snd (dmz_open_bdev sys b DMZ_OP_FORMAT flags) = [M_PROBE_FAILED])) /\
  (Z.land flags DMZ_OVERWRITE <> 0 ->
   stat_is_blk sys (path (named b)) = Some true ->
   dmz_bdev_mounted sys (named b) = 0 ->
   fst (fst (dmz_bdev_busy sys (named b) None)) = 0 ->
   0 <= open_rdwr sys (path (named b)) ->
   0 <= fst (fst (dmz_get_bdev_info sys (opened sys b))) ->
     fst (fst (dmz_open_bdev sys b DMZ_OP_FORMAT flags)) = 0) /\
  (listed_in_mounts sys (named b) ->
   forall op flags', fst (fst (dmz_open_bdev sys b op flags')) = -1).
Proof.
  split; [|split; [|split]].
  - intros Hflag Hdet.
    apply (open_format_blocked b flags 0 _ Hflag
             (check_overwrite_detects (named b) Hdet) (Z.le_refl 0)).
  - intros Hflag Hfail.
    destruct (check_overwrite_probe_fails (named b) Hfail)
      as (r & Hr & Hc).
    assert (Hle : r <= 0) by lia.
    destruct (open_format_blocked b flags r _ Hflag Hc Hle) as [Hret Hfull].
    split; [exact Hret|]. intros Hs. now rewrite (Hfull Hs).
  - intros Hflag Hstat Hmnt Hbusy Hopen Hinfo.
    unfold dmz_open_bdev. rewrite Hstat.
    destruct (Z.eqb_spec (Z.land flags DMZ_OVERWRITE) 0) as [|_]; [contradiction|].
    rewrite andb_false_r. cbv iota. simpl (1 <=? 0). cbv iota.
    rewrite Hmnt. simpl negb. cbv iota.
    destruct (dmz_bdev_busy sys (named b) None) as [[busy hld] m'].
    simpl in Hbusy. subst busy. simpl negb. cbv iota.
    destruct (Z.ltb_spec (open_rdwr sys (path (named b))) 0); [lia|].
    fold (opened sys b).
    destruct (dmz_get_bdev_info sys (opened sys b)) as [[ri b'] mi].
    simpl in Hinfo. destruct (Z.ltb_spec ri 0); [lia|]. reflexivity.
  - intros Hlisted op flags'.
    apply dmz_bdev_mounted_listed in Hlisted.
    unfold dmz_open_bdev.
    destruct (stat_is_blk sys (path (named b))) as [[|]|]; try reflexivity.
    destruct (if (op =? DMZ_OP_FORMAT) && (Z.land flags' DMZ_OVERWRITE =? 0)
              then dmz_check_overwrite sys (named b) else (1, []))
      as [r m].
    destruct (r <=? 0); [reflexivity|].
    rewrite Hlisted. reflexivity.
Qed.


(** C9 (amended). [dmz_get_bdev_holder] looks at the device that the path
    names once [basename] has cut the slashes at its end, [path (named
    b)].  It fails (-1) exactly when [stat] fails, the path is not a block
    device, or the device is listed in the mount table.  For a block
    device that is not listed it returns 0 and leaves in the buffer the
    first holder in directory order, or an empty string when there is
    none; it neither probes the content of the device nor fails because
    the device is held, and when the holders directory cannot be read it
    leaves the buffer as it was. *)
Theorem holder_query b holder :
  (fst (fst (dmz_get_bdev_holder sys b holder)) = -1 <->
     stat_is_blk sys (path (named b)) = None \/
     stat_is_blk sys (path (named b)) = Some false \/
     listed_in_mounts sys (named b)) /\
  (stat_is_blk sys (path (named b)) = Some true ->
   ~ listed_in_mounts sys (named b) ->
     fst (fst (dmz_get_bdev_holder sys b holder)) = 0 /\
     snd (fst (dmz_get_bdev_holder sys b holder)) =
       match scandir sys (holders_path (named b)) with
       | None => holder
       | Some names =>
           match first_holder names with
           | Some n => n
           | None => ""
           end
       end).
Proof.
  assert (Hok : stat_is_blk sys (path (named b)) = Some true ->
                ~ listed_in_mounts sys (named b) ->
                fst (fst (dmz_get_bdev_holder sys b holder)) = 0 /\
                snd (fst (dmz_get_bdev_holder sys b holder)) =
                  match scandir sys (holders_path (named b)) with
                  | None => holder
                  | Some names =>
                      match first_holder names with
                      | Some n => n
                      | None => ""
                      end
                  end).
  { intros Hstat Hnot. unfold dmz_get_bdev_holder. rewrite Hstat.
    destruct (dmz_bdev_mounted_values (named b)) as [Hm|Hm];
      [|apply dmz_bdev_mounted_listed in Hm; contradiction].
    rewrite Hm. simpl negb. cbv iota. unfold dmz_bdev_busy.
    destruct (scandir sys (holders_path (named b))) as [names|];
      [|split; reflexivity].
    rewrite scan_holders_reverse.
    destruct (first_holder names); split; reflexivity. }
  split; [|exact Hok]. split.
  - intros Hret.
    destruct (stat_is_blk sys (path (named b))) as [[|]|] eqn:Hstat; auto.
    right. right.
    destruct (dmz_bdev_mounted_values (named b)) as [Hm|Hm];
      [|now apply dmz_bdev_mounted_listed].
    exfalso. assert (Hnot : ~ listed_in_mounts sys (named b)).
    { intros Hl. apply dmz_bdev_mounted_listed in Hl. lia. }
    destruct (Hok eq_refl Hnot) as [H0 _]. lia.
  - intros Hcase. unfold dmz_get_bdev_holder.
    destruct Hcase as [->|[->|Hl]]; try reflexivity.
    destruct (stat_is_blk sys (path (named b))) as [[|]|]; try reflexivity.
    apply dmz_bdev_mounted_listed in Hl.
    rewrite Hl. reflexivity.
Qed.

(** C10. When [/proc/mounts] cannot be opened, [dmz_bdev_mounted] answers
    0, and [dmz_open_bdev] goes on exactly as it does with an empty mount
    table.  When it can be opened, the answer is 1 exactly when the device
    name of some entry is the very string of the device path, and 0
    otherwise. *)
Theorem mount_check_by_exact_path b :
  (proc_mounts sys = None ->
     dmz_bdev_mounted sys b = 0 /\
     forall op flags,
       dmz_open_bdev sys b op flags
       = dmz_open_bdev (with_mounts sys (Some [])) b op flags) /\
  (forall table, proc_mounts sys = Some table ->
     (dmz_bdev_mounted sys b = 1 <->
        exists mnt, In mnt table /\ mnt_fsname mnt = path b) /\
     (dmz_bdev_mounted sys b = 0 <->
        forall mnt, In mnt table -> mnt_fsname mnt <> path b)).
Proof.
  split.
  - intros Hnone. split.
    + unfold dmz_bdev_mounted. now rewrite Hnone.
    + intros op flags. unfold dmz_open_bdev, dmz_bdev_mounted. simpl.
      rewrite Hnone. reflexivity.
  - intros table Htable.
    assert (H1 : dmz_bdev_mounted sys b = 1 <->
                 exists mnt, In mnt table /\ mnt_fsname mnt = path b).
    { rewrite dmz_bdev_mounted_listed. unfold listed_in_mounts. split.
      - intros (t & mnt & Ht & Hm). rewrite Htable in Ht.
        injection Ht as <-. eauto.
      - intros (mnt & Hm). exists table, mnt. tauto. }
    split; [exact H1|].
    destruct (dmz_bdev_mounted_values b) as [Hm|Hm]; rewrite Hm in *.
    + split; [|reflexivity]. intros _ mnt Hin Hp.
      assert (0 = 1) by (apply H1; eauto). lia.
    + split; [lia|]. intros Hall. exfalso.
      destruct (proj1 H1 eq_refl) as (mnt & Hin & Hp). exact (Hall mnt Hin Hp).
Qed.

End GuardFacts.

(** ** The safety checks on a concrete system *)

(** C9 (as stated) fails: [/dev/sdb] is a block device, it is held by
    [dm-0], and it is mounted; the query for its holder returns -1 and
    prints that the device is mounted. *)
Lemma holder_query_refuses_mounted :
  dmz_get_bdev_holder
    (demo_host (Some [root_fs; sdb_on_mnt]) blank_probe ["dm-0"]) sdb ""
  = (-1, "", [M_MOUNTED]).
Proof. reflexivity. Qed.

(** The disk is given as [/dev/sdb/] on a system that knows it as
    [/dev/sdb] only: the query looks at [/dev/sdb] and finds the holder. *)
Lemma holder_query_witness :
  fst (fst (dmz_get_bdev_holder
              (sdb_only_host (Some [root_fs]) ext4_probe ["dm-0"; "dm-1"])
              sdb_slash "")) = 0 /\
  snd (fst (dmz_get_bdev_holder
              (sdb_only_host (Some [root_fs]) ext4_probe ["dm-0"; "dm-1"])
              sdb_slash "")) = "dm-0".
Proof.
  apply (proj2 (holder_query
                  (sdb_only_host (Some [root_fs]) ext4_probe ["dm-0"; "dm-1"])
                  sdb_slash "")).
  - reflexivity.
  - intros (table & mnt & Ht & Hin & Hp). injection Ht as <-.
    destruct Hin as [<-|[]]. discriminate.
Defined.

Lemma mount_check_by_exact_path_witness :
  dmz_bdev_mounted (demo_host None blank_probe []) sdb = 0 /\
  dmz_open_bdev (h := std_h) (demo_host None blank_probe []) sdb
    (@DMZ_OP_FORMAT std_h) 0
  = dmz_open_bdev (h := std_h) (demo_host (Some []) blank_probe []) sdb
      (@DMZ_OP_FORMAT std_h) 0.
Proof.
  destruct (proj1 (mount_check_by_exact_path (h := std_h)
                     (demo_host None blank_probe []) sdb) eq_refl)
    as [Hm Ho].
  split; [exact Hm|exact (Ho (@DMZ_OP_FORMAT std_h) 0)].
Defined.

(** A format of [/dev/sdb] that holds an ext4 file system is refused
    without the overwrite flag and accepted with it; given as [/dev/sdb/],
    the disk is still found in the mount table, which lists [/dev/sdb]. *)
Lemma open_guard_witness :
  dmz_open_bdev (h := std_h) (demo_host (Some [root_fs]) ext4_probe []) sdb
      (@DMZ_OP_FORMAT std_h) 0
    = (-1, named sdb, [M_EXISTING_FILESYSTEM; M_USE_FORCE]) /\
  fst (fst (dmz_open_bdev (h := std_h)
              (sdb_only_host (Some [root_fs]) ext4_probe []) sdb_slash
              (@DMZ_OP_FORMAT std_h) (@DMZ_OVERWRITE std_h))) = 0 /\
  fst (fst (dmz_open_bdev (h := std_h)
              (sdb_only_host (Some [root_fs; sdb_on_mnt]) ext4_probe [])
              sdb_slash (@DMZ_OP_FORMAT std_h) (@DMZ_OVERWRITE std_h)))
    = -1.
Proof.
  split; [|split].
  - apply (proj1 (open_guard (h := std_h)
                    (demo_host (Some [root_fs]) ext4_probe []) sdb 0)).
    + reflexivity.
    + unfold detects_content. simpl. repeat split; lia.
    + reflexivity.
  - apply (proj1 (proj2 (proj2 (open_guard (h := std_h)
                    (sdb_only_host (Some [root_fs]) ext4_probe [])
                    sdb_slash 8))));
      try reflexivity; vm_compute; congruence.
  - apply (proj2 (proj2 (proj2 (open_guard (h := std_h)
                    (sdb_only_host (Some [root_fs; sdb_on_mnt]) ext4_probe [])
                    sdb_slash 0)))).
    exists [root_fs; sdb_on_mnt], sdb_on_mnt. repeat split.
    right. now left.
Defined.

Lemma translator_sentinel_iff_no_offset_below_witness :
  fst (dmz_sector_to_bdev (h := std_h) small_dev 8000) <> None.
Proof.
  intros Hn.
  apply (proj1 (proj1 (proj2 (translator_sentinel_iff_no_offset_below
                                (h := std_h) small_dev 8000)))) in Hn.
  inversion Hn as [|b l Hlt _]. vm_compute in Hlt. discriminate.
Defined.

(** * Further properties of [dmz_dev.c] *)

(** ** Address translation *)

Section TranslationFacts.
Context {h : dmz_h}.

(** A scan that finds a backend, read in array order: the backend stands at
    the index returned, and every backend after it starts above the
    address. *)
Lemma scan_blocks_lookup l a i b r :
  scan_blocks (reverse l) a = (Some (i, b), r) ->
  l !! i = Some b /\ block_offset b <= a /\ r = u64 (a - block_offset b) /\
  forall j b', (i < j)%nat -> l !! j = Some b' -> a < block_offset b'.
Proof.
  intros Hs.
  destruct (scan_blocks_some _ _ _ _ _ Hs)
    as (above & below & Hrev & Hi & Hall & Hb & Hr).
  destruct (reverse_split _ _ _ _ Hrev) as [Hl Hlen].
  assert (Hi' : i = length (reverse below)) by congruence.
  repeat split; auto.
  - rewrite Hl. now apply list_lookup_middle.
  - intros j b' Hj Hlk. rewrite Hl in Hlk.
    rewrite lookup_app_r in Hlk by lia.
    destruct (j - length (reverse below))%nat as [|j'] eqn:Hd; [lia|].
    simpl in Hlk. apply list_elem_of_lookup_2 in Hlk.
    rewrite elem_of_reverse in Hlk.
    rewrite Forall_forall in Hall. now apply Hall.
Qed.

Lemma scan_sectors_lookup l a i b r :
  scan_sectors (reverse l) a = (Some (i, b), r) ->
  l !! i = Some b /\ dmz_blk2sect (block_offset b) <= a /\
  r = u64 (a - dmz_blk2sect (block_offset b)) /\
  forall j b', (i < j)%nat -> l !! j = Some b' ->
    a < dmz_blk2sect (block_offset b').
Proof.
  intros Hs.
  destruct (scan_sectors_some _ _ _ _ _ Hs)
    as (above & below & Hrev & Hi & Hall & Hb & Hr).
  destruct (reverse_split _ _ _ _ Hrev) as [Hl Hlen].
  assert (Hi' : i = length (reverse below)) by congruence.
  repeat split; auto.
  - rewrite Hl. now apply list_lookup_middle.
  - intros j b' Hj Hlk. rewrite Hl in Hlk.
    rewrite lookup_app_r in Hlk by lia.
    destruct (j - length (reverse below))%nat as [|j'] eqn:Hd; [lia|].
    simpl in Hlk. apply list_elem_of_lookup_2 in Hlk.
    rewrite elem_of_reverse in Hlk.
    rewrite Forall_forall in Hall. now apply Hall.
Qed.

Lemma dmz_blk2sect_range x : 0 <= dmz_blk2sect x < 2 ^ 64.
Proof. unfold dmz_blk2sect, u64. apply Z.mod_pos_bound. lia. Qed.


(** Where the backend after index [i] begins in a contiguous layout, or
    where the whole composite ends when [i] is the last index. *)
Lemma contiguous_next key size start l i b :
  contiguous key size start l -> l !! i = Some b ->
  match l !! S i with
  | Some b' => key b' = key b + size b
  | None => start + total_of size l = key b + size b
  end.
Proof.
  revert start i. induction l as [|b0 l IH]; intros start i Hc Hl;
    [discriminate|].
  destruct Hc as [Hk Hc]. destruct i as [|i].
  - injection Hl as <-. simpl. destruct l as [|b1 l]; simpl.
    + lia.
    + destruct Hc as [Hk1 _]. lia.
  - simpl in Hl. specialize (IH _ _ Hc Hl).
    change ((b0 :: l) !! S (S i)) with (l !! S i).
    destruct (l !! S i); [exact IH|]. simpl. lia.
Qed.

Lemma contiguous_first key size start l b :
  contiguous key size start l -> l !! 0%nat = Some b -> key b = start.
Proof. destruct l; [discriminate|]. intros [Hk _] [= <-]. exact Hk. Qed.

(** X1. Translation never sends two addresses to the same place: two
    64-bit block numbers, or two 64-bit sector numbers, that are resolved
    to the same backend index with the same local address are equal. *)
Theorem translation_injective dev a a' :
  0 <= a < 2 ^ 64 -> 0 <= a' < 2 ^ 64 ->
  (Forall (fun b => 0 <= block_offset b) (bdev dev) ->
   forall i b b' r,
     dmz_block_to_bdev dev a = (Some (i, b), r) ->
     dmz_block_to_bdev dev a' = (Some (i, b'), r) -> a = a') /\
  (forall i b b' r,
     dmz_sector_to_bdev dev a = (Some (i, b), r) ->
     dmz_sector_to_bdev dev a' = (Some (i, b'), r) -> a = a').
Proof.
  intros Ha Ha'. split.
  - intros Hpos i b b' r H1 H2.
    apply scan_blocks_lookup in H1 as (Hl1 & Hle1 & Hr1 & _).
    apply scan_blocks_lookup in H2 as (Hl2 & Hle2 & Hr2 & _).
    assert (b' = b) by congruence. subst b'.
    assert (0 <= block_offset b).
    { rewrite Forall_forall in Hpos. apply Hpos.
      eapply list_elem_of_lookup_2; eauto. }
    unfold u64 in *. rewrite Z.mod_small in Hr1 by lia.
    rewrite Z.mod_small in Hr2 by lia. lia.
  - intros i b b' r H1 H2.
    apply scan_sectors_lookup in H1 as (Hl1 & Hle1 & Hr1 & _).
    apply scan_sectors_lookup in H2 as (Hl2 & Hle2 & Hr2 & _).
    assert (b' = b) by congruence. subst b'.
    pose proof (dmz_blk2sect_range (block_offset b)).
    unfold u64 in *. rewrite Z.mod_small in Hr1 by lia.
    rewrite Z.mod_small in Hr2 by lia. lia.
Qed.

(** X2. In a composite whose backends lie one after the other from sector
    0, every sector below the sum of the capacities is resolved, to a
    backend that contains it: the local sector is the sector minus the
    first sector of that backend and lies below the capacity of that
    backend.  The same holds in blocks, for backends of [nb b] blocks. *)
Theorem translation_in_range dev :
  (laid_out dev ->
   forall s, 0 <= s < total_of capacity (bdev dev) -> s < 2 ^ 64 ->
   exists i b,
     dmz_sector_to_bdev dev s = (Some (i, b), s - sector_offset_of b) /\
     bdev dev !! i = Some b /\
     0 <= s - sector_offset_of b < capacity b) /\
  (forall nb, laid_out_blocks nb dev ->
   Forall (fun b => 0 <= block_offset b) (bdev dev) ->
   forall a, 0 <= a < total_of nb (bdev dev) -> a < 2 ^ 64 ->
   exists i b,
     dmz_block_to_bdev dev a = (Some (i, b), a - block_offset b) /\
     bdev dev !! i = Some b /\
     0 <= a - block_offset b < nb b).
Proof.
  split.
  - intros Hlay s Hs Hs64. unfold laid_out in Hlay.
    destruct (dmz_sector_to_bdev dev s) as [[[i b]|] r] eqn:Hres.
    + unfold dmz_sector_to_bdev in Hres.
      apply scan_sectors_lookup in Hres as (Hl & Hle & Hr & Hafter).
      fold (sector_offset_of b) in Hle, Hr.
      assert (Hlt : s < sector_offset_of b + capacity b).
      { pose proof (contiguous_next _ _ _ _ _ _ Hlay Hl) as Hn.
        destruct (bdev dev !! S i) as [b'|] eqn:Hl'.
        - rewrite <- Hn. apply (Hafter (S i) b'); [lia|exact Hl'].
        - lia. }
      pose proof (dmz_blk2sect_range (block_offset b)) as Hrange.
      fold (sector_offset_of b) in Hrange.
      exists i, b. unfold u64 in Hr. rewrite Z.mod_small in Hr by lia.
      subst r. repeat split; auto; lia.
    + exfalso.
      assert (Hn : fst (dmz_sector_to_bdev dev s) = None) by now rewrite Hres.
      unfold dmz_sector_to_bdev in Hn. apply scan_sectors_none in Hn.
      apply Forall_reverse in Hn. rewrite reverse_involutive in Hn.
      destruct (bdev dev) as [|b0 l] eqn:Hb; [simpl in Hs; lia|].
      inversion Hn as [|? ? Hlt _]; subst. destruct Hlay as [Hk _].
      unfold sector_offset_of in Hk. lia.
  - intros nb Hlay Hoff a Ha Ha64. unfold laid_out_blocks in Hlay.
    destruct (dmz_block_to_bdev dev a) as [[[i b]|] r] eqn:Hres.
    + unfold dmz_block_to_bdev in Hres.
      apply scan_blocks_lookup in Hres as (Hl & Hle & Hr & Hafter).
      assert (Hlt : a < block_offset b + nb b).
      { pose proof (contiguous_next _ _ _ _ _ _ Hlay Hl) as Hn.
        destruct (bdev dev !! S i) as [b'|] eqn:Hl'.
        - rewrite <- Hn. apply (Hafter (S i) b'); [lia|exact Hl'].
        - lia. }
      assert (Hpos : 0 <= block_offset b).
      { rewrite Forall_forall in Hoff. apply Hoff.
        eapply list_elem_of_lookup_2; eauto. }
      exists i, b. unfold u64 in Hr. rewrite Z.mod_small in Hr by lia.
      subst r. repeat split; auto; lia.
    + exfalso.
      assert (Hn : fst (dmz_block_to_bdev dev a) = None) by now rewrite Hres.
      unfold dmz_block_to_bdev in Hn. apply scan_blocks_none in Hn.
      apply Forall_reverse in Hn. rewrite reverse_involutive in Hn.
      destruct (bdev dev) as [|b0 l] eqn:Hb; [simpl in Ha; lia|].
      inversion Hn as [|? ? Hlt _]; subst. destruct Hlay as [Hk _]. lia.
Qed.


Lemma scan_blocks_resolved l a i b r a' :
  scan_blocks (reverse l) a = (Some (i, b), r) -> a <= a' ->
  exists i' b' r',
    scan_blocks (reverse l) a' = (Some (i', b'), r') /\ (i <= i')%nat.
Proof.
  intros Hs Hle.
  apply scan_blocks_lookup in Hs as (Hl & Hb & _ & _).
  destruct (scan_blocks (reverse l) a') as [[[i' b']|] r'] eqn:Hs'.
  - exists i', b', r'. split; [reflexivity|].
    apply scan_blocks_lookup in Hs' as (_ & _ & _ & Hafter).
    destruct (le_lt_dec i i') as [|Hlt]; [assumption|].
    specialize (Hafter i b Hlt Hl). lia.
  - exfalso.
    assert (Hn : fst (scan_blocks (reverse l) a') = None) by now rewrite Hs'.
    apply scan_blocks_none in Hn. rewrite Forall_forall in Hn.
    assert (a' < block_offset b); [|lia].
    apply Hn. rewrite elem_of_reverse. eapply list_elem_of_lookup_2; eauto.
Qed.

Lemma scan_sectors_resolved l a i b r a' :
  scan_sectors (reverse l) a = (Some (i, b), r) -> a <= a' ->
  exists i' b' r',
    scan_sectors (reverse l) a' = (Some (i', b'), r') /\ (i <= i')%nat.
Proof.
  intros Hs Hle.
  apply scan_sectors_lookup in Hs as (Hl & Hb & _ & _).
  destruct (scan_sectors (reverse l) a') as [[[i' b']|] r'] eqn:Hs'.
  - exists i', b', r'. split; [reflexivity|].
    apply scan_sectors_lookup in Hs' as (_ & _ & _ & Hafter).
    destruct (le_lt_dec i i') as [|Hlt]; [assumption|].
    specialize (Hafter i b Hlt Hl). lia.
  - exfalso.
    assert (Hn : fst (scan_sectors (reverse l) a') = None) by now rewrite Hs'.
    apply scan_sectors_none in Hn. rewrite Forall_forall in Hn.
    assert (a' < dmz_blk2sect (block_offset b)); [|lia].
    apply Hn. rewrite elem_of_reverse. eapply list_elem_of_lookup_2; eauto.
Qed.

(** X3. Translation follows the order of the addresses: when an address is
    resolved, every address above it is resolved too, to a backend whose
    index is at least as high. *)
Theorem translation_monotone dev a a' i b r :
  a <= a' ->
  (dmz_block_to_bdev dev a = (Some (i, b), r) ->
   exists i' b' r',
     dmz_block_to_bdev dev a' = (Some (i', b'), r') /\ (i <= i')%nat) /\
  (dmz_sector_to_bdev dev a = (Some (i, b), r) ->
   exists i' b' r',
     dmz_sector_to_bdev dev a' = (Some (i', b'), r') /\ (i <= i')%nat).
Proof.
  intros Hle. split; intros Hs.
  - eapply scan_blocks_resolved; eauto.
  - eapply scan_sectors_resolved; eauto.
Qed.

(** The two scans side by side: with offsets that fit 64 bits once turned
    into sectors, a sector of a block is scanned like the block. *)
Lemma scan_sectors_of_block l block k :
  0 <= DMZ_BLOCK_SECTORS_SHIFT ->
  Forall (fun b => 0 <= block_offset b /\
                   block_offset b * 2 ^ DMZ_BLOCK_SECTORS_SHIFT < 2 ^ 64) l ->
  0 <= k < 2 ^ DMZ_BLOCK_SECTORS_SHIFT ->
  block * 2 ^ DMZ_BLOCK_SECTORS_SHIFT + k < 2 ^ 64 ->
  scan_sectors l (block * 2 ^ DMZ_BLOCK_SECTORS_SHIFT + k) =
  match scan_blocks l block with
  | (Some ib, r) => (Some ib, r * 2 ^ DMZ_BLOCK_SECTORS_SHIFT + k)
  | (None, r) => (None, r)
  end.
Proof.
  intros Hshift Hall Hk Hfit.
  induction l as [|b l IH]; [reflexivity|].
  inversion Hall as [|? ? [Hpos Hoff] Hall']; subst. simpl.
  assert (Hs : dmz_blk2sect (block_offset b)
               = block_offset b * 2 ^ DMZ_BLOCK_SECTORS_SHIFT).
  { unfold dmz_blk2sect, u64. rewrite Z.shiftl_mul_pow2 by assumption.
    apply Z.mod_small. nia. }
  rewrite Hs.
  assert (Hp : 0 < 2 ^ DMZ_BLOCK_SECTORS_SHIFT) by (apply Z.pow_pos_nonneg; lia).
  destruct (Z.leb_spec (block_offset b) block) as [Hle|Hgt].
  - destruct (Z.leb_spec (block_offset b * 2 ^ DMZ_BLOCK_SECTORS_SHIFT)
                (block * 2 ^ DMZ_BLOCK_SECTORS_SHIFT + k)) as [_|Hc]; [|nia].
    f_equal. unfold u64. rewrite !Z.mod_small; nia.
  - destruct (Z.leb_spec (block_offset b * 2 ^ DMZ_BLOCK_SECTORS_SHIFT)
                (block * 2 ^ DMZ_BLOCK_SECTORS_SHIFT + k)) as [Hc|_]; [nia|].
    now apply IH.
Qed.

(** X4. The two translators agree.  With a non-negative shift and block
    offsets that fit 64 bits once turned into sectors, each sector of a
    block is resolved to the backend the block is resolved to, at the
    local sector that the local block and the position in the block give;
    and it has no owner exactly when the block has none. *)
Theorem sector_translation_of_block dev block k :
  0 <= DMZ_BLOCK_SECTORS_SHIFT ->
  Forall (fun b => 0 <= block_offset b /\
                   block_offset b * 2 ^ DMZ_BLOCK_SECTORS_SHIFT < 2 ^ 64)
    (bdev dev) ->
  0 <= k < 2 ^ DMZ_BLOCK_SECTORS_SHIFT ->
  block * 2 ^ DMZ_BLOCK_SECTORS_SHIFT + k < 2 ^ 64 ->
  dmz_sector_to_bdev dev (block * 2 ^ DMZ_BLOCK_SECTORS_SHIFT + k) =
  match dmz_block_to_bdev dev block with
  | (Some ib, r) => (Some ib, r * 2 ^ DMZ_BLOCK_SECTORS_SHIFT + k)
  | (None, r) => (None, r)
  end.
Proof.
  intros Hshift Hall Hk Hfit. unfold dmz_sector_to_bdev, dmz_block_to_bdev.
  apply scan_sectors_of_block; auto. now apply Forall_reverse.
Qed.

End TranslationFacts.

(** ** The zone topology builder, further *)

Section BuilderMoreFacts.
Context {h : dmz_h}.

Lemma after_inv k dev n st st' :
  table_inv dev st -> after k dev n st = Some st' -> table_inv dev st'.
Proof.
  revert st. induction n as [|n IH]; intros st Hinv; simpl.
  - now intros [= <-].
  - pose proof (loop_body_inv k dev st Hinv) as Hs.
    destruct (loop_body k dev st); try discriminate. now apply IH.
Qed.

Lemma after_S_last k dev n st st1 st2 :
  after k dev n st = Some st1 -> loop_body k dev st1 = Next st2 ->
  after k dev (S n) st = Some st2.
Proof.
  revert st. induction n as [|n IH]; intros st; simpl.
  - intros [= ->] ->. reflexivity.
  - destruct (loop_body k dev st); try discriminate. apply IH.
Qed.

Lemma asks_report_body k dev n st d b r reply :
  asks_report k dev n st d b r reply ->
  loop_body k dev st = query_zones k dev d b
                         (snd (dmz_sector_to_bdev dev (sector st))) st /\
  blkreportzone k (ioctls st) d (snd (dmz_sector_to_bdev dev (sector st)))
    = (r, reply).
Proof.
  intros (_ & _ & _ & Hlt & s & Hloc & Hreg & Hrep).
  unfold loop_body. destruct (Z.ltb_spec (sector st) (dev_capacity dev)); [|lia].
  rewrite Hloc, Hreg. simpl. auto.
Qed.

Lemma run_from_after k dev n st fuel :
  calloc_ok k = true -> malloc_ok k = true ->
  after k dev n (initial dev) = Some st -> (n < fuel)%nat ->
  dmz_get_dev_zones k dev fuel =
  match loop_body k dev st with
  | Next st' => build_from k dev (fuel - S n) st'
  | Leave st' => final_checks dev st'
  | Abort r e st' => Returned r (Some e) st'
  | Crash => Trap
  end.
Proof.
  intros Hc Hm Ha Hfuel. destruct (more_fuel _ _ Hfuel) as [m ->].
  unfold dmz_get_dev_zones. rewrite Hc, Hm. simpl negb. cbv iota.
  rewrite (build_from_after _ _ _ _ _ _ Ha). simpl.
  replace (n + S m - S n)%nat with m by lia. reflexivity.
Qed.

(** X5. A report ioctl that fails aborts the whole build: the call returns
    the value of the ioctl, with the diagnostic of the failed query, and
    the zone array is left as it was before the query. *)
Theorem report_failure_aborts k dev n st d b r reply fuel :
  asks_report k dev n st d b r reply -> r <> 0 -> (n < fuel)%nat ->
  dmz_get_dev_zones k dev fuel
    = Returned r (Some E_REPORT_ZONES) (ioctl_done st r) /\
  zones (ioctl_done st r) = zones st.
Proof.
  intros Hask Hr Hfuel. split; [|reflexivity].
  destruct (asks_report_body _ _ _ _ _ _ _ _ Hask) as [Hbody Hrep].
  destruct Hask as (Hc & Hm & Ha & _).
  rewrite (run_from_after _ _ _ _ _ Hc Hm Ha Hfuel), Hbody.
  unfold query_zones. rewrite Hrep.
  destruct (Z.eqb_spec r 0); [contradiction|]. reflexivity.
Qed.

(** X6. A report without records ends the loop at once, whatever part of
    the composite is still uncovered: when fewer zones than expected were
    produced the call fails with the diagnostic of the zone count, and it
    returns 0 only if both final checks pass on what was produced. *)
Theorem empty_report_ends_loop k dev n st d b fuel :
  asks_report k dev n st d b 0 [] -> (n < fuel)%nat ->
  dmz_get_dev_zones k dev fuel = final_checks dev (ioctl_done st 0) /\
  (done_zones st <> dev_nr_zones dev ->
     dmz_get_dev_zones k dev fuel
       = Returned (-1) (Some E_NR_ZONES) (ioctl_done st 0)) /\
  (forall m st', dmz_get_dev_zones k dev fuel = Returned 0 m st' ->
     done_zones st = dev_nr_zones dev /\
     sector st = u64 (dev_nr_zones dev * zone_nr_sectors dev)).
Proof.
  intros Hask Hfuel.
  destruct (asks_report_body _ _ _ _ _ _ _ _ Hask) as [Hbody Hrep].
  destruct Hask as (Hc & Hm & Ha & _).
  assert (Hrun : dmz_get_dev_zones k dev fuel
                 = final_checks dev (ioctl_done st 0)).
  { rewrite (run_from_after _ _ _ _ _ Hc Hm Ha Hfuel), Hbody.
    unfold query_zones. rewrite Hrep. reflexivity. }
  rewrite Hrun. split; [reflexivity|]. unfold final_checks, ioctl_done. simpl.
  destruct (Z.eqb_spec (dev_nr_zones dev) (done_zones st)) as [Hn|Hn]; simpl.
  - split; [congruence|].
    destruct (Z.eqb_spec (sector st) (u64 (done_zones st * zone_nr_sectors dev)))
      as [Hs|Hs]; simpl; [|discriminate].
    intros m st' _. rewrite Hn at 2. auto.
  - split; [reflexivity|discriminate].
Qed.

(** X7. A record that passes the size and capacity tests but arrives when
    the expected number of zones is already reached is refused: the call
    returns -1 with the diagnostic of the zone start, and the record is not
    stored. *)
Theorem surplus_zone_rejected k dev n st d b pre z post st1 fuel :
  receives_report k dev n st d b (pre ++ z :: post) ->
  report_zones dev b (dmz_blk2sect (block_offset b)) pre (ioctl_done st 0)
    = inr st1 ->
  (zlen z = zone_nr_sectors dev \/ u64 (zstart z + zlen z) = capacity b) ->
  zlen z <= dmz_zone_capacity z ->
  dev_nr_zones dev <= done_zones st1 ->
  (n < fuel)%nat ->
  dmz_get_dev_zones k dev fuel = Returned (-1) (Some E_ZONE_START) st1.
Proof.
  intros Hrec Hpre Hsize Hcap Hfull Hfuel.
  eapply receives_report_first_failure; eauto.
  unfold report_zone, dmz_zone_length, dmz_zone_sector.
  destruct (Z.eqb_spec (zlen z) (zone_nr_sectors dev));
  destruct (Z.eqb_spec (u64 (zstart z + zlen z)) (capacity b));
  simpl; try (exfalso; tauto);
  (destruct (Z.ltb_spec (dmz_zone_capacity z) (zlen z)); [lia|]);
  (destruct (Z.leb_spec (dev_nr_zones dev) (done_zones st1)); [reflexivity|lia]).
Qed.


(** *** Reports that are accepted *)

Lemma report_zone_stores dev b off st z :
  size_ok dev b z -> capacity_ok z -> done_zones st < dev_nr_zones dev ->
  report_zone dev b off st z =
    inr {| zones := <[Z.to_nat (done_zones st) := rebased off z]> (zones st);
           done_zones := u32 (done_zones st + 1);
           sector := u64 (zstart (rebased off z) + zlen z);
           ret := ret st; ioctls := ioctls st |}.
Proof.
  unfold size_ok, capacity_ok. intros Hs Hc Hlt.
  unfold report_zone, dmz_zone_length, dmz_zone_sector.
  destruct (Z.eqb_spec (zlen z) (zone_nr_sectors dev));
  destruct (Z.eqb_spec (u64 (zstart z + zlen z)) (capacity b));
  simpl; try (exfalso; tauto);
  (destruct (Z.ltb_spec (dmz_zone_capacity z) (zlen z)); [lia|]);
  (destruct (Z.leb_spec (dev_nr_zones dev) (done_zones st)); [lia|]);
  reflexivity.
Qed.

Lemma cursor_after_cons off z more s :
  cursor_after off (z :: more) s
  = cursor_after off more (u64 (zstart (rebased off z) + zlen z)).
Proof.
  unfold cursor_after. destruct more as [|z' more]; [reflexivity|].
  rewrite last_cons_cons.
  destruct (last (z' :: more)) eqn:Hl; [reflexivity|].
  apply last_None in Hl. discriminate.
Qed.

Lemma report_zones_stores dev b off reply st :
  0 <= done_zones st ->
  length (zones st) = Z.to_nat (dev_nr_zones dev) ->
  done_zones st + Z.of_nat (length reply) <= dev_nr_zones dev ->
  Forall (fun z => size_ok dev b z /\ capacity_ok z) reply ->
  exists st',
    report_zones dev b off reply st = inr st' /\
    done_zones st' = done_zones st + Z.of_nat (length reply) /\
    sector st' = cursor_after off reply (sector st) /\
    ret st' = ret st /\ ioctls st' = ioctls st /\
    (forall (j : nat) z, reply !! j = Some z ->
       zones st' !! (Z.to_nat (done_zones st) + j)%nat
         = Some (rebased off z)) /\
    (forall j : nat,
       (j < Z.to_nat (done_zones st))%nat \/
       (Z.to_nat (done_zones st) + length reply <= j)%nat ->
       zones st' !! j = zones st !! j).
Proof.
  revert st. induction reply as [|z reply IH]; intros st Hpos Hlen Hroom Hall.
  - exists st. simpl. repeat split; auto; try lia. intros j z Hj. discriminate.
  - inversion Hall as [|? ? [Hs Hc] Hall']; subst.
    pose proof (dev_nr_zones_range dev) as Hr.
    simpl length in Hroom.
    assert (Hlt : done_zones st < dev_nr_zones dev) by lia.
    simpl. rewrite (report_zone_stores dev b off st z Hs Hc Hlt).
    set (st1 := {| zones := <[Z.to_nat (done_zones st) := rebased off z]>
                              (zones st);
                   done_zones := u32 (done_zones st + 1);
                   sector := u64 (zstart (rebased off z) + zlen z);
                   ret := ret st; ioctls := ioctls st |}).
    assert (Hu : done_zones st1 = done_zones st + 1).
    { simpl. unfold u32. apply Z.mod_small. lia. }
    destruct (IH st1) as (st' & Hrz & Hd & Hsec & Hret & Hio & Hin & Hout).
    + lia.
    + simpl. now rewrite length_insert.
    + lia.
    + exact Hall'.
    + exists st'. rewrite Hu in *.
      replace (Z.to_nat (done_zones st + 1))
        with (S (Z.to_nat (done_zones st))) in * by lia.
      repeat split; auto.
      * lia.
      * now rewrite cursor_after_cons.
      * intros [|j] z' Hj.
        -- injection Hj as <-. rewrite Nat.add_0_r.
           rewrite Hout by lia. simpl.
           apply list_lookup_insert_eq. lia.
        -- simpl in Hj. replace (Z.to_nat (done_zones st) + S j)%nat
             with (S (Z.to_nat (done_zones st)) + j)%nat by lia.
           now apply Hin.
      * intros j Hj. rewrite Hout by (simpl length in Hj; lia).
        simpl. apply list_lookup_insert_ne. simpl length in Hj. lia.
Qed.

(** X8. A report whose records all pass the size and capacity tests, and
    which leaves room in the zone array, is taken over as a whole by one
    pass of the loop: record [j] is stored [j] places after the zones
    already produced, with start and write pointer moved by the sector
    offset of the backend and every other field unchanged; the rest of the
    array is untouched, the count grows by the number of records, and the
    cursor is the end of the last record. *)
Theorem report_taken_over k dev n st d b reply :
  receives_report k dev n st d b reply -> reply <> [] ->
  Forall (fun z => (zlen z = zone_nr_sectors dev \/
                    u64 (zstart z + zlen z) = capacity b) /\
                   zlen z <= dmz_zone_capacity z) reply ->
  done_zones st + Z.of_nat (length reply) <= dev_nr_zones dev ->
  exists st',
    after k dev (S n) (initial dev) = Some st' /\
    done_zones st' = done_zones st + Z.of_nat (length reply) /\
    sector st' = cursor_after (dmz_blk2sect (block_offset b)) reply (sector st) /\
    ret st' = 0 /\
    (forall (j : nat) z, reply !! j = Some z ->
       zones st' !! (Z.to_nat (done_zones st) + j)%nat
         = Some (rebased (dmz_blk2sect (block_offset b)) z)) /\
    (forall j : nat,
       (j < Z.to_nat (done_zones st))%nat \/
       (Z.to_nat (done_zones st) + length reply <= j)%nat ->
       zones st' !! j = zones st !! j).
Proof.
  intros Hrec Hne Hall Hroom.
  pose proof (receives_report_body _ _ _ _ _ _ _ Hrec Hne) as Hbody.
  destruct Hrec as (_ & _ & Ha & _).
  pose proof (after_inv _ _ _ _ _ (initial_inv dev) Ha) as (Hpos & Hlen & _).
  destruct (report_zones_stores dev b (dmz_blk2sect (block_offset b)) reply
              (ioctl_done st 0))
    as (st' & Hrz & Hd & Hsec & Hret & _ & Hin & Hout); auto.
  rewrite Hrz in Hbody. exists st'.
  split; [eapply after_S_last; eauto|]. repeat split; auto.
Qed.


(** *** A zoned device of uniform zones *)

Lemma rebased_0 z :
  0 <= zstart z < 2 ^ 64 -> 0 <= zwp z < 2 ^ 64 -> rebased 0 z = z.
Proof.
  intros Hs Hw. destruct z as [s l w t c n rs cp]. unfold rebased. simpl in *.
  rewrite !Z.add_0_r. unfold u64. rewrite !Z.mod_small by lia. reflexivity.
Qed.

Lemma sum_uniform_lengths (l : list blk_zone) zs :
  Forall (fun z => zlen z = zs) l ->
  foldr Z.add 0 (map zlen l) = Z.of_nat (length l) * zs.
Proof.
  induction 1 as [|z l Hz _ IH]; [reflexivity|].
  simpl foldr. simpl length. rewrite IH, Hz. lia.
Qed.

Lemma single_backend_at_0 dev b s :
  bdev dev = [b] -> block_offset b = 0 -> 0 <= s ->
  dmz_sector_to_bdev dev s = (Some (0%nat, b), u64 s).
Proof.
  intros Hb Hoff Hs. unfold dmz_sector_to_bdev. rewrite Hb.
  cbn [reverse rev_append scan_sectors]. rewrite Hoff, dmz_blk2sect_0.
  destruct (Z.leb_spec 0 s); [|lia]. now rewrite Z.sub_0_r.
Qed.

Lemma single_backend_nr_zones dev b :
  bdev dev = [b] -> 0 <= nr_zones b < 2 ^ 32 -> dev_nr_zones dev = nr_zones b.
Proof.
  intros Hb Hr. unfold dev_nr_zones. rewrite Hb. simpl.
  unfold u32. apply Z.mod_small. lia.
Qed.

(** X9. A composite of one zoned backend at offset 0 whose capacity is a
    whole number of zones is accepted when the first report delivers all
    its zones, each of the uniform size, one after the other from sector 0
    and with a capacity not below the length: the call returns 0, the zone
    array is the report itself, and the lengths of its zones add up to the
    capacity of the composite. *)
Theorem uniform_zoned_device_accepted k dev b reply fuel :
  calloc_ok k = true -> malloc_ok k = true ->
  bdev dev = [b] -> block_offset b = 0 -> is_regular (btype b) = false ->
  0 < zone_nr_sectors dev -> 0 < nr_zones b < 2 ^ 32 ->
  dev_capacity dev = nr_zones b * zone_nr_sectors dev ->
  dev_capacity dev < 2 ^ 64 ->
  blkreportzone k 0%nat 0%nat 0 = (0, reply) ->
  Z.of_nat (length reply) = nr_zones b ->
  (forall (j : nat) z, reply !! j = Some z ->
     zstart z = Z.of_nat j * zone_nr_sectors dev /\
     zlen z = zone_nr_sectors dev /\
     zlen z <= dmz_zone_capacity z /\ 0 <= zwp z < 2 ^ 64) ->
  (1 < fuel)%nat ->
  exists st,
    dmz_get_dev_zones k dev fuel = Returned 0 None st /\
    zones st = reply /\
    foldr Z.add 0 (map zlen (zones st)) = dev_capacity dev.
Proof.
  intros Hc Hm Hb Hoff Hreg Hzs Hn Hcap Hcap64 Hrep Hlen Hrec Hfuel.
  pose proof (single_backend_nr_zones dev b Hb ltac:(lia)) as Htot.
  assert (Hvalid : Forall (fun z => size_ok dev b z /\ capacity_ok z) reply).
  { apply Forall_lookup. intros j z Hj.
    destruct (Hrec j z Hj) as (_ & Hl & Hcp & _).
    unfold size_ok, capacity_ok. auto. }
  assert (Hne : reply <> []) by (intros ->; simpl in Hlen; lia).
  assert (Hrr : receives_report k dev 0 (initial dev) 0 b reply).
  { unfold receives_report. repeat split; auto.
    - simpl. nia.
    - exists 0. simpl sector.
      rewrite (single_backend_at_0 dev b 0 Hb Hoff) by lia.
      repeat split; auto. }
  pose proof (receives_report_body _ _ _ _ _ _ _ Hrr Hne) as Hbody.
  rewrite Hoff, dmz_blk2sect_0 in Hbody.
  destruct (report_zones_stores dev b 0 reply (ioctl_done (initial dev) 0))
    as (st & Hrz & Hd & Hsec & Hret & _ & Hin & _); auto.
  { simpl. lia. }
  { simpl. apply length_replicate. }
  { simpl. lia. }
  rewrite Hrz in Hbody. simpl in Hd, Hret, Hin.
  assert (Hafter : after k dev 1 (initial dev) = Some st).
  { simpl. now rewrite Hbody. }
  pose proof (after_inv _ _ _ _ _ (initial_inv dev) Hafter)
    as (_ & Hlenst & _ & _).
  (* the cursor is the end of the last zone, that is the capacity *)
  assert (Hcur : sector st = dev_capacity dev).
  { rewrite Hsec. unfold cursor_after.
    destruct (last reply) as [zl|] eqn:Hlast;
      [|apply last_None in Hlast; contradiction].
    rewrite last_lookup in Hlast.
    destruct (Hrec _ _ Hlast) as (Hs & Hl & _ & _).
    assert (Hj : Z.of_nat (pred (length reply)) = nr_zones b - 1) by lia.
    simpl zstart. rewrite Z.add_0_r, Hs, Hl, Hj.
    unfold u64. rewrite (Z.mod_small ((nr_zones b - 1) * zone_nr_sectors dev))
      by nia.
    rewrite Z.mod_small by nia. lia. }
  assert (Hz : zones st = reply).
  { apply list_eq. intros j.
    destruct (reply !! j) as [z|] eqn:Hj.
    - specialize (Hin j z Hj). simpl in Hin. rewrite Hin. f_equal.
      destruct (Hrec j z Hj) as (Hs & Hl & _ & Hw).
      apply lookup_lt_Some in Hj.
      apply rebased_0; [|exact Hw]. rewrite Hs. nia.
    - apply lookup_ge_None in Hj. apply lookup_ge_None. lia. }
  exists st. split; [|split; [exact Hz|]].
  - rewrite (run_from_after _ _ _ _ _ Hc Hm Hafter Hfuel).
    unfold loop_body.
    destruct (Z.ltb_spec (sector st) (dev_capacity dev)); [lia|].
    unfold final_checks. rewrite Htot, Hd.
    replace (0 + Z.of_nat (length reply)) with (nr_zones b) by lia.
    rewrite Z.eqb_refl. simpl negb. cbv iota.
    rewrite Hcur, Hcap. unfold u64.
    rewrite Z.mod_small by lia. rewrite Z.eqb_refl. simpl. now rewrite Hret.
  - rewrite Hz, (sum_uniform_lengths reply (zone_nr_sectors dev)).
    + lia.
    + apply Forall_lookup. intros j z Hj. now destruct (Hrec j z Hj) as (_ & ? & _).
Qed.


(** *** Composites of one kind of backend *)

Lemma sector_owner_in dev s d b r :
  dmz_sector_to_bdev dev s = (Some (d, b), r) -> b ∈ bdev dev.
Proof.
  unfold dmz_sector_to_bdev. intros Hs.
  apply scan_sectors_lookup in Hs as (Hl & _). eapply list_elem_of_lookup_2; eauto.
Qed.

Lemma loop_body_regular_ret k dev st :
  Forall (fun b => is_regular (btype b) = true) (bdev dev) ->
  match loop_body k dev st with
  | Next st' | Leave st' => ret st' = ret st
  | Abort _ _ _ => False
  | Crash => True
  end.
Proof.
  intros Hall. unfold loop_body.
  destruct (_ <? _); [|reflexivity].
  destruct (dmz_sector_to_bdev dev (sector st)) as [[[d b]|] s] eqn:Hloc;
    [|exact I].
  rewrite Forall_forall in Hall.
  rewrite (Hall b (sector_owner_in _ _ _ _ _ Hloc)).
  unfold emulate_zone. destruct (zones st !! _); [reflexivity|exact I].
Qed.

Lemma build_from_regular_ret k dev fuel st r m st' :
  Forall (fun b => is_regular (btype b) = true) (bdev dev) ->
  ret st = -1 ->
  build_from k dev fuel st = Returned r m st' -> r = -1.
Proof.
  intros Hall. revert st. induction fuel as [|fuel IH]; intros st Hret;
    simpl; [discriminate|].
  pose proof (loop_body_regular_ret k dev st Hall) as Hs.
  destruct (loop_body k dev st) as [st1|st1|r1 e1 st1|].
  - apply IH. congruence.
  - unfold final_checks.
    destruct (negb _); [now intros [= <- _ _]|].
    destruct (negb _); [now intros [= <- _ _]|].
    intros [= <- _ _]. congruence.
  - contradiction.
  - discriminate.
Qed.

(** X10. A composite that has only regular backends is never accepted:
    whatever its geometry and whatever fuel is given, a call that returns
    returns -1, the value [ret] starts with, because only a report ioctl
    ever assigns 0 to it. *)
Theorem regular_only_never_accepted k dev fuel r m st :
  Forall (fun b => btype b = DMZ_TYPE_REGULAR) (bdev dev) ->
  dmz_get_dev_zones k dev fuel = Returned r m st -> r = -1.
Proof.
  intros Hall. unfold dmz_get_dev_zones.
  destruct (negb (calloc_ok k)); [now intros [= <- _ _]|].
  destruct (negb (malloc_ok k)); [now intros [= <- _ _]|].
  apply build_from_regular_ret; [|reflexivity].
  eapply Forall_impl; [exact Hall|]. intros b Hb. cbv beta in Hb.
  now rewrite Hb.
Qed.

Lemma report_zones_sector_nonneg dev b off reply st st' :
  0 <= sector st -> report_zones dev b off reply st = inr st' ->
  0 <= sector st'.
Proof.
  revert st. induction reply as [|z reply IH]; intros st Hpos; simpl.
  - now intros [= <-].
  - destruct (report_zone dev b off st z) as [[e st1]|st1] eqn:Hz;
      [discriminate|].
    apply IH. revert Hz. unfold report_zone.
    destruct (_ && _); [discriminate|].
    destruct (_ <? _); [discriminate|].
    destruct (_ <=? _); [discriminate|].
    intros [= <-]. simpl. unfold u64. apply Z.mod_pos_bound. lia.
Qed.

Lemma loop_body_zoned_safe k dev st :
  Forall (fun b => is_regular (btype b) = false) (bdev dev) ->
  (exists b, b ∈ bdev dev /\ block_offset b = 0) ->
  0 <= sector st ->
  match loop_body k dev st with
  | Next st' => 0 <= sector st'
  | Crash => False
  | _ => True
  end.
Proof.
  intros Hall (b0 & Hin0 & Hoff0) Hpos. unfold loop_body.
  destruct (_ <? _); [|exact I].
  destruct (dmz_sector_to_bdev dev (sector st)) as [[[d b]|] s] eqn:Hloc.
  - rewrite Forall_forall in Hall.
    rewrite (Hall b (sector_owner_in _ _ _ _ _ Hloc)).
    unfold query_zones. destruct (blkreportzone k (ioctls st) d s) as [r reply].
    destruct (negb (r =? 0)); [exact I|].
    destruct reply as [|z reply]; [exact I|].
    destruct (report_zones _ _ _ _ _) as [[e st2]|st2] eqn:Hrz; [exact I|].
    eapply report_zones_sector_nonneg; [|exact Hrz]. exact Hpos.
  - assert (Hn : fst (dmz_sector_to_bdev dev (sector st)) = None)
      by now rewrite Hloc.
    unfold dmz_sector_to_bdev in Hn. apply scan_sectors_none in Hn.
    rewrite Forall_forall in Hn.
    assert (Hlt : sector st < dmz_blk2sect (block_offset b0)).
    { apply Hn. now rewrite elem_of_reverse. }
    rewrite Hoff0, dmz_blk2sect_0 in Hlt. lia.
Qed.

(** X11. With zoned backends only, one of them at block offset 0, the
    builder neither follows a null backend pointer nor writes outside the
    zone array, whatever the kernel reports: no run ends in a trap. *)
Theorem zoned_only_never_traps k dev fuel :
  Forall (fun b => btype b <> DMZ_TYPE_REGULAR) (bdev dev) ->
  (exists b, b ∈ bdev dev /\ block_offset b = 0) ->
  dmz_get_dev_zones k dev fuel <> Trap.
Proof.
  intros Hall Hzero. unfold dmz_get_dev_zones.
  destruct (negb (calloc_ok k)); [discriminate|].
  destruct (negb (malloc_ok k)); [discriminate|].
  assert (Hall' : Forall (fun b => is_regular (btype b) = false) (bdev dev)).
  { eapply Forall_impl; [exact Hall|]. intros b Hb. cbv beta in Hb.
    destruct (btype b); [congruence|reflexivity..]. }
  assert (Hpos : 0 <= sector (initial dev)) by (simpl; lia).
  revert Hpos. generalize (initial dev).
  induction fuel as [|fuel IH]; intros st Hpos; simpl; [discriminate|].
  pose proof (loop_body_zoned_safe k dev st Hall' Hzero Hpos) as Hs.
  destruct (loop_body k dev st) as [st1|st1|r1 e1 st1|].
  - now apply IH.
  - unfold final_checks. destruct (negb _); [discriminate|].
    destruct (negb _); discriminate.
  - discriminate.
  - contradiction.
Qed.


(** *** One regular backend *)

Lemma regular_zones_sum zs c (i : nat) :
  0 < zs -> 0 <= c -> (Z.of_nat i - 1) * zs < c ->
  foldr Z.add 0 (map zlen (map (regular_zone zs c) (seq 0 i)))
  = Z.min (Z.of_nat i * zs) c.
Proof.
  intros Hzs Hc. induction i as [|i IH]; intros Hlt.
  - simpl. lia.
  - rewrite seq_S, !map_app, foldr_app. simpl.
    assert (Hsum : forall (l : list Z) a,
               foldr Z.add a l = foldr Z.add 0 l + a).
    { induction l as [|x l IHl]; intros a; simpl; [lia|]. rewrite IHl. lia. }
    rewrite Hsum, IH by nia. nia.
Qed.

Section OneRegular.
Variables (k : kernel) (dev : dmz_dev) (b : dmz_block_dev) (n : nat).
Let zs := zone_nr_sectors dev.
Let c := dev_capacity dev.
Hypothesis Hb : bdev dev = [b].
Hypothesis Hoff : block_offset b = 0.
Hypothesis Hreg : is_regular (btype b) = true.
Hypothesis Hcap : capacity b = dev_capacity dev.
Hypothesis Hzs : 0 < zs.
Hypothesis Hc : 0 <= c /\ c + zs <= 2 ^ 64.
Hypothesis Hn : nr_zones b = Z.of_nat n /\ Z.of_nat n < 2 ^ 32.

Lemma one_regular_initial : initial dev = regular_state zs c n 0.
Proof.
  unfold initial, regular_state.
  rewrite (single_backend_nr_zones dev b Hb) by lia.
  destruct Hn as [-> _]. rewrite Nat2Z.id, Nat.sub_0_r. reflexivity.
Qed.

Lemma one_regular_step (i : nat) :
  (i < n)%nat -> Z.of_nat i * zs < c ->
  loop_body k dev (regular_state zs c n i) = Next (regular_state zs c n (S i)).
Proof.
  intros Hi Hlt.
  rewrite (loop_body_regular_at_0 k dev b _ Hb Hoff Hreg)
    by (simpl; fold c zs; lia).
  unfold emulate_zone, regular_state. cbn [zones done_zones sector ret ioctls].
  rewrite Nat2Z.id, Hcap. fold c zs.
  assert (Hlk : (map (regular_zone zs c) (seq 0 i)
                 ++ replicate (n - i) zero_zone) !! i = Some zero_zone).
  { rewrite lookup_app_r by (rewrite length_map, length_seq; lia).
    rewrite length_map, length_seq, Nat.sub_diag.
    destruct (n - i)%nat eqn:Hd; [lia|reflexivity]. }
  rewrite Hlk.
  assert (Hlen : (if c <? u64 (Z.of_nat i * zs + zs)
                  then u64 (c - Z.of_nat i * zs) else zs)
                 = Z.min zs (c - Z.of_nat i * zs)).
  { unfold u64. rewrite (Z.mod_small (Z.of_nat i * zs + zs)) by lia.
    destruct (Z.ltb_spec c (Z.of_nat i * zs + zs)).
    - rewrite Z.mod_small by lia. lia.
    - lia. }
  rewrite Hlen. f_equal. f_equal.
  - rewrite insert_app_r_alt by (rewrite length_map, length_seq; lia).
    rewrite length_map, length_seq, Nat.sub_diag.
    replace (n - i)%nat with (S (n - S i)) by lia.
    rewrite seq_S, map_app, <- app_assoc. reflexivity.
  - unfold u32. rewrite Z.mod_small by lia. lia.
  - unfold u64. rewrite Z.mod_small by lia. lia.
Qed.

Lemma one_regular_after (i : nat) :
  (i <= n)%nat -> (Z.of_nat i - 1) * zs < c ->
  after k dev i (initial dev) = Some (regular_state zs c n i).
Proof.
  induction i as [|i IH]; intros Hi Hlt.
  - simpl. now rewrite one_regular_initial.
  - eapply after_S_last.
    + apply IH; [lia|nia].
    + apply one_regular_step; [lia|]. nia.
Qed.

End OneRegular.

(** X12. For a composite of one regular backend at offset 0, of [c]
    sectors and [n] zones with [n] the number of zones of [zs] sectors
    that cover [c], the builder fills the zone array with [n] emulated
    zones: zone [i] starts at [i * zs] and has [zs] sectors, cut down to
    what is left of the backend for the last one, so that the lengths add
    up to [c].  Both final checks pass, and the call still returns -1. *)
Theorem one_regular_backend_table k dev b (n : nat) fuel :
  calloc_ok k = true -> malloc_ok k = true ->
  bdev dev = [b] -> block_offset b = 0 -> btype b = DMZ_TYPE_REGULAR ->
  capacity b = dev_capacity dev ->
  0 < zone_nr_sectors dev ->
  0 <= dev_capacity dev -> dev_capacity dev + zone_nr_sectors dev <= 2 ^ 64 ->
  nr_zones b = Z.of_nat n -> Z.of_nat n < 2 ^ 32 ->
  (Z.of_nat n - 1) * zone_nr_sectors dev < dev_capacity dev
    <= Z.of_nat n * zone_nr_sectors dev ->
  (n < fuel)%nat ->
  exists st,
    dmz_get_dev_zones k dev fuel = Returned (-1) None st /\
    zones st = map (regular_zone (zone_nr_sectors dev) (dev_capacity dev))
                 (seq 0 n) /\
    done_zones st = Z.of_nat n /\
    foldr Z.add 0 (map zlen (zones st)) = dev_capacity dev.
Proof.
  intros Hc Hm Hb Hoff Hty Hcap Hzs Hc0 Hc64 Hn Hn32 Hcover Hfuel.
  assert (Hreg : is_regular (btype b) = true) by now rewrite Hty.
  pose proof (one_regular_after k dev b n Hb Hoff Hreg Hcap Hzs
                (conj Hc0 Hc64) (conj Hn Hn32) n (le_n n) (proj1 Hcover))
    as Hafter.
  exists (regular_state (zone_nr_sectors dev) (dev_capacity dev) n n).
  split; [|split; [|split]].
  - rewrite (run_from_after _ _ _ _ _ Hc Hm Hafter Hfuel).
    unfold loop_body. cbn [sector regular_state].
    destruct (Z.ltb_spec (Z.of_nat n * zone_nr_sectors dev) (dev_capacity dev));
      [lia|].
    unfold final_checks. cbn [done_zones sector ret regular_state].
    rewrite (single_backend_nr_zones dev b Hb) by lia.
    rewrite Hn, Z.eqb_refl. simpl negb. cbv iota.
    unfold u64. rewrite Z.mod_small by lia. rewrite Z.eqb_refl. reflexivity.
  - unfold regular_state. cbn [zones]. rewrite Nat.sub_diag. simpl.
    now rewrite app_nil_r.
  - reflexivity.
  - unfold regular_state. cbn [zones]. rewrite Nat.sub_diag. simpl replicate.
    rewrite app_nil_r.
    rewrite regular_zones_sum by lia. lia.
Qed.

(** X13. The regular branch stores a zone without comparing the zone count
    with the length of the array.  For a composite of one regular backend
    at offset 0 whose zone count [n] is too small, [n] zones of [zs]
    sectors ending below the capacity, the pass that follows the [n]-th
    zone writes past the end of the zone array. *)
Theorem one_regular_backend_overrun k dev b (n : nat) fuel :
  calloc_ok k = true -> malloc_ok k = true ->
  bdev dev = [b] -> block_offset b = 0 -> btype b = DMZ_TYPE_REGULAR ->
  capacity b = dev_capacity dev ->
  0 < zone_nr_sectors dev ->
  dev_capacity dev + zone_nr_sectors dev <= 2 ^ 64 ->
  nr_zones b = Z.of_nat n -> Z.of_nat n < 2 ^ 32 ->
  Z.of_nat n * zone_nr_sectors dev < dev_capacity dev ->
  (n < fuel)%nat ->
  dmz_get_dev_zones k dev fuel = Trap.
Proof.
  intros Hc Hm Hb Hoff Hty Hcap Hzs Hc64 Hn Hn32 Hshort Hfuel.
  assert (Hreg : is_regular (btype b) = true) by now rewrite Hty.
  assert (Hc0 : 0 <= dev_capacity dev) by nia.
  pose proof (one_regular_after k dev b n Hb Hoff Hreg Hcap Hzs
                (conj Hc0 Hc64) (conj Hn Hn32) n (le_n n) ltac:(nia))
    as Hafter.
  rewrite (run_from_after _ _ _ _ _ Hc Hm Hafter Hfuel).
  rewrite (loop_body_regular_at_0 k dev b _ Hb Hoff Hreg)
    by (simpl; lia).
  unfold emulate_zone, regular_state. cbn [zones done_zones].
  rewrite Nat2Z.id, Nat.sub_diag. simpl replicate. rewrite app_nil_r.
  rewrite (proj2 (lookup_ge_None _ _)); [reflexivity|].
  rewrite length_map, length_seq. lia.
Qed.

End BuilderMoreFacts.

(** ** Metadata blocks *)

Lemma read_bytes_length D f off n : length (read_bytes D f off n) = n.
Proof. unfold read_bytes. now rewrite length_map, length_seq. Qed.

(** What was written is what is read back from the same place. *)
Lemma read_bytes_written D f off data :
  read_bytes (write_bytes D f off data) f off (length data) = data.
Proof.
  apply list_eq. intros i. unfold read_bytes. rewrite list_lookup_fmap.
  destruct (le_lt_dec (length data) i) as [Hge|Hlt].
  - rewrite (proj2 (lookup_ge_None (seq 0 (length data)) i))
      by (rewrite length_seq; lia).
    symmetry. now apply lookup_ge_None.
  - rewrite lookup_seq_lt by lia. simpl. unfold write_bytes.
    rewrite Z.eqb_refl.
    destruct (Z.leb_spec off (off + Z.of_nat i)); [|lia].
    destruct (Z.ltb_spec (off + Z.of_nat i) (off + Z.of_nat (length data)));
      [|lia].
    simpl. replace (Z.to_nat (off + Z.of_nat i - off)) with i by lia.
    rewrite nth_lookup.
    destruct (data !! i) eqn:Hd; [reflexivity|].
    apply lookup_ge_None in Hd. lia.
Qed.

(** Fewer bytes read from the same place are the first bytes written. *)
Lemma read_bytes_written_prefix D f off data n :
  (n <= length data)%nat ->
  read_bytes (write_bytes D f off data) f off n = take n data.
Proof.
  intros Hn. apply list_eq. intros i. unfold read_bytes.
  rewrite list_lookup_fmap.
  destruct (le_lt_dec n i) as [Hge|Hlt].
  - rewrite (proj2 (lookup_ge_None (seq 0 n) i)) by (rewrite length_seq; lia).
    symmetry. apply lookup_ge_None. rewrite length_take. lia.
  - rewrite lookup_seq_lt by lia. simpl. unfold write_bytes.
    rewrite Z.eqb_refl.
    destruct (Z.leb_spec off (off + Z.of_nat i)); [|lia].
    destruct (Z.ltb_spec (off + Z.of_nat i) (off + Z.of_nat (length data)));
      [|lia].
    simpl. replace (Z.to_nat (off + Z.of_nat i - off)) with i by lia.
    rewrite nth_lookup, lookup_take_lt by lia.
    destruct (data !! i) eqn:Hd; [reflexivity|].
    apply lookup_ge_None in Hd. lia.
Qed.

(** A write leaves the bytes of another descriptor, and the bytes outside
    the range written, as they were. *)
Lemma read_bytes_elsewhere D f off data f' off' n :
  f' <> f \/ off' + Z.of_nat n <= off \/ off + Z.of_nat (length data) <= off' ->
  read_bytes (write_bytes D f off data) f' off' n = read_bytes D f' off' n.
Proof.
  intros Hd. unfold read_bytes. apply map_ext_in. intros i Hi.
  apply in_seq in Hi. unfold write_bytes.
  destruct (Z.eqb_spec f' f); simpl; [|reflexivity].
  destruct (Z.leb_spec off (off' + Z.of_nat i)); simpl; [|reflexivity].
  destruct (Z.ltb_spec (off' + Z.of_nat i) (off + Z.of_nat (length data)));
    [|reflexivity].
  lia.
Qed.

Section BlockIOFacts.
Context {h : dmz_h}.
Variables (DMZ_BLOCK_SHIFT DMZ_BLOCK_SIZE : Z).

Lemma moved_full : 0 <= DMZ_BLOCK_SIZE ->
  moved DMZ_BLOCK_SIZE DMZ_BLOCK_SIZE = Z.to_nat DMZ_BLOCK_SIZE.
Proof. intros Hs. unfold moved. now rewrite Z.min_id. Qed.

Lemma moved_le c : 0 <= DMZ_BLOCK_SIZE ->
  Z.of_nat (moved DMZ_BLOCK_SIZE c) <= DMZ_BLOCK_SIZE.
Proof. intros Hs. unfold moved. lia. Qed.

(** X14. A block written is the block read back.  When [dmz_write_block]
    returns 0 for a buffer of [DMZ_BLOCK_SIZE] bytes, the block number is
    resolved to a backend and a local block, and the bytes stand at the
    byte position of that block on the descriptor of that backend.  A
    later [dmz_read_block] of the same block number calls [pread] on the
    same descriptor and position; it returns 0 exactly when [pread]
    delivers [DMZ_BLOCK_SIZE] bytes, and then the buffer holds the bytes
    written, whatever it held before.  A shorter read returns -1 with the
    bytes written at the head of the buffer, as far as [pread] went. *)
Theorem block_written_is_read_back io io' D D' dev block data buf m :
  0 <= DMZ_BLOCK_SIZE ->
  Z.of_nat (length data) = DMZ_BLOCK_SIZE ->
  length buf = length data ->
  dmz_write_block DMZ_BLOCK_SHIFT DMZ_BLOCK_SIZE io D dev block data
    = Some (0, D', m) ->
  exists i b local_block,
    dmz_block_to_bdev dev block = (Some (i, b), local_block) /\
    D' = write_bytes D (fd b)
           (block_position DMZ_BLOCK_SHIFT local_block) data /\
    let c := pread_count io' (fd b)
               (block_position DMZ_BLOCK_SHIFT local_block) in
    (c = DMZ_BLOCK_SIZE ->
       dmz_read_block DMZ_BLOCK_SHIFT DMZ_BLOCK_SIZE io' D' dev block buf
       = Some (0, data, [])) /\
    (c <> DMZ_BLOCK_SIZE ->
       dmz_read_block DMZ_BLOCK_SHIFT DMZ_BLOCK_SIZE io' D' dev block buf
       = Some (-1,
               take (moved DMZ_BLOCK_SIZE c) data
                 ++ drop (moved DMZ_BLOCK_SIZE c) buf,
               [M_READ_BLOCK_FAILED])).
Proof.
  intros Hsize Hlen Hbuf. unfold dmz_write_block, dmz_read_block.
  destruct (dmz_block_to_bdev dev block) as [[[i b]|] lb]; [|discriminate].
  destruct (Z.eqb_spec (pwrite_count io (fd b)
              (block_position DMZ_BLOCK_SHIFT lb)) DMZ_BLOCK_SIZE)
    as [Hw|Hw]; simpl; [|discriminate].
  intros [= <- _]. rewrite Hw, moved_full by assumption.
  replace (Z.to_nat DMZ_BLOCK_SIZE) with (length data) by lia.
  rewrite firstn_all.
  exists i, b, lb. split; [reflexivity|]. split; [reflexivity|].
  split.
  - intros Hr. rewrite Hr, Z.eqb_refl. simpl negb. cbv iota.
    rewrite moved_full by assumption.
    replace (Z.to_nat DMZ_BLOCK_SIZE) with (length data) by lia.
    rewrite read_bytes_written, drop_ge by lia. now rewrite app_nil_r.
  - intros Hr.
    destruct (Z.eqb_spec (pread_count io' (fd b)
                (block_position DMZ_BLOCK_SHIFT lb)) DMZ_BLOCK_SIZE)
      as [|_]; [contradiction|].
    simpl negb. cbv iota.
    rewrite read_bytes_written_prefix; [reflexivity|].
    pose proof (moved_le (pread_count io' (fd b)
                  (block_position DMZ_BLOCK_SHIFT lb)) Hsize). lia.
Qed.

(** The position of a block that fits the signed 64-bit offset. *)
Lemma block_position_small lb :
  0 <= DMZ_BLOCK_SHIFT -> 0 <= lb -> lb * 2 ^ DMZ_BLOCK_SHIFT < 2 ^ 63 ->
  block_position DMZ_BLOCK_SHIFT lb = lb * 2 ^ DMZ_BLOCK_SHIFT.
Proof.
  intros Hs Hl Hfit. unfold block_position, s64, u64.
  rewrite Z.shiftl_mul_pow2 by assumption.
  assert (0 <= lb * 2 ^ DMZ_BLOCK_SHIFT) by (apply Z.mul_nonneg_nonneg; lia).
  rewrite Z.mod_small by lia.
  destruct (Z.ltb_spec (lb * 2 ^ DMZ_BLOCK_SHIFT) (2 ^ 63)); [reflexivity|lia].
Qed.

Lemma distinct_descriptors (l : list dmz_block_dev) i i' b b' :
  NoDup (map fd l) -> l !! i = Some b -> l !! i' = Some b' ->
  i <> i' -> fd b <> fd b'.
Proof.
  intros Hnd Hi Hi' Hne Heq. apply Hne.
  eapply (NoDup_lookup (map fd l)); [exact Hnd| |].
  - change (map fd l) with (fd <$> l). rewrite list_lookup_fmap, Hi. reflexivity.
  - change (map fd l) with (fd <$> l). rewrite list_lookup_fmap, Hi'. simpl.
    now rewrite Heq.
Qed.

(** X15. Writing a block leaves every other block as it was.  With blocks
    of [2 ^ DMZ_BLOCK_SHIFT] bytes, backends on distinct descriptors and
    block numbers whose byte positions fit the file offset, what
    [dmz_read_block] delivers for a block is the same before and after a
    [dmz_write_block] of a different block number, whether the write
    succeeded or was cut short. *)
Theorem write_leaves_other_blocks io io' D D' dev a a' data buf r m :
  0 <= DMZ_BLOCK_SHIFT -> DMZ_BLOCK_SIZE = 2 ^ DMZ_BLOCK_SHIFT ->
  NoDup (map fd (bdev dev)) ->
  Forall (fun b => 0 <= block_offset b) (bdev dev) ->
  0 <= a -> a * 2 ^ DMZ_BLOCK_SHIFT < 2 ^ 63 ->
  0 <= a' -> a' * 2 ^ DMZ_BLOCK_SHIFT < 2 ^ 63 ->
  a <> a' ->
  dmz_write_block DMZ_BLOCK_SHIFT DMZ_BLOCK_SIZE io D dev a data
    = Some (r, D', m) ->
  dmz_read_block DMZ_BLOCK_SHIFT DMZ_BLOCK_SIZE io' D' dev a' buf
  = dmz_read_block DMZ_BLOCK_SHIFT DMZ_BLOCK_SIZE io' D dev a' buf.
Proof.
  intros Hshift Hsize Hnd Hoff Ha Hafit Ha' Hafit' Hne.
  assert (Hp : 0 < 2 ^ DMZ_BLOCK_SHIFT) by (apply Z.pow_pos_nonneg; lia).
  assert (H64 : forall x, 0 <= x -> x * 2 ^ DMZ_BLOCK_SHIFT < 2 ^ 63 ->
                          x < 2 ^ 64) by (intros; nia).
  unfold dmz_write_block, dmz_read_block.
  destruct (dmz_block_to_bdev dev a) as [[[i b]|] lb] eqn:Hta; [|discriminate].
  destruct (dmz_block_to_bdev dev a') as [[[i' b']|] lb'] eqn:Hta';
    [|reflexivity].
  set (pos := block_position DMZ_BLOCK_SHIFT lb).
  set (pos' := block_position DMZ_BLOCK_SHIFT lb').
  set (c := pwrite_count io (fd b) pos).
  set (c' := pread_count io' (fd b') pos').
  intros Hw.
  assert (HD : D' = write_bytes D (fd b) pos
                      (take (moved DMZ_BLOCK_SIZE c) data)).
  { destruct (negb (c =? DMZ_BLOCK_SIZE)); now injection Hw as _ <- _. }
  assert (Hsame : read_bytes D' (fd b') pos' (moved DMZ_BLOCK_SIZE c')
                  = read_bytes D (fd b') pos' (moved DMZ_BLOCK_SIZE c')).
  { rewrite HD. apply read_bytes_elsewhere.
    pose proof Hta as Hta1. pose proof Hta' as Hta1'.
    unfold dmz_block_to_bdev in Hta1, Hta1'.
    apply scan_blocks_lookup in Hta1 as (Hl & Hle & Hlb & _).
    apply scan_blocks_lookup in Hta1' as (Hl' & Hle' & Hlb' & _).
    rewrite Forall_forall in Hoff.
    assert (Hob : 0 <= block_offset b)
      by (apply Hoff; eapply list_elem_of_lookup_2; eauto).
    assert (Hob' : 0 <= block_offset b')
      by (apply Hoff; eapply list_elem_of_lookup_2; eauto).
    unfold u64 in Hlb, Hlb'.
    rewrite Z.mod_small in Hlb by (specialize (H64 a Ha Hafit); lia).
    rewrite Z.mod_small in Hlb' by (specialize (H64 a' Ha' Hafit'); lia).
    destruct (Nat.eq_dec i i') as [Hi|Hi].
    - right. subst i'. assert (b' = b) by congruence. subst b'.
      assert (Hlne : lb <> lb') by lia.
      unfold pos, pos'.
      rewrite !block_position_small by (try assumption; nia).
      pose proof (moved_le c' ltac:(lia)) as Hm'.
      pose proof (moved_le c ltac:(lia)) as Hm.
      rewrite length_take.
      destruct (Z.lt_ge_cases lb lb'); [right|left]; nia.
    - left. intros Heq.
      apply (distinct_descriptors (bdev dev) i i' b b' Hnd Hl Hl' Hi).
      now symmetry. }
  now rewrite Hsame.
Qed.

(** The loop of [dmz_sync_dev]: either every [fsync] succeeds and all the
    backends were flushed in order, or the first [fsync] that fails is the
    last one called. *)
Lemma sync_from_result io (i0 : nat) l :
  (fst (sync_from io i0 l) = 0 /\
   snd (sync_from io i0 l) = map fd l /\
   forall (j : nat) b, l !! j = Some b ->
     0 <= fsync_result io (i0 + j) (fd b)) \/
  (fst (sync_from io i0 l) = -1 /\
   exists (j : nat) b,
     l !! j = Some b /\ fsync_result io (i0 + j) (fd b) < 0 /\
     (forall (j' : nat) b', (j' < j)%nat -> l !! j' = Some b' ->
        0 <= fsync_result io (i0 + j') (fd b')) /\
     snd (sync_from io i0 l) = map fd (take (S j) l)).
Proof.
  revert i0. induction l as [|b l IH]; intros i0; simpl.
  - left. repeat split. intros j b Hj. discriminate.
  - destruct (Z.ltb_spec (fsync_result io i0 (fd b)) 0) as [Hf|Hf]; simpl.
    + right. split; [reflexivity|]. exists 0%nat, b.
      rewrite Nat.add_0_r. repeat split; auto.
      intros j' b' Hj'. lia.
    + specialize (IH (S i0)).
      destruct (sync_from io (S i0) l) as [r called]. simpl in IH.
      destruct IH as [(Hr & Hc & Hall)|(Hr & j & bj & Hj & Hfail & Hbefore & Hc)].
      * left. simpl. repeat split; [exact Hr|now rewrite Hc|].
        intros [|j] b' Hj.
        -- injection Hj as <-. now rewrite Nat.add_0_r.
        -- replace (i0 + S j)%nat with (S i0 + j)%nat by lia. now apply Hall.
      * right. simpl. split; [exact Hr|]. exists (S j), bj.
        replace (i0 + S j)%nat with (S i0 + j)%nat by lia.
        repeat split; auto.
        -- intros [|j'] b' Hlt Hj'.
           ++ injection Hj' as <-. now rewrite Nat.add_0_r.
           ++ replace (i0 + S j')%nat with (S i0 + j')%nat by lia.
              apply Hbefore; [lia|exact Hj'].
        -- now rewrite Hc.
Qed.

(** X16. [dmz_sync_dev] flushes the backends in ascending order and stops
    at the first failure.  It returns 0 exactly when the [fsync] of every
    backend succeeds, all of them having been called; otherwise it returns
    -1, the failing [fsync] is the last one called, and the backends after
    it are not flushed. *)
Theorem sync_stops_at_first_failure io dev :
  (fst (dmz_sync_dev io dev) = 0 <->
     forall (j : nat) b, bdev dev !! j = Some b ->
       0 <= fsync_result io j (fd b)) /\
  (fst (dmz_sync_dev io dev) = 0 ->
     snd (dmz_sync_dev io dev) = map fd (bdev dev)) /\
  (fst (dmz_sync_dev io dev) <> 0 ->
     fst (dmz_sync_dev io dev) = -1 /\
     exists (j : nat) b,
       bdev dev !! j = Some b /\ fsync_result io j (fd b) < 0 /\
       (forall (j' : nat) b', (j' < j)%nat -> bdev dev !! j' = Some b' ->
          0 <= fsync_result io j' (fd b')) /\
       snd (dmz_sync_dev io dev) = map fd (take (S j) (bdev dev))).
Proof.
  unfold dmz_sync_dev.
  destruct (sync_from_result io 0 (bdev dev))
    as [(Hr & Hc & Hall)|(Hr & j & b & Hj & Hfail & Hbefore & Hc)].
  - split; [|split].
    + split; [intros _; exact Hall|intros _; exact Hr].
    + intros _. exact Hc.
    + intros Hne. contradiction.
  - split; [|split].
    + split; [intros H0; rewrite Hr in H0; discriminate|].
      intros Hall. specialize (Hall j b Hj). simpl in Hfail. lia.
    + intros H0. rewrite Hr in H0. discriminate.
    + intros _. split; [exact Hr|]. exists j, b. auto.
Qed.

End BlockIOFacts.

(** ** Probing and opening a backend *)

(** The string after the last slash is empty only when the string ends in
    a slash. *)
Lemma after_last_slash_empty s :
  after_last_slash s = Some "" -> exists t, s = t +:+ "/".
Proof.
  induction s as [|c rest IH]; simpl; [discriminate|].
  destruct (after_last_slash rest) as [t'|].
  - intros [= ->]. destruct (IH eq_refl) as [t ->]. now exists (String c t).
  - destruct (Ascii.eqb_spec c "/"%char) as [->|]; [|discriminate].
    intros [= ->]. now exists "".
Qed.

(** [basename] leaves a path that does not end in a slash as it is. *)
Lemma basename_keeps_path p :
  (forall t, p <> t +:+ "/") -> fst (basename p) = p.
Proof.
  intros Hend. unfold basename.
  destruct (String.eqb p ""); [reflexivity|].
  destruct (after_last_slash p) as [[|c t]|] eqn:Ha; try reflexivity.
  apply after_last_slash_empty in Ha as [t ->]. now destruct (Hend t).
Qed.

Section ProbeFacts.
Context {h : dmz_h}.
Variable sys : host.

Lemma dmz_bdev_is_partition_values b :
  (fst (dmz_bdev_is_partition sys b) = 1 /\
   fopen_partition sys (partition_attribute b) = FOPEN_OK /\
   snd (dmz_bdev_is_partition sys b) = []) \/
  (fst (dmz_bdev_is_partition sys b) = 0 /\
   fopen_partition sys (partition_attribute b) = FOPEN_ENOENT /\
   snd (dmz_bdev_is_partition sys b) = []) \/
  fst (dmz_bdev_is_partition sys b) = -1.
Proof.
  unfold dmz_bdev_is_partition. fold (partition_attribute b).
  destruct (PATH_MAX <=? _); [now right; right|].
  destruct (fopen_partition sys (partition_attribute b)); auto.
Qed.

(** X17. The zoned model of a backend.  [dmz_get_bdev_model] changes
    nothing of the descriptor but its type and returns 0 or -1.  A backend
    is given a zoned type only when it is no partition and the kernel
    attribute reads host-aware or host-managed, word for word; a partition
    is regular whatever that attribute says. *)
Theorem zoned_type_only_for_zoned_disks b r b' m :
  dmz_get_bdev_model sys b = (r, b', m) ->
  (r = 0 \/ r = -1) /\
  b' = with_type b (btype b') /\
  (r = 0 -> btype b' = DMZ_TYPE_ZONED_HA ->
     fopen_partition sys (partition_attribute b) = FOPEN_ENOENT /\
     read_zoned sys (zoned_attribute b) = Some (Some "host-aware")) /\
  (r = 0 -> btype b' = DMZ_TYPE_ZONED_HM ->
     fopen_partition sys (partition_attribute b) = FOPEN_ENOENT /\
     read_zoned sys (zoned_attribute b) = Some (Some "host-managed")) /\
  (r = 0 -> fopen_partition sys (partition_attribute b) = FOPEN_OK ->
     btype b' = DMZ_TYPE_REGULAR).
Proof.
  unfold dmz_get_bdev_model.
  assert (Hself : b = with_type b (btype b)) by (now destruct b).
  destruct (dmz_bdev_is_partition_values b)
    as [(Hr & Hf & Hm)|[(Hr & Hf & Hm)|Hr]];
  destruct (dmz_bdev_is_partition sys b) as [res mp]; simpl in *; subst.
  - intros [= <- <- <-]. simpl. repeat split; auto; discriminate.
  - fold (zoned_attribute b).
    destruct (PATH_MAX <=? _).
    { intros [= <- <- <-]. repeat split; auto; discriminate. }
    destruct (read_zoned sys (zoned_attribute b)) as [[model|]|].
    + destruct (String.eqb_spec model "host-aware") as [->|Hha].
      { intros [= <- <- <-]. simpl. repeat split; auto; try discriminate.
        rewrite Hf. discriminate. }
      destruct (String.eqb_spec model "host-managed") as [->|Hhm].
      { intros [= <- <- <-]. simpl. repeat split; auto; try discriminate.
        rewrite Hf. discriminate. }
      intros [= <- <- <-]. simpl. repeat split; auto; discriminate.
    + intros [= <- <- <-]. repeat split; auto; discriminate.
    + intros [= <- <- <-]. repeat split; auto; discriminate.
  - intros [= <- <- <-]. repeat split; auto; discriminate.
Qed.


(** X18. The geometry of a backend after [dmz_get_bdev_capacity] has
    returned 0.  The capacity is the byte size of the device in 512-byte
    sectors.  For a regular backend nothing else is set.  For a zoned
    backend the zone size is not 0 and has none of the bits of
    [DMZ_BLOCK_SECTORS_MASK]; the zone count is not 0; and, when the count
    fits 32 bits, the zones cover the capacity with the last zone begun
    inside it. *)
Theorem probed_geometry b b' m :
  dmz_get_bdev_capacity sys b = (0, b', m) ->
  m = [] /\
  path b' = path b /\ name b' = name b /\ btype b' = btype b /\
  block_offset b' = block_offset b /\ fd b' = fd b /\
  (exists bytes, blkgetsize64 sys (fd b) = Some bytes /\
                 capacity b' = Z.shiftr (u64 bytes) 9) /\
  (btype b = DMZ_TYPE_REGULAR ->
     nr_zones b' = nr_zones b /\
     bdev_zone_nr_sectors b' = bdev_zone_nr_sectors b) /\
  (btype b <> DMZ_TYPE_REGULAR ->
     0 < bdev_zone_nr_sectors b' < 2 ^ 64 /\
     Z.land (bdev_zone_nr_sectors b') DMZ_BLOCK_SECTORS_MASK = 0 /\
     0 < nr_zones b' < 2 ^ 32 /\
     (capacity b' / bdev_zone_nr_sectors b' < 2 ^ 32 - 1 ->
        (nr_zones b' - 1) * bdev_zone_nr_sectors b' < capacity b'
          <= nr_zones b' * bdev_zone_nr_sectors b')).
Proof.
  unfold dmz_get_bdev_capacity.
  destruct (blkgetsize64 sys (fd b)) as [bytes|]; [|discriminate].
  assert (Hcap : 0 <= Z.shiftr (u64 bytes) 9).
  { apply Z.shiftr_nonneg. unfold u64. apply Z.mod_pos_bound. lia. }
  assert (Hzoned : btype b <> DMZ_TYPE_REGULAR ->
            is_regular (btype b) = false)
    by (destruct (btype b); [congruence|reflexivity..]).
  destruct (is_regular (btype b)) eqn:Hreg.
  { intros [= <- <-]. simpl.
    split; [reflexivity|]. do 5 (split; [reflexivity|]).
    split; [eauto|]. split; [intros _; split; reflexivity|].
    intros Hty. specialize (Hzoned Hty). discriminate. }
  assert (Hty : btype b <> DMZ_TYPE_REGULAR)
    by (intros Heq; rewrite Heq in Hreg; discriminate).
  destruct (read_chunk_sectors sys _) as [[chunk|]|]; try discriminate.
  set (zs := u64 chunk). set (cap := Z.shiftr (u64 bytes) 9) in *.
  assert (Hzs : 0 <= zs < 2 ^ 64)
    by (unfold zs, u64; apply Z.mod_pos_bound; lia).
  destruct (Z.eqb_spec zs 0) as [|Hz]; simpl; try discriminate.
  destruct (Z.eqb_spec (Z.land zs DMZ_BLOCK_SECTORS_MASK) 0) as [Hmask|];
    simpl; try discriminate.
  set (n := if negb (cap mod zs =? 0) then u32 (u32 (cap / zs) + 1)
            else u32 (cap / zs)).
  destruct (Z.eqb_spec n 0) as [|Hn]; try discriminate.
  intros [= <- <-]. simpl.
  assert (Hn32 : 0 <= n < 2 ^ 32)
    by (unfold n; destruct (negb _); apply u32_range).
  split; [reflexivity|]. do 5 (split; [reflexivity|]).
  split; [eauto|]. split; [intros Heq; contradiction|].
  intros _. split; [lia|]. split; [exact Hmask|]. split; [lia|].
  intros Hfit.
  assert (Hdiv : 0 <= cap / zs) by (apply Z.div_pos; lia).
  pose proof (Z.div_mod cap zs ltac:(lia)) as Hdm.
  pose proof (Z.mod_pos_bound cap zs ltac:(lia)) as Hmod.
  unfold n, u32. rewrite (Z.mod_small (cap / zs)) by lia.
  destruct (Z.eqb_spec (cap mod zs) 0) as [Hr|Hr]; simpl.
  - nia.
  - rewrite (Z.mod_small (cap / zs + 1)) by lia. nia.
Qed.


(** *** What probing keeps of a descriptor *)

Lemma bdev_model_frame b r b' m :
  dmz_get_bdev_model sys b = (r, b', m) ->
  path b' = path b /\ name b' = name b /\ fd b' = fd b /\
  (r = 0 \/ r = -1) /\ (r = 0 -> m = []).
Proof.
  unfold dmz_get_bdev_model.
  destruct (dmz_bdev_is_partition_values b)
    as [(Hr & Hf & Hm)|[(Hr & Hf & Hm)|Hr]];
  destruct (dmz_bdev_is_partition sys b) as [res mp]; simpl in *; subst.
  - intros [= <- <- <-]. simpl. repeat split; auto.
  - destruct (PATH_MAX <=? _).
    { intros [= <- <- <-]. repeat split; auto. discriminate. }
    destruct (read_zoned sys _) as [[model|]|].
    + destruct (String.eqb model "host-aware");
        [intros [= <- <- <-]; simpl; repeat split; auto|].
      destruct (String.eqb model "host-managed");
        intros [= <- <- <-]; simpl; repeat split; auto.
    + intros [= <- <- <-]. repeat split; auto. discriminate.
    + intros [= <- <- <-]. repeat split; auto. discriminate.
  - intros [= <- <- <-]. repeat split; auto. discriminate.
Qed.

Lemma bdev_capacity_frame b r b' m :
  dmz_get_bdev_capacity sys b = (r, b', m) ->
  path b' = path b /\ name b' = name b /\ fd b' = fd b /\
  (r = 0 \/ r = -1) /\ (r = 0 -> m = []).
Proof.
  unfold dmz_get_bdev_capacity.
  destruct (blkgetsize64 sys (fd b));
    [|intros [= <- <- <-]; repeat split; auto; discriminate].
  destruct (is_regular (btype b));
    [intros [= <- <- <-]; simpl; repeat split; auto|].
  destruct (read_chunk_sectors sys _) as [[chunk|]|];
    try (intros [= <- <- <-]; simpl; repeat split; auto; discriminate).
  destruct (_ || _);
    [intros [= <- <- <-]; simpl; repeat split; auto; discriminate|].
  destruct (_ =? 0);
    intros [= <- <- <-]; simpl; repeat split; auto; discriminate.
Qed.

Lemma bdev_info_frame b r b' m :
  dmz_get_bdev_info sys b = (r, b', m) ->
  path b' = path b /\ name b' = name b /\ fd b' = fd b /\
  (r = 0 \/ r = -1) /\ (r = 0 -> m = []).
Proof.
  unfold dmz_get_bdev_info.
  destruct (dmz_get_bdev_model sys b) as [[r1 b1] m1] eqn:H1.
  apply bdev_model_frame in H1 as (Hp1 & Hn1 & Hf1 & Hr1 & Hm1).
  destruct (Z.ltb_spec r1 0).
  { intros [= <- <- <-]. repeat split; auto. discriminate. }
  destruct (dmz_get_bdev_capacity sys b1) as [[r2 b2] m2] eqn:H2.
  apply bdev_capacity_frame in H2 as (Hp2 & Hn2 & Hf2 & Hr2 & Hm2).
  destruct (Z.ltb_spec r2 0); intros [= <- <- <-];
    (repeat split; [congruence..|auto|]); try discriminate.
  intros _. rewrite Hm1, Hm2 by lia. reflexivity.
Qed.

Lemma scan_holders_null names :
  scan_holders (reverse names) None 0 =
  (match first_holder names with Some _ => 1 | None => 0 end, None).
Proof.
  induction names as [|n names IH]; [reflexivity|].
  rewrite reverse_cons, scan_holders_app, IH. simpl.
  destruct (negb (String.eqb n "..") && negb (String.eqb n "."));
    now destruct (first_holder names).
Qed.

(** The checks of [dmz_open_bdev] before the device is opened, in the
    order of the code: the step that refuses the device, if any. *)
Lemma open_bdev_steps b op flags :
  dmz_open_bdev sys b op flags =
  match stat_is_blk sys (path (named b)) with
  | None => (-1, named b, [M_STAT_FAILED])
  | Some false => (-1, named b, [M_NOT_BLOCK_DEVICE])
  | Some true =>
      let '(r, m) :=
        if (op =? DMZ_OP_FORMAT) && (Z.land flags DMZ_OVERWRITE =? 0)
        then dmz_check_overwrite sys (named b) else (1, []) in
      if r <=? 0 then (-1, named b, m)
      else if negb (dmz_bdev_mounted sys (named b) =? 0)
      then (-1, named b, m ++ [M_MOUNTED])
      else
        let '(busy, _, m') := dmz_bdev_busy sys (named b) None in
        if negb (busy =? 0) then (-1, named b, m ++ m' ++ [M_IN_USE])
        else if open_rdwr sys (path (named b)) <? 0
        then (-1, opened sys b, m ++ [M_OPEN_FAILED])
        else
          let '(ri, b', mi) := dmz_get_bdev_info sys (opened sys b) in
          if ri <? 0 then (-1, dmz_close_bdev b', m ++ mi)
          else (0, b', m ++ mi)
  end.
Proof. reflexivity. Qed.

Lemma check_overwrite_clean b :
  0 < fst (dmz_check_overwrite sys b) ->
  dmz_check_overwrite sys b = (1, []) /\
  new_probe (blkid_of sys (path b)) = true /\
  0 <= enable_superblocks (blkid_of sys (path b)) /\
  0 <= enable_partitions (blkid_of sys (path b)) /\
  do_fullprobe (blkid_of sys (path b)) = 1.
Proof.
  unfold dmz_check_overwrite.
  destruct (new_probe (blkid_of sys (path b))); simpl; [|lia].
  destruct (Z.ltb_spec (enable_superblocks (blkid_of sys (path b))) 0) as [H1|H1].
  { destruct (_ =? 0); simpl; [lia|].
    destruct (Z.ltb_spec (enable_superblocks (blkid_of sys (path b))) 0);
      simpl; lia. }
  destruct (Z.ltb_spec (enable_partitions (blkid_of sys (path b))) 0) as [H2|H2].
  { destruct (_ =? 0); simpl; [lia|].
    destruct (Z.ltb_spec (enable_partitions (blkid_of sys (path b))) 0);
      simpl; lia. }
  destruct (Z.ltb_spec (do_fullprobe (blkid_of sys (path b))) 0) as [H3|H3];
    simpl.
  { destruct (_ =? 0); simpl; [lia|].
    destruct (Z.ltb_spec (do_fullprobe (blkid_of sys (path b))) 0);
      simpl; lia. }
  destruct (Z.eqb_spec (do_fullprobe (blkid_of sys (path b))) 1) as [H4|H4].
  - rewrite H4. simpl. intros _. repeat split; auto.
  - destruct (_ =? 0); [simpl; lia|]. destruct (_ =? 0); simpl; lia.
Qed.


(** X19. What [dmz_open_bdev] leaves behind.  It returns 0 or -1.  The
    path and the name are what [basename] leaves: the path without the
    slashes at its end (so a path that does not end in a slash is kept)
    and its last component.  On 0 nothing was printed, the descriptor is
    the one [open] returned for that path, the device under that path is a
    block device that the mount table does not list, and the descriptor
    record is the one [dmz_get_bdev_info] filled in.  On -1 no file
    descriptor stays open: the field is as it was on entry, or negative. *)
Theorem open_bdev_outcome b op flags r b' m :
  dmz_open_bdev sys b op flags = (r, b', m) ->
  (r = 0 \/ r = -1) /\
  path b' = fst (basename (path b)) /\ name b' = snd (basename (path b)) /\
  ((forall t, path b <> t +:+ "/") -> path b' = path b) /\
  (r = 0 ->
     m = [] /\ fd b' = open_rdwr sys (path b') /\ 0 <= fd b' /\
     stat_is_blk sys (path b') = Some true /\
     ~ listed_in_mounts sys b' /\
     dmz_get_bdev_info sys (opened sys b) = (0, b', [])) /\
  (r = -1 -> fd b' = fd b \/ fd b' < 0).
Proof.
  intros Hopen.
  assert (Hmain :
    (r = 0 \/ r = -1) /\
    path b' = path (named b) /\ name b' = name (named b) /\
    (r = 0 ->
       m = [] /\ fd b' = open_rdwr sys (path (named b)) /\ 0 <= fd b' /\
       stat_is_blk sys (path (named b)) = Some true /\
       dmz_bdev_mounted sys (named b) = 0 /\
       dmz_get_bdev_info sys (opened sys b) = (0, b', [])) /\
    (r = -1 -> fd b' = fd b \/ fd b' < 0)).
  { revert Hopen. rewrite open_bdev_steps.
    destruct (stat_is_blk sys (path (named b))) as [[|]|];
      try (intros [= <- <- <-]; simpl; repeat split; auto; discriminate).
    destruct (if (op =? DMZ_OP_FORMAT) && (Z.land flags DMZ_OVERWRITE =? 0)
              then dmz_check_overwrite sys (named b) else (1, []))
      as [rc mc] eqn:Hchk.
    destruct (Z.leb_spec rc 0) as [Hrc|Hrc];
      [intros [= <- <- <-]; simpl; repeat split; auto; discriminate|].
    assert (Hmc : mc = []).
    { destruct ((op =? DMZ_OP_FORMAT) && (Z.land flags DMZ_OVERWRITE =? 0)).
      - destruct (check_overwrite_clean (named b)) as [Heq _].
        + rewrite Hchk. simpl. lia.
        + congruence.
      - congruence. }
    subst mc.
    destruct (Z.eqb_spec (dmz_bdev_mounted sys (named b)) 0) as [Hmnt|Hmnt];
      simpl negb; cbv iota;
      [|intros [= <- <- <-]; simpl; repeat split; auto; discriminate].
    destruct (dmz_bdev_busy sys (named b) None) as [[busy hld] mb].
    destruct (Z.eqb_spec busy 0) as [Hbusy|Hbusy]; simpl negb; cbv iota;
      [|intros [= <- <- <-]; simpl; repeat split; auto; discriminate].
    destruct (Z.ltb_spec (open_rdwr sys (path (named b))) 0) as [Hopen|Hopen].
    { intros [= <- <- <-]. simpl. repeat split; auto; discriminate. }
    destruct (dmz_get_bdev_info sys (opened sys b)) as [[ri bi] mi] eqn:Hinfo.
    pose proof (bdev_info_frame _ _ _ _ Hinfo) as (Hp & Hn & Hf & Hri & Hmi).
    cbn [opened with_name_fd path name fd] in Hp, Hn, Hf.
    destruct (Z.ltb_spec ri 0) as [Hneg|Hok]; intros [= <- <- <-].
    - unfold dmz_close_bdev.
      destruct (Z.leb_spec 0 (fd bi)); cbn [with_name_fd path name fd];
        repeat split; auto; try discriminate; try (right; lia); lia.
    - assert (ri = 0) by lia. subst ri. rewrite (Hmi eq_refl) in *.
      repeat split; auto; try congruence; try lia; try discriminate. }
  destruct Hmain as (Hr & Hp & Hn & Hok & Hfail).
  split; [exact Hr|]. split; [exact Hp|]. split; [exact Hn|].
  split; [|split; [|exact Hfail]].
  - intros Hend. rewrite Hp. apply basename_keeps_path. exact Hend.
  - intros H0. destruct (Hok H0) as (Hm & Hfd & Hge & Hstat & Hmnt & Hinfo).
    rewrite Hp. repeat split; auto.
    intros Hl.
    assert (Hl' : listed_in_mounts sys (named b)).
    { destruct Hl as (table & mnt & Ht & Hin & Hfs).
      exists table, mnt. rewrite <- Hp. auto. }
    apply dmz_bdev_mounted_listed in Hl'. lia.
Qed.

(** X20. A device with a holder is never opened, and neither is one whose
    holders directory cannot be read: whatever the operation and the flags
    are, [dmz_open_bdev] returns -1 when [scandir] fails on the holders
    directory or finds an entry other than [.] and [..]. *)
Theorem held_device_refused b op flags :
  (scandir sys (holders_path (named b)) = None ->
     fst (fst (dmz_open_bdev sys b op flags)) = -1) /\
  (forall names holder,
     scandir sys (holders_path (named b)) = Some names ->
     first_holder names = Some holder ->
     fst (fst (dmz_open_bdev sys b op flags)) = -1).
Proof.
  assert (Hbusy : forall busy hld mb,
            dmz_bdev_busy sys (named b) None = (busy, hld, mb) ->
            busy <> 0 ->
            fst (fst (dmz_open_bdev sys b op flags)) = -1).
  { intros busy hld mb Hb Hne. rewrite open_bdev_steps.
    destruct (stat_is_blk sys (path (named b))) as [[|]|]; try reflexivity.
    destruct (if (op =? DMZ_OP_FORMAT) && (Z.land flags DMZ_OVERWRITE =? 0)
              then dmz_check_overwrite sys (named b) else (1, []))
      as [rc mc].
    destruct (rc <=? 0); [reflexivity|].
    destruct (negb (dmz_bdev_mounted sys (named b) =? 0)); [reflexivity|].
    rewrite Hb. destruct (Z.eqb_spec busy 0); [contradiction|reflexivity]. }
  split.
  - intros Hs. eapply Hbusy.
    + unfold dmz_bdev_busy. rewrite Hs. reflexivity.
    + discriminate.
  - intros names holder Hs Hf. eapply Hbusy.
    + unfold dmz_bdev_busy. rewrite Hs, scan_holders_null, Hf. reflexivity.
    + discriminate.
Qed.

(** X21. The content probe gates formats without the overwrite flag, and
    nothing else.  Such a format is opened only when libblkid could probe
    the device, under the path as [basename] leaves it, and found nothing
    on it ([blkid_do_fullprobe] returned 1); any other operation, and a
    format with the flag, give the same result whatever libblkid would
    answer. *)
Theorem content_probe_gate b flags :
  (forall b' m,
     Z.land flags DMZ_OVERWRITE = 0 ->
     dmz_open_bdev sys b DMZ_OP_FORMAT flags = (0, b', m) ->
     path b' = path (named b) /\
     new_probe (blkid_of sys (path b')) = true /\
     0 <= enable_superblocks (blkid_of sys (path b')) /\
     0 <= enable_partitions (blkid_of sys (path b')) /\
     do_fullprobe (blkid_of sys (path b')) = 1) /\
  (forall op f,
     op <> DMZ_OP_FORMAT \/ Z.land flags DMZ_OVERWRITE <> 0 ->
     dmz_open_bdev (with_blkid sys f) b op flags
     = dmz_open_bdev sys b op flags).
Proof.
  split.
  - intros b' m Hflag Hopen.
    assert (Hp : path b' = path (named b)).
    { revert Hopen. rewrite open_bdev_steps.
      destruct (stat_is_blk sys (path (named b))) as [[|]|];
        try discriminate.
      destruct (if (DMZ_OP_FORMAT =? DMZ_OP_FORMAT)
                   && (Z.land flags DMZ_OVERWRITE =? 0)
                then dmz_check_overwrite sys (named b) else (1, []))
        as [rc mc].
      destruct (rc <=? 0); [discriminate|].
      destruct (negb (dmz_bdev_mounted sys (named b) =? 0)); [discriminate|].
      destruct (dmz_bdev_busy sys (named b) None) as [[busy hld] mb].
      destruct (negb (busy =? 0)); [discriminate|].
      destruct (open_rdwr sys (path (named b)) <? 0); [discriminate|].
      destruct (dmz_get_bdev_info sys (opened sys b)) as [[ri bi] mi] eqn:Hi.
      apply bdev_info_frame in Hi as (Hpi & _).
      destruct (ri <? 0); [discriminate|].
      intros [= <- _]. exact Hpi. }
    split; [exact Hp|]. rewrite Hp.
    revert Hopen. rewrite open_bdev_steps.
    destruct (stat_is_blk sys (path (named b))) as [[|]|]; try discriminate.
    rewrite Z.eqb_refl, Hflag. simpl andb. cbv iota.
    destruct (dmz_check_overwrite sys (named b)) as [rc mc] eqn:Hchk.
    destruct (Z.leb_spec rc 0); [discriminate|]. intros _.
    destruct (check_overwrite_clean (named b)) as (_ & Hres).
    + rewrite Hchk. simpl. lia.
    + exact Hres.
  - intros op f Hskip. unfold dmz_open_bdev.
    assert (Hc : (op =? DMZ_OP_FORMAT) && (Z.land flags DMZ_OVERWRITE =? 0)
                 = false).
    { destruct Hskip as [Hop|Hfl].
      - destruct (Z.eqb_spec op DMZ_OP_FORMAT); [contradiction|reflexivity].
      - destruct (Z.eqb_spec (Z.land flags DMZ_OVERWRITE) 0);
          [contradiction|apply andb_false_r]. }
    rewrite Hc. reflexivity.
Qed.

End ProbeFacts.

(** ** What an accepted table is *)

(** X22. When [dmz_get_dev_zones] returns 0, the number of zones it
    produced is the total of the zone counts of the backends (a 32-bit
    sum), the zone array has exactly that many entries, and the cursor is
    that total times the uniform zone size (a 64-bit product). *)
Theorem accepted_table_complete {h : dmz_h} k dev fuel m st :
  dmz_get_dev_zones k dev fuel = Returned 0 m st ->
  done_zones st = dev_nr_zones dev /\
  Z.of_nat (length (zones st)) = dev_nr_zones dev /\
  sector st = u64 (dev_nr_zones dev * zone_nr_sectors dev) /\
  m = None.
Proof.
  intros Hret.
  destruct (accepted_zone_count k dev fuel m st Hret) as (Hd & Hl & Hs).
  pose proof (dev_nr_zones_range dev) as Hr.
  repeat split; auto; [lia|].
  revert Hret. unfold dmz_get_dev_zones.
  destruct (negb (calloc_ok k)); [discriminate|].
  destruct (negb (malloc_ok k)); [discriminate|].
  generalize (initial dev). induction fuel as [|fuel IH]; intros st0; simpl;
    [discriminate|].
  destruct (loop_body k dev st0) as [st1|st1|r1 e1 st1|] eqn:Hb.
  - apply IH.
  - unfold final_checks. destruct (negb _); [discriminate|].
    destruct (negb _); [discriminate|]. now intros [= _ <- _].
  - intros [= -> _ _]. exfalso. revert Hb. unfold loop_body.
    destruct (_ <? _); [|discriminate].
    destruct (dmz_sector_to_bdev dev (sector st0)) as [[[d b]|] s];
      [|discriminate].
    destruct (is_regular (btype b)).
    + unfold emulate_zone. destruct (zones st0 !! _); discriminate.
    + unfold query_zones.
      destruct (blkreportzone k (ioctls st0) d s) as [r reply].
      destruct (Z.eqb_spec r 0) as [->|Hr0]; simpl.
      * destruct reply; [discriminate|].
        destruct (report_zones _ _ _ _ _) as [[e st2]|st2]; discriminate.
      * intros [= Hr1 _ _]. congruence.
  - discriminate.
Qed.

(** ** The further properties on concrete inputs *)

Lemma translation_injective_witness :
  dmz_sector_to_bdev (h := std_h) small_dev 5
    = (Some (0%nat, one_regular 8000 1), 5) /\ (5 : Z) = 5.
Proof.
  split; [reflexivity|].
  apply (proj2 (translation_injective (h := std_h) small_dev 5 5
                  ltac:(lia) ltac:(lia))
           0%nat (one_regular 8000 1) (one_regular 8000 1) 5);
    reflexivity.
Defined.

Lemma translation_in_range_witness :
  exists i b,
    dmz_sector_to_bdev (h := std_h) (zoned_then_regular 2) 100000
      = (Some (i, b), 100000 - sector_offset_of (h := std_h) b) /\
    bdev (zoned_then_regular 2) !! i = Some b /\
    0 <= 100000 - sector_offset_of (h := std_h) b < capacity b.
Proof.
  apply (proj1 (translation_in_range (h := std_h) (zoned_then_regular 2))).
  - unfold laid_out. simpl. repeat split.
  - vm_compute. split; [discriminate|reflexivity].
  - lia.
Defined.

Lemma translation_monotone_witness :
  exists i' b' r',
    dmz_sector_to_bdev (h := std_h) (zoned_then_regular 2) 70000
      = (Some (i', b'), r') /\ (0 <= i')%nat.
Proof.
  apply (proj2 (translation_monotone (h := std_h) (zoned_then_regular 2)
                  10 70000 0%nat (zoned_bdev 65536 0 1) 10 ltac:(lia))).
  reflexivity.
Defined.

Lemma sector_translation_of_block_witness :
  dmz_sector_to_bdev (h := std_h) (zoned_then_regular 2) (9000 * 2 ^ 3 + 5)
  = (Some (1%nat, regular_bdev 131072 8192 2), 808 * 2 ^ 3 + 5).
Proof.
  apply (sector_translation_of_block (h := std_h) (zoned_then_regular 2)
           9000 5).
  - simpl. lia.
  - repeat constructor; simpl; lia.
  - simpl. lia.
  - simpl. lia.
Defined.

Ltac report_asked :=
  unfold asks_report;
  repeat match goal with |- _ /\ _ => split end;
  try run;
  eexists; repeat split; run.

Lemma report_failure_aborts_witness :
  dmz_get_dev_zones (h := std_h) silent (zoned_only 131072 2) 5%nat
    = Returned (-1) (Some E_REPORT_ZONES)
        (ioctl_done (initial (zoned_only 131072 2)) (-1)) /\
  zones (ioctl_done (initial (zoned_only 131072 2)) (-1))
    = zones (initial (zoned_only 131072 2)).
Proof.
  apply (report_failure_aborts (h := std_h) silent (zoned_only 131072 2)
           0%nat (initial (zoned_only 131072 2)) 0%nat
           (zoned_bdev 131072 0 2) (-1) [] 5%nat).
  - report_asked.
  - discriminate.
  - lia.
Defined.

Lemma empty_report_ends_loop_witness :
  dmz_get_dev_zones (h := std_h) (reporting 65536 []) (zoned_only 131072 2)
      5%nat
    = Returned (-1) (Some E_NR_ZONES)
        (ioctl_done (initial (zoned_only 131072 2)) 0).
Proof.
  apply (empty_report_ends_loop (h := std_h) (reporting 65536 [])
           (zoned_only 131072 2) 0%nat (initial (zoned_only 131072 2))
           0%nat (zoned_bdev 131072 0 2) 5%nat).
  - report_asked.
  - lia.
  - vm_compute. discriminate.
Defined.

Lemma surplus_zone_rejected_witness :
  dmz_get_dev_zones (h := std_h) (reporting 65536 two_zones)
      (zoned_only 131072 1) 5%nat
    = Returned (-1) (Some E_ZONE_START) one_of_one.
Proof.
  apply (surplus_zone_rejected (h := std_h) (reporting 65536 two_zones)
           (zoned_only 131072 1) 0%nat (initial (zoned_only 131072 1))
           0%nat (zoned_bdev 131072 0 1) [full_zone 0] (full_zone 1) []
           one_of_one 5%nat).
  - report_received.
  - run.
  - left. reflexivity.
  - vm_compute. discriminate.
  - vm_compute. discriminate.
  - lia.
Defined.

Lemma report_taken_over_witness :
  exists st',
    after (h := std_h) (reporting 65536 two_zones) (zoned_only 131072 2)
      1 (initial (zoned_only 131072 2)) = Some st' /\
    done_zones st' = 2 /\ sector st' = 131072.
Proof.
  destruct (report_taken_over (h := std_h) (reporting 65536 two_zones)
              (zoned_only 131072 2) 0%nat (initial (zoned_only 131072 2))
              0%nat (zoned_bdev 131072 0 2) two_zones)
    as (st' & Ha & Hd & Hs & _).
  - report_received.
  - discriminate.
  - repeat constructor; vm_compute; discriminate.
  - vm_compute. discriminate.
  - exists st'. split; [exact Ha|]. split; [exact Hd|]. rewrite Hs. reflexivity.
Defined.

Lemma uniform_zoned_device_accepted_witness :
  exists st,
    dmz_get_dev_zones (h := std_h) (reporting 65536 two_zones)
      (zoned_only 131072 2) 5%nat = Returned 0 None st /\
    zones st = two_zones /\
    foldr Z.add 0 (map zlen (zones st)) = 131072.
Proof.
  apply (uniform_zoned_device_accepted (h := std_h)
           (reporting 65536 two_zones) (zoned_only 131072 2)
           (zoned_bdev 131072 0 2) two_zones 5%nat);
    try reflexivity; try (simpl; lia).
  - intros [|[|j]] z Hj; try discriminate; injection Hj as <-;
      (repeat split; try reflexivity; vm_compute; discriminate).
Defined.

Lemma regular_only_never_accepted_witness :
  dmz_get_dev_zones (h := std_h) silent regular_only 20%nat
    = Returned (-1) None (regular_only_final (h := std_h)) /\ (-1 : Z) = -1.
Proof.
  assert (Hrun : dmz_get_dev_zones (h := std_h) silent regular_only 20%nat
                 = Returned (-1) None (regular_only_final (h := std_h))) by run.
  split; [exact Hrun|].
  apply (regular_only_never_accepted (h := std_h) silent regular_only 20%nat
           (-1) None (regular_only_final (h := std_h))).
  - repeat constructor.
  - exact Hrun.
Defined.

Lemma zoned_only_never_traps_witness :
  dmz_get_dev_zones (h := std_h) (reporting 65536 [shrunk_zone])
    (zoned_only 131072 2) 5%nat <> Trap.
Proof.
  apply (zoned_only_never_traps (h := std_h)).
  - repeat constructor. discriminate.
  - exists (zoned_bdev 131072 0 2). split; [|reflexivity].
    apply list_elem_of_In. now left.
Defined.

Lemma one_regular_backend_table_witness :
  exists st,
    dmz_get_dev_zones (h := std_h) silent regular_only 17%nat
      = Returned (-1) None st /\
    zones st = map (regular_zone (h := std_h) 65536 1000000) (seq 0 16) /\
    done_zones st = 16 /\
    foldr Z.add 0 (map zlen (zones st)) = 1000000.
Proof.
  apply (one_regular_backend_table (h := std_h) silent regular_only
           (regular_bdev 1000000 0 16) 16 17);
    try reflexivity; try (simpl; lia).
Defined.

Lemma one_regular_backend_overrun_witness :
  dmz_get_dev_zones (h := std_h) silent regular_undercounted 16%nat = Trap.
Proof.
  apply (one_regular_backend_overrun (h := std_h) silent regular_undercounted
           (regular_bdev 1000000 0 15) 15 16);
    try reflexivity; try (simpl; lia).
Defined.

Lemma block_written_is_read_back_witness :
  dmz_write_block 12 4096 whole_blocks blank_disk small_dev 5 sevens
    = Some (0, write_bytes blank_disk 3 20480 sevens, []) /\
  dmz_read_block 12 4096 whole_blocks
      (write_bytes blank_disk 3 20480 sevens) small_dev 5 (replicate 4096 0)
    = Some (0, sevens, []).
Proof.
  split; [reflexivity|].
  destruct (block_written_is_read_back 12 4096 whole_blocks whole_blocks
              blank_disk (write_bytes blank_disk 3 20480 sevens) small_dev 5
              sevens (replicate 4096 0) [])
    as (i & b & lb & Hto & _ & Hfull & _).
  - lia.
  - reflexivity.
  - reflexivity.
  - reflexivity.
  - apply Hfull. reflexivity.
Defined.

Lemma write_leaves_other_blocks_witness :
  dmz_read_block 12 4096 whole_blocks
    (write_bytes blank_disk 3 20480 sevens) small_dev 6 (replicate 4096 1)
  = dmz_read_block 12 4096 whole_blocks blank_disk small_dev 6
      (replicate 4096 1).
Proof.
  apply (write_leaves_other_blocks 12 4096 whole_blocks whole_blocks
           blank_disk (write_bytes blank_disk 3 20480 sevens) small_dev 5 6
           sevens (replicate 4096 1) 0 []).
  - lia.
  - reflexivity.
  - repeat constructor. intros Hin. inversion Hin.
  - repeat constructor. simpl. lia.
  - lia.
  - lia.
  - lia.
  - lia.
  - lia.
  - reflexivity.
Defined.

Lemma sync_stops_at_first_failure_witness :
  fst (dmz_sync_dev whole_blocks (zoned_then_regular 2)) = -1 /\
  exists (j : nat) b,
    bdev (zoned_then_regular 2) !! j = Some b /\
    fsync_result whole_blocks j (fd b) < 0 /\
    (forall (j' : nat) b', (j' < j)%nat ->
       bdev (zoned_then_regular 2) !! j' = Some b' ->
       0 <= fsync_result whole_blocks j' (fd b')) /\
    snd (dmz_sync_dev whole_blocks (zoned_then_regular 2))
      = map fd (take (S j) (bdev (zoned_then_regular 2))).
Proof.
  apply (proj2 (proj2 (sync_stops_at_first_failure whole_blocks
                         (zoned_then_regular 2)))).
  vm_compute. discriminate.
Defined.

Lemma zoned_type_only_for_zoned_disks_witness :
  fopen_partition zoned_host (partition_attribute sdc) = FOPEN_ENOENT /\
  read_zoned zoned_host (zoned_attribute sdc) = Some (Some "host-managed").
Proof.
  apply (proj1 (proj2 (proj2 (proj2
           (zoned_type_only_for_zoned_disks zoned_host sdc 0
              (with_type sdc DMZ_TYPE_ZONED_HM) [] eq_refl))))); reflexivity.
Defined.

Lemma probed_geometry_witness :
  0 < bdev_zone_nr_sectors sdc_probed < 2 ^ 64 /\
  Z.land (bdev_zone_nr_sectors sdc_probed) (@DMZ_BLOCK_SECTORS_MASK std_h)
    = 0 /\
  0 < nr_zones sdc_probed < 2 ^ 32 /\
  (capacity sdc_probed / bdev_zone_nr_sectors sdc_probed < 2 ^ 32 - 1 ->
     (nr_zones sdc_probed - 1) * bdev_zone_nr_sectors sdc_probed
       < capacity sdc_probed
       <= nr_zones sdc_probed * bdev_zone_nr_sectors sdc_probed).
Proof.
  apply (proj2 (proj2 (proj2 (proj2 (proj2 (proj2 (proj2 (proj2
           (probed_geometry (h := std_h) zoned_host
              (with_type sdc DMZ_TYPE_ZONED_HM) sdc_probed [] eq_refl))))))))).
  discriminate.
Defined.

(** The disk is given as [/dev/sdb/] on a system that knows it as
    [/dev/sdb] only: it is opened, and the path is left as [/dev/sdb]. *)
Lemma open_bdev_outcome_witness :
  dmz_open_bdev (h := std_h) (sdb_only_host (Some [root_fs]) blank_probe [])
      sdb_slash (@DMZ_OP_FORMAT std_h) 0
    = (0, sdb_opened, []) /\
  path sdb_opened = fst (basename (path sdb_slash)) /\
  name sdb_opened = snd (basename (path sdb_slash)) /\
  fd sdb_opened
    = open_rdwr (sdb_only_host (Some [root_fs]) blank_probe [])
        (path sdb_opened) /\
  ~ listed_in_mounts (sdb_only_host (Some [root_fs]) blank_probe [])
      sdb_opened.
Proof.
  assert (Hopen :
    dmz_open_bdev (h := std_h) (sdb_only_host (Some [root_fs]) blank_probe [])
        sdb_slash (@DMZ_OP_FORMAT std_h) 0
      = (0, sdb_opened, [])) by reflexivity.
  destruct (open_bdev_outcome (h := std_h)
              (sdb_only_host (Some [root_fs]) blank_probe []) sdb_slash
              (@DMZ_OP_FORMAT std_h) 0 0 sdb_opened [] Hopen)
    as (_ & Hpath & Hname & _ & Hok & _).
  destruct (Hok eq_refl) as (_ & Hfd & _ & _ & Hmnt & _).
  repeat split; assumption.
Defined.

Lemma held_device_refused_witness :
  fst (fst (dmz_open_bdev (h := std_h)
              (demo_host (Some [root_fs]) blank_probe ["dm-0"]) sdb
              (@DMZ_OP_FORMAT std_h) (@DMZ_OVERWRITE std_h))) = -1.
Proof.
  apply (proj2 (held_device_refused (h := std_h)
                  (demo_host (Some [root_fs]) blank_probe ["dm-0"]) sdb
                  (@DMZ_OP_FORMAT std_h) (@DMZ_OVERWRITE std_h))
           ["."; ".."; "dm-0"] "dm-0"); reflexivity.
Defined.

Lemma content_probe_gate_witness :
  do_fullprobe (blkid_of (sdb_only_host (Some [root_fs]) blank_probe [])
                  (path sdb_opened)) = 1 /\
  dmz_open_bdev (h := std_h) (with_blkid zoned_host (fun _ => ext4_probe)) sdc
    (@DMZ_OP_FORMAT std_h) (@DMZ_OVERWRITE std_h)
  = dmz_open_bdev (h := std_h) zoned_host sdc
      (@DMZ_OP_FORMAT std_h) (@DMZ_OVERWRITE std_h).
Proof.
  split.
  - apply (proj1 (content_probe_gate (h := std_h)
                    (sdb_only_host (Some [root_fs]) blank_probe [])
                    sdb_slash 0)
             sdb_opened []); reflexivity.
  - apply (proj2 (content_probe_gate (h := std_h) zoned_host sdc
                    (@DMZ_OVERWRITE std_h))).
    right. vm_compute. discriminate.
Defined.

Lemma accepted_table_complete_witness :
  done_zones two_zones_final = dev_nr_zones (zoned_only 131072 2) /\
  Z.of_nat (length (zones two_zones_final))
    = dev_nr_zones (zoned_only 131072 2) /\
  sector two_zones_final
    = u64 (dev_nr_zones (zoned_only 131072 2)
           * zone_nr_sectors (zoned_only 131072 2)) /\
  (None : option diag) = None.
Proof.
  apply (accepted_table_complete (h := std_h) (reporting 65536 two_zones)
           (zoned_only 131072 2) 5%nat None two_zones_final).
  run.
Defined.
